(** * Orchestra: the coordination engine (models.py, state.py)

    A shallow embedding of the data model of [orchestra/models.py] and of
    the [StateManager] of [orchestra/state.py], followed by the properties
    of the task, review, inbox, voting and persistence operations.

    Conventions.
    - Python objects that are mutated in place ([self._state], the tasks,
      reviews and votes inside it, the two files of the state directory)
      live in one [StateManager.t] value that every operation threads
      through a small state-and-exception monad.
    - [uuid.uuid4()] and [datetime.utcnow()] are inputs of the operation
      that calls them.
    - [dict[str, str]] is a [gmap string string]; lists are lists.
    - The JSON text of the state file is kept as its parse tree ([json]):
      [json.loads] of what [model_dump_json] wrote is that tree. *)

From Stdlib Require Import NArith Ascii String.
From stdpp Require Import base option list strings gmap.

Local Open Scope string_scope.
Local Open Scope N_scope.
Local Open Scope list_scope.

(** ** Enumerations of models.py *)

Module AgentRole.
Inductive t := CLAUDE | GEMINI | CODEX | COPILOT.

Definition value (a : t) : string :=
  match a with
  | CLAUDE => "claude"
  | GEMINI => "gemini"
  | CODEX => "codex"
  | COPILOT => "copilot"
  end.

Definition members : list t := [CLAUDE; GEMINI; CODEX; COPILOT].
End AgentRole.

Module Priority.
Inductive t := LOW | NORMAL | HIGH | URGENT.

Definition value (p : t) : string :=
  match p with
  | LOW => "low"
  | NORMAL => "normal"
  | HIGH => "high"
  | URGENT => "urgent"
  end.

Definition members : list t := [LOW; NORMAL; HIGH; URGENT].
End Priority.

Module TaskStatus.
Inductive t := PENDING | CLAIMED | IN_PROGRESS | REVIEW | COMPLETED | BLOCKED.

Definition value (s : t) : string :=
  match s with
  | PENDING => "pending"
  | CLAIMED => "claimed"
  | IN_PROGRESS => "in_progress"
  | REVIEW => "review"
  | COMPLETED => "completed"
  | BLOCKED => "blocked"
  end.

Definition members : list t :=
  [PENDING; CLAIMED; IN_PROGRESS; REVIEW; COMPLETED; BLOCKED].
End TaskStatus.

Module MessageType.
Inductive t :=
  TASK | QUESTION | RESPONSE | REVIEW_REQUEST | REVIEW_RESULT | BROADCAST
| ESCALATION.

Definition value (m : t) : string :=
  match m with
  | TASK => "task"
  | QUESTION => "question"
  | RESPONSE => "response"
  | REVIEW_REQUEST => "review_request"
  | REVIEW_RESULT => "review_result"
  | BROADCAST => "broadcast"
  | ESCALATION => "escalation"
  end.

Definition members : list t :=
  [TASK; QUESTION; RESPONSE; REVIEW_REQUEST; REVIEW_RESULT; BROADCAST;
   ESCALATION].
End MessageType.

#[global] Instance AgentRole_eq_dec : EqDecision AgentRole.t.
Proof. solve_decision. Defined.
#[global] Instance Priority_eq_dec : EqDecision Priority.t.
Proof. solve_decision. Defined.
#[global] Instance TaskStatus_eq_dec : EqDecision TaskStatus.t.
Proof. solve_decision. Defined.
#[global] Instance MessageType_eq_dec : EqDecision MessageType.t.
Proof. solve_decision. Defined.

(** [Enum(value)]: the member whose value is the given string, the lookup
    pydantic does when it validates a closed-set field. *)
Definition enum_of_value {A} (value : A → string) (members : list A)
    (s : string) : option A :=
  List.find (λ a, bool_decide (value a = s)) members.

(** ** datetime

    A naive [datetime.datetime] (no tzinfo), which is what [utcnow()]
    returns.  [valid] is the range invariant every Python datetime object
    satisfies. *)

Module datetime.
Record t := mk {
  year : N; month : N; day : N;
  hour : N; minute : N; second : N; microsecond : N
}.

Definition is_leap (y : N) : bool :=
  (y mod 4 =? 0) && (negb (y mod 100 =? 0) || (y mod 400 =? 0)).

Definition days_in_month (y m : N) : N :=
  if m =? 2 then (if is_leap y then 29 else 28)
  else if (m =? 4) || (m =? 6) || (m =? 9) || (m =? 11) then 30
  else 31.

Definition valid (d : t) : bool :=
  (1 <=? year d) && (year d <=? 9999) &&
  (1 <=? month d) && (month d <=? 12) &&
  (1 <=? day d) && (day d <=? days_in_month (year d) (month d)) &&
  (hour d <? 24) && (minute d <? 60) && (second d <? 60) &&
  (microsecond d <? 1000000).

(** [zfill w n]: the decimal digits of [n], zero-padded to width [w]
    (the "%0wd" of the ISO format). *)
Definition digit (d : N) : ascii := ascii_of_N (48 + d).

Fixpoint zfill (w : nat) (n : N) : string :=
  match w with
  | O => ""
  | S w' => zfill w' (n / 10) +:+ String (digit (n mod 10)) ""
  end.

(** [isoformat()]: "YYYY-MM-DDTHH:MM:SS", followed by ".ffffff" when the
    microsecond is not zero.  pydantic writes a naive datetime the same
    way. *)
Definition isoformat (d : t) : string :=
  zfill 4 (year d) +:+ "-" +:+ zfill 2 (month d) +:+ "-" +:+ zfill 2 (day d)
  +:+ "T" +:+ zfill 2 (hour d) +:+ ":" +:+ zfill 2 (minute d) +:+ ":"
  +:+ zfill 2 (second d)
  +:+ (if microsecond d =? 0 then "" else "." +:+ zfill 6 (microsecond d)).

Definition digit_value (c : ascii) : option N :=
  let n := N_of_ascii c in
  if (48 <=? n) && (n <=? 57) then Some (n - 48) else None.

(** Reads exactly [w] decimal digits off the front of [s]. *)
Fixpoint read_digits (w : nat) (s : string) : option (N * string) :=
  match w with
  | O => Some (0, s)
  | S w' =>
      match read_digits w' s with
      | Some (v, String c rest) =>
          match digit_value c with
          | Some d => Some (10 * v + d, rest)
          | None => None
          end
      | _ => None
      end
  end.

Definition expect (c : ascii) (s : string) : option string :=
  match s with
  | String c' rest => if decide (c' = c) then Some rest else None
  | EmptyString => None
  end.

(** Reading back the two forms [isoformat] writes.  The other spellings
    that pydantic also accepts (a space for the "T", a UTC offset, a
    shorter fraction, a number of seconds) are not produced by the engine
    and are rejected here. *)
Definition fromisoformat (s : string) : option t :=
  '(y, s) ← read_digits 4 s; s ← expect "-" s;
  '(mo, s) ← read_digits 2 s; s ← expect "-" s;
  '(d, s) ← read_digits 2 s; s ← expect "T" s;
  '(h, s) ← read_digits 2 s; s ← expect ":" s;
  '(mi, s) ← read_digits 2 s; s ← expect ":" s;
  '(se, s) ← read_digits 2 s;
  '(us, s) ← match s with
             | EmptyString => Some (0, s)
             | _ => s ← expect "." s; read_digits 6 s
             end;
  match s with
  | EmptyString =>
      let r := mk y mo d h mi se us in
      if valid r then Some r else None
  | _ => None
  end.
End datetime.

#[global] Instance datetime_eq_dec : EqDecision datetime.t.
Proof. solve_decision. Defined.

(** ** The JSON document

    The parse tree of a JSON text.  An object keeps its members in the
    order of the text. *)

#[warnings="-register-all"] Inductive json :=
| JNull
| JBool (b : bool)
| JNumber (n : Z)
| JString (s : string)
| JArray (items : list json)
| JObject (members : list (string * json)).

(** [json.loads] turns an object into a dict: when a key is repeated, the
    last member wins.  [obj_get k members] is [data.get(k)] on that dict. *)
Fixpoint obj_get (k : string) (members : list (string * json)) : option json :=
  match members with
  | [] => None
  | (k', v) :: rest =>
      match obj_get k rest with
      | Some v' => Some v'
      | None => if String.eqb k' k then Some v else None
      end
  end.

(** The same dict, for a member that is read as a whole mapping. *)
Definition obj_dict (members : list (string * json)) : gmap string json :=
  list_to_map (reverse members).

(** *** Writing values ([model_dump_json]) *)

Definition dump_optional {A} (dump : A → json) (o : option A) : json :=
  match o with
  | None => JNull
  | Some a => dump a
  end.

Definition dump_list {A} (dump : A → json) (l : list A) : json :=
  JArray (dump <$> l).

Definition dump_dict (d : gmap string string) : json :=
  JObject (prod_map id JString <$> map_to_list d).

Definition dump_datetime (d : datetime.t) : json :=
  JString (datetime.isoformat d).

(** *** Reading values (pydantic validation of the loaded dict)

    [None] is a [ValidationError].  Only the shapes that [model_dump_json]
    writes are accepted; the lax coercions pydantic applies to other
    shapes are not part of the engine's behaviour on its own file. *)

Definition validate_str (j : json) : option string :=
  match j with
  | JString s => Some s
  | _ => None
  end.

Definition validate_bool (j : json) : option bool :=
  match j with
  | JBool b => Some b
  | _ => None
  end.

Definition validate_datetime (j : json) : option datetime.t :=
  match j with
  | JString s => datetime.fromisoformat s
  | _ => None
  end.

Definition validate_enum {A} (value : A → string) (members : list A)
    (j : json) : option A :=
  match j with
  | JString s => enum_of_value value members s
  | _ => None
  end.

Definition validate_list {A} (validate : json → option A) (j : json)
    : option (list A) :=
  match j with
  | JArray items => mapM validate items
  | _ => None
  end.

Definition validate_dict (j : json) : option (gmap string string) :=
  match j with
  | JObject members =>
      let d := obj_dict members in
      if decide (map_Forall (λ _ v, is_Some (validate_str v)) d)
      then Some (omap validate_str d)
      else None
  | _ => None
  end.

(** A field without a default: a missing key is an error. *)
Definition required {A} (validate : json → option A) (k : string)
    (members : list (string * json)) : option A :=
  v ← obj_get k members; validate v.

(** A field with a default: a missing key takes the default. *)
Definition with_default {A} (validate : json → option A) (default : A)
    (k : string) (members : list (string * json)) : option A :=
  match obj_get k members with
  | None => Some default
  | Some v => validate v
  end.

(** [Optional[X] = None]: a missing key and [null] both give [None]. *)
Definition optional {A} (validate : json → option A) (k : string)
    (members : list (string * json)) : option (option A) :=
  match obj_get k members with
  | None | Some JNull => Some None
  | Some v => Some <$> validate v
  end.

(** ** The models of models.py

    In every [validate] below, [uuid] and [utcnow] stand for what the
    [default_factory] of an absent [id] or timestamp field draws. *)

Module Message.
Record t := mk {
  id : string;
  timestamp : datetime.t;
  from_agent : AgentRole.t;
  to_agent : option AgentRole.t;
  message_type : MessageType.t;
  content : string;
  priority : Priority.t;
  in_reply_to : option string;
  read : bool
}.

Definition set_read (b : bool) (m : t) : t :=
  mk (id m) (timestamp m) (from_agent m) (to_agent m) (message_type m)
     (content m) (priority m) (in_reply_to m) b.

Definition model_dump (m : t) : json :=
  JObject [
    ("id", JString (id m));
    ("timestamp", dump_datetime (timestamp m));
    ("from_agent", JString (AgentRole.value (from_agent m)));
    ("to_agent",
      dump_optional (λ a, JString (AgentRole.value a)) (to_agent m));
    ("message_type", JString (MessageType.value (message_type m)));
    ("content", JString (content m));
    ("priority", JString (Priority.value (priority m)));
    ("in_reply_to", dump_optional JString (in_reply_to m));
    ("read", JBool (read m))
  ].

Definition validate (uuid : string) (utcnow : datetime.t) (j : json)
    : option t :=
  match j with
  | JObject o =>
      id ← with_default validate_str uuid "id" o;
      timestamp ← with_default validate_datetime utcnow "timestamp" o;
      from_agent ←
        required (validate_enum AgentRole.value AgentRole.members)
          "from_agent" o;
      to_agent ←
        optional (validate_enum AgentRole.value AgentRole.members)
          "to_agent" o;
      message_type ←
        required (validate_enum MessageType.value MessageType.members)
          "message_type" o;
      content ← required validate_str "content" o;
      priority ←
        with_default (validate_enum Priority.value Priority.members)
          Priority.NORMAL "priority" o;
      in_reply_to ← optional validate_str "in_reply_to" o;
      read ← with_default validate_bool false "read" o;
      Some (mk id timestamp from_agent to_agent message_type content
              priority in_reply_to read)
  | _ => None
  end.
End Message.

Module Task.
Record t := mk {
  id : string;
  created_at : datetime.t;
  updated_at : datetime.t;
  title : string;
  description : string;
  status : TaskStatus.t;
  created_by : AgentRole.t;
  assigned_to : option AgentRole.t;
  claimed_by : option AgentRole.t;
  dependencies : list string;
  result : option string;
  files_modified : list string
}.

Definition set_updated_at (d : datetime.t) (x : t) : t :=
  mk (id x) (created_at x) d (title x) (description x) (status x)
     (created_by x) (assigned_to x) (claimed_by x) (dependencies x)
     (result x) (files_modified x).

Definition set_status (s : TaskStatus.t) (x : t) : t :=
  mk (id x) (created_at x) (updated_at x) (title x) (description x) s
     (created_by x) (assigned_to x) (claimed_by x) (dependencies x)
     (result x) (files_modified x).

Definition set_claimed_by (a : option AgentRole.t) (x : t) : t :=
  mk (id x) (created_at x) (updated_at x) (title x) (description x)
     (status x) (created_by x) (assigned_to x) a (dependencies x)
     (result x) (files_modified x).

Definition set_result (r : option string) (x : t) : t :=
  mk (id x) (created_at x) (updated_at x) (title x) (description x)
     (status x) (created_by x) (assigned_to x) (claimed_by x)
     (dependencies x) r (files_modified x).

Definition set_files_modified (l : list string) (x : t) : t :=
  mk (id x) (created_at x) (updated_at x) (title x) (description x)
     (status x) (created_by x) (assigned_to x) (claimed_by x)
     (dependencies x) (result x) l.

Definition model_dump (x : t) : json :=
  JObject [
    ("id", JString (id x));
    ("created_at", dump_datetime (created_at x));
    ("updated_at", dump_datetime (updated_at x));
    ("title", JString (title x));
    ("description", JString (description x));
    ("status", JString (TaskStatus.value (status x)));
    ("created_by", JString (AgentRole.value (created_by x)));
    ("assigned_to",
      dump_optional (λ a, JString (AgentRole.value a)) (assigned_to x));
    ("claimed_by",
      dump_optional (λ a, JString (AgentRole.value a)) (claimed_by x));
    ("dependencies", dump_list JString (dependencies x));
    ("result", dump_optional JString (result x));
    ("files_modified", dump_list JString (files_modified x))
  ].

Definition validate (uuid : string) (utcnow : datetime.t) (j : json)
    : option t :=
  match j with
  | JObject o =>
      id ← with_default validate_str uuid "id" o;
      created_at ← with_default validate_datetime utcnow "created_at" o;
      updated_at ← with_default validate_datetime utcnow "updated_at" o;
      title ← required validate_str "title" o;
      description ← required validate_str "description" o;
      status ←
        with_default (validate_enum TaskStatus.value TaskStatus.members)
          TaskStatus.PENDING "status" o;
      created_by ←
        required (validate_enum AgentRole.value AgentRole.members)
          "created_by" o;
      assigned_to ←
        optional (validate_enum AgentRole.value AgentRole.members)
          "assigned_to" o;
      claimed_by ←
        optional (validate_enum AgentRole.value AgentRole.members)
          "claimed_by" o;
      dependencies ←
        with_default (validate_list validate_str) [] "dependencies" o;
      result ← optional validate_str "result" o;
      files_modified ←
        with_default (validate_list validate_str) [] "files_modified" o;
      Some (mk id created_at updated_at title description status created_by
              assigned_to claimed_by dependencies result files_modified)
  | _ => None
  end.
End Task.

Module ReviewRequest.
Record t := mk {
  id : string;
  timestamp : datetime.t;
  from_agent : AgentRole.t;
  to_agent : AgentRole.t;
  task_id : option string;
  content : string;
  files : list string;
  verdict : option string;
  feedback : option string
}.

Definition set_verdict (v : option string) (r : t) : t :=
  mk (id r) (timestamp r) (from_agent r) (to_agent r) (task_id r)
     (content r) (files r) v (feedback r).

Definition set_feedback (f : option string) (r : t) : t :=
  mk (id r) (timestamp r) (from_agent r) (to_agent r) (task_id r)
     (content r) (files r) (verdict r) f.

Definition model_dump (r : t) : json :=
  JObject [
    ("id", JString (id r));
    ("timestamp", dump_datetime (timestamp r));
    ("from_agent", JString (AgentRole.value (from_agent r)));
    ("to_agent", JString (AgentRole.value (to_agent r)));
    ("task_id", dump_optional JString (task_id r));
    ("content", JString (content r));
    ("files", dump_list JString (files r));
    ("verdict", dump_optional JString (verdict r));
    ("feedback", dump_optional JString (feedback r))
  ].

Definition validate (uuid : string) (utcnow : datetime.t) (j : json)
    : option t :=
  match j with
  | JObject o =>
      id ← with_default validate_str uuid "id" o;
      timestamp ← with_default validate_datetime utcnow "timestamp" o;
      from_agent ←
        required (validate_enum AgentRole.value AgentRole.members)
          "from_agent" o;
      to_agent ←
        required (validate_enum AgentRole.value AgentRole.members)
          "to_agent" o;
      task_id ← optional validate_str "task_id" o;
      content ← required validate_str "content" o;
      files ← with_default (validate_list validate_str) [] "files" o;
      verdict ← optional validate_str "verdict" o;
      feedback ← optional validate_str "feedback" o;
      Some (mk id timestamp from_agent to_agent task_id content files
              verdict feedback)
  | _ => None
  end.
End ReviewRequest.

Module Vote.
Record t := mk {
  topic : string;
  options : list string;
  votes : gmap string string;
  deadline : option datetime.t;
  result : option string
}.

Definition set_votes (m : gmap string string) (v : t) : t :=
  mk (topic v) (options v) m (deadline v) (result v).

Definition model_dump (v : t) : json :=
  JObject [
    ("topic", JString (topic v));
    ("options", dump_list JString (options v));
    ("votes", dump_dict (votes v));
    ("deadline", dump_optional dump_datetime (deadline v));
    ("result", dump_optional JString (result v))
  ].

Definition validate (j : json) : option t :=
  match j with
  | JObject o =>
      topic ← required validate_str "topic" o;
      options ← required (validate_list validate_str) "options" o;
      votes ← with_default validate_dict ∅ "votes" o;
      deadline ← optional validate_datetime "deadline" o;
      result ← optional validate_str "result" o;
      Some (mk topic options votes deadline result)
  | _ => None
  end.
End Vote.

Module ConversationState.
Record t := mk {
  session_id : string;
  started_at : datetime.t;
  initial_prompt : option string;
  messages : list Message.t;
  tasks : list Task.t;
  reviews : list ReviewRequest.t;
  context : gmap string string;
  active_votes : list Vote.t;
  human_intervention_requested : bool;
  escalation_reason : option string
}.

(** [ConversationState()]: every field takes its default. *)
Definition fresh (uuid : string) (utcnow : datetime.t) : t :=
  mk uuid utcnow None [] [] [] ∅ [] false None.

Definition set_initial_prompt (p : option string) (s : t) : t :=
  mk (session_id s) (started_at s) p (messages s) (tasks s) (reviews s)
     (context s) (active_votes s) (human_intervention_requested s)
     (escalation_reason s).

Definition set_messages (l : list Message.t) (s : t) : t :=
  mk (session_id s) (started_at s) (initial_prompt s) l (tasks s)
     (reviews s) (context s) (active_votes s)
     (human_intervention_requested s) (escalation_reason s).

Definition set_tasks (l : list Task.t) (s : t) : t :=
  mk (session_id s) (started_at s) (initial_prompt s) (messages s) l
     (reviews s) (context s) (active_votes s)
     (human_intervention_requested s) (escalation_reason s).

Definition set_reviews (l : list ReviewRequest.t) (s : t) : t :=
  mk (session_id s) (started_at s) (initial_prompt s) (messages s)
     (tasks s) l (context s) (active_votes s)
     (human_intervention_requested s) (escalation_reason s).

Definition set_context (c : gmap string string) (s : t) : t :=
  mk (session_id s) (started_at s) (initial_prompt s) (messages s)
     (tasks s) (reviews s) c (active_votes s)
     (human_intervention_requested s) (escalation_reason s).

Definition set_active_votes (l : list Vote.t) (s : t) : t :=
  mk (session_id s) (started_at s) (initial_prompt s) (messages s)
     (tasks s) (reviews s) (context s) l
     (human_intervention_requested s) (escalation_reason s).

Definition set_human_intervention_requested (b : bool) (s : t) : t :=
  mk (session_id s) (started_at s) (initial_prompt s) (messages s)
     (tasks s) (reviews s) (context s) (active_votes s) b
     (escalation_reason s).

Definition set_escalation_reason (r : option string) (s : t) : t :=
  mk (session_id s) (started_at s) (initial_prompt s) (messages s)
     (tasks s) (reviews s) (context s) (active_votes s)
     (human_intervention_requested s) r.

Definition model_dump (s : t) : json :=
  JObject [
    ("session_id", JString (session_id s));
    ("started_at", dump_datetime (started_at s));
    ("initial_prompt", dump_optional JString (initial_prompt s));
    ("messages", dump_list Message.model_dump (messages s));
    ("tasks", dump_list Task.model_dump (tasks s));
    ("reviews", dump_list ReviewRequest.model_dump (reviews s));
    ("context", dump_dict (context s));
    ("active_votes", dump_list Vote.model_dump (active_votes s));
    ("human_intervention_requested",
      JBool (human_intervention_requested s));
    ("escalation_reason", dump_optional JString (escalation_reason s))
  ].

(** The constructor call of [initialize], on the [data] that [json.loads]
    returned: every member is looked up by its field name. *)
Definition validate (uuid : string) (utcnow : datetime.t) (j : json)
    : option t :=
  match j with
  | JObject o =>
      session_id ← with_default validate_str uuid "session_id" o;
      started_at ← with_default validate_datetime utcnow "started_at" o;
      initial_prompt ← optional validate_str "initial_prompt" o;
      messages ←
        with_default (validate_list (Message.validate uuid utcnow)) []
          "messages" o;
      tasks ←
        with_default (validate_list (Task.validate uuid utcnow)) []
          "tasks" o;
      reviews ←
        with_default (validate_list (ReviewRequest.validate uuid utcnow)) []
          "reviews" o;
      context ← with_default validate_dict ∅ "context" o;
      active_votes ←
        with_default (validate_list Vote.validate) [] "active_votes" o;
      human_intervention_requested ←
        with_default validate_bool false "human_intervention_requested" o;
      escalation_reason ← optional validate_str "escalation_reason" o;
      Some (mk session_id started_at initial_prompt messages tasks reviews
              context active_votes human_intervention_requested
              escalation_reason)
  | _ => None
  end.
End ConversationState.

#[global] Instance Message_eq_dec : EqDecision Message.t.
Proof. solve_decision. Defined.
#[global] Instance Task_eq_dec : EqDecision Task.t.
Proof. solve_decision. Defined.
#[global] Instance ReviewRequest_eq_dec : EqDecision ReviewRequest.t.
Proof. solve_decision. Defined.
#[global] Instance Vote_eq_dec : EqDecision Vote.t.
Proof. solve_decision. Defined.
#[global] Instance ConversationState_eq_dec : EqDecision ConversationState.t.
Proof. solve_decision. Defined.

(** ** The StateManager of state.py *)

Inductive exn :=
| RuntimeError (msg : string)
| AttributeError
| ValidationError.

Inductive outcome (A : Type) :=
| Return (a : A)
| Raise (e : exn).
Arguments Return {A} a.
Arguments Raise {A} e.

Definition nl : string := String "010"%char EmptyString.

Module StateManager.

(** [self]: the in-memory state ([None] before [initialize]) and the
    contents of the two files of the state directory ([None] when the
    file does not exist). *)
Record t := mk {
  _state : option ConversationState.t;
  state_file : option json;
  conversation_log : option string
}.

(** A method: it returns or raises, and leaves [self] behind. *)
Definition M (A : Type) : Type := t → outcome A * t.

#[global] Instance M_ret : MRet M := λ A a self, (Return a, self).
#[global] Instance M_bind : MBind M := λ A B f m self,
  match m self with
  | (Return a, self') => f a self'
  | (Raise e, self') => (Raise e, self')
  end.

(** [__init__]: nothing is loaded yet; the files are whatever the
    directory holds. *)
Definition init (state_file : option json) (conversation_log : option string)
    : t :=
  mk None state_file conversation_log.

(** The [state] property. *)
Definition state : M ConversationState.t := λ self,
  match _state self with
  | None =>
      (Raise (RuntimeError "State not initialized. Call initialize() first."),
       self)
  | Some s => (Return s, self)
  end.

(** [self._state = s]. *)
Definition put (s : ConversationState.t) : M unit := λ self,
  (Return (), mk (Some s) (state_file self) (conversation_log self)).

(** An in-place mutation of the object behind [self.state]. *)
Definition mutate (f : ConversationState.t → ConversationState.t) : M unit :=
  s ← state; put (f s).

Definition _save : M unit := λ self,
  match _state self with
  | None => (Raise AttributeError, self)
  | Some s =>
      (Return (), mk (_state self) (Some (ConversationState.model_dump s))
                     (conversation_log self))
  end.

Definition _append_to_log (entry : string) : M unit := λ self,
  (Return (), mk (_state self) (state_file self)
                 (Some (default "" (conversation_log self) +:+ entry
                        +:+ nl +:+ nl))).

Definition initialize (uuid : string) (utcnow : datetime.t)
    : M ConversationState.t := λ self,
  match state_file self with
  | Some data =>
      match ConversationState.validate uuid utcnow data with
      | Some s =>
          (Return s, mk (Some s) (state_file self) (conversation_log self))
      | None => (Raise ValidationError, self)
      end
  | None =>
      let s := ConversationState.fresh uuid utcnow in
      (_save;; mret s)
        (mk (Some s) (state_file self) (conversation_log self))
  end.

(** *** Message operations *)

(** The transcript entries (the f-strings handed to [_append_to_log]). *)
Definition message_entry (msg : Message.t) (target : string) : string :=
  "---" +:+ nl +:+ "**[" +:+ datetime.isoformat (Message.timestamp msg)
  +:+ "]** `" +:+ AgentRole.value (Message.from_agent msg) +:+ "` → `"
  +:+ target +:+ "` (" +:+ MessageType.value (Message.message_type msg)
  +:+ ")" +:+ nl +:+ nl +:+ Message.content msg.

Definition task_created_entry (task : Task.t) : string :=
  "---" +:+ nl +:+ "**[TASK CREATED]** `" +:+ Task.id task +:+ "` by `"
  +:+ AgentRole.value (Task.created_by task) +:+ "`" +:+ nl +:+ nl
  +:+ "**Title:** " +:+ Task.title task +:+ nl +:+ "**Assigned:** "
  +:+ match Task.assigned_to task with
      | Some a => AgentRole.value a
      | None => "Unassigned"
      end
  +:+ nl +:+ nl +:+ Task.description task.

Definition task_claimed_entry (task_id : string) (agent : AgentRole.t)
    : string :=
  "---" +:+ nl +:+ "**[TASK CLAIMED]** `" +:+ task_id +:+ "` claimed by `"
  +:+ AgentRole.value agent +:+ "`".

Definition task_completed_entry (task_id : string) (agent : AgentRole.t)
    (result : string) (files_modified : option (list string)) : string :=
  "---" +:+ nl +:+ "**[TASK COMPLETED]** `" +:+ task_id +:+ "` by `"
  +:+ AgentRole.value agent +:+ "`" +:+ nl +:+ nl +:+ "**Result:**" +:+ nl
  +:+ result +:+ nl +:+ nl +:+ "**Files:** "
  +:+ String.concat ", " (default [] files_modified).

Definition escalation_entry (agent : AgentRole.t) (reason : string)
    : string :=
  "---" +:+ nl +:+ "**[ESCALATION]** `" +:+ AgentRole.value agent
  +:+ "` requests human intervention" +:+ nl +:+ nl +:+ reason.

Definition session_entry (s : ConversationState.t) (prompt : string)
    : string :=
  "# Orchestra Session `" +:+ ConversationState.session_id s +:+ "`"
  +:+ nl +:+ nl +:+ "**Started:** "
  +:+ datetime.isoformat (ConversationState.started_at s) +:+ nl +:+ nl
  +:+ "## Initial Prompt" +:+ nl +:+ nl +:+ prompt.

(** The contents of the messages the engine itself sends. *)
Definition review_request_content (review_id content : string) : string :=
  "[REVIEW REQUEST " +:+ review_id +:+ "]" +:+ nl +:+ nl +:+ content.

Definition review_result_content (review_id verdict feedback : string)
    : string :=
  "[REVIEW RESULT " +:+ review_id +:+ "]" +:+ nl +:+ nl +:+ "**Verdict:** "
  +:+ verdict +:+ nl +:+ nl +:+ feedback.

Definition vote_content (topic : string) (options : list string) : string :=
  "[VOTE] " +:+ topic +:+ nl +:+ nl +:+ "Options: "
  +:+ String.concat ", " options +:+ nl +:+ nl +:+ "Please vote!".

Definition escalation_content (reason : string) : string :=
  "[ESCALATION] Human intervention requested: " +:+ reason.

Definition send_message (uuid : string) (utcnow : datetime.t)
    (from_agent : AgentRole.t) (to_agent : option AgentRole.t)
    (content : string) (message_type : MessageType.t)
    (priority : Priority.t) (in_reply_to : option string)
    : M Message.t :=
  let msg :=
    Message.mk uuid utcnow from_agent to_agent message_type content priority
      in_reply_to false in
  mutate (λ s, ConversationState.set_messages
                 (ConversationState.messages s ++ [msg]) s);;
  _save;;
  let target :=
    match to_agent with
    | Some a => AgentRole.value a
    | None => "ALL"
    end in
  _append_to_log (message_entry msg target);;
  mret msg.

Definition is_for_agent (agent : AgentRole.t) (msg : Message.t) : bool :=
  bool_decide (Message.to_agent msg = Some agent)
  || bool_decide (Message.to_agent msg = None).

Definition is_from_self (agent : AgentRole.t) (msg : Message.t) : bool :=
  bool_decide (Message.from_agent msg = agent).

(** The loop of [get_inbox]; [rest] is what is still to be visited and the
    result is what gets appended to [messages] from there on. *)
Fixpoint get_inbox_loop (agent : AgentRole.t) (unread_only : bool)
    (rest : list Message.t) : list Message.t :=
  match rest with
  | [] => []
  | msg :: rest' =>
      if is_for_agent agent msg && negb (is_from_self agent msg) then
        if unread_only && Message.read msg
        then get_inbox_loop agent unread_only rest'
        else msg :: get_inbox_loop agent unread_only rest'
      else get_inbox_loop agent unread_only rest'
  end.

Definition get_inbox (agent : AgentRole.t) (unread_only : bool)
    : M (list Message.t) :=
  s ← state;
  mret (get_inbox_loop agent unread_only (ConversationState.messages s)).

(** The loop of [mark_read]: the first message with that id is flagged. *)
Fixpoint mark_read_loop (message_id : string) (rest : list Message.t)
    : list Message.t :=
  match rest with
  | [] => []
  | msg :: rest' =>
      if decide (Message.id msg = message_id)
      then Message.set_read true msg :: rest'
      else msg :: mark_read_loop message_id rest'
  end.

Definition mark_read (message_id : string) (agent : AgentRole.t) : M unit :=
  mutate (λ s, ConversationState.set_messages
                 (mark_read_loop message_id (ConversationState.messages s)) s);;
  _save.

(** [l[start:]]: a negative start counts from the end, and a start
    beyond either end is clamped to it. *)
Definition slice_from {A} (start : Z) (l : list A) : list A :=
  let n := Z.of_nat (List.length l) in
  let start :=
    if (start <? 0)%Z then Z.max (start + n) 0 else Z.min start n in
  drop (Z.to_nat start) l.

Definition get_conversation (limit : Z) : M (list Message.t) :=
  s ← state; mret (slice_from (- limit) (ConversationState.messages s)).

(** *** Task operations *)

Definition create_task (uuid : string)
    (utcnow_created utcnow_updated : datetime.t)
    (title description : string) (created_by : AgentRole.t)
    (assigned_to : option AgentRole.t) (dependencies : option (list string))
    : M Task.t :=
  let task :=
    Task.mk uuid utcnow_created utcnow_updated title description
      TaskStatus.PENDING created_by assigned_to None
      (default [] dependencies) None [] in
  mutate (λ s, ConversationState.set_tasks
                 (ConversationState.tasks s ++ [task]) s);;
  _save;;
  _append_to_log (task_created_entry task);;
  mret task.

Fixpoint get_task_loop (task_id : string) (rest : list Task.t)
    : option Task.t :=
  match rest with
  | [] => None
  | task :: rest' =>
      if decide (Task.id task = task_id) then Some task
      else get_task_loop task_id rest'
  end.

Definition get_task (task_id : string) : M (option Task.t) :=
  s ← state; mret (get_task_loop task_id (ConversationState.tasks s)).

(** [task.<field> = ...] on the task at position [i] of [state.tasks]. *)
Definition store_task (i : nat) (task : Task.t) : M unit :=
  mutate (λ s, ConversationState.set_tasks
                 (<[i := task]> (ConversationState.tasks s)) s).

(** The dependency loop of [claim_task]: [true] when it reaches its
    [return None], [false] when it runs to the end. *)
Fixpoint dependency_blocks (dependencies : list string) : M bool :=
  match dependencies with
  | [] => mret false
  | dep_id :: rest =>
      dep_task ← get_task dep_id;
      match dep_task with
      | Some d =>
          if decide (Task.status d ≠ TaskStatus.COMPLETED) then mret true
          else dependency_blocks rest
      | None => dependency_blocks rest
      end
  end.

Definition claimed_by_other (agent : AgentRole.t) (task : Task.t) : bool :=
  match Task.claimed_by task with
  | Some a => bool_decide (a ≠ agent)
  | None => false
  end.

(** The loop of [claim_task], at position [i] with [rest] still to visit. *)
Fixpoint claim_task_loop (task_id : string) (agent : AgentRole.t)
    (utcnow : datetime.t) (i : nat) (rest : list Task.t)
    : M (option Task.t) :=
  match rest with
  | [] => mret None
  | task :: rest' =>
      if decide (Task.id task = task_id) then
        if claimed_by_other agent task then mret None
        else
          blocked ← dependency_blocks (Task.dependencies task);
          if blocked : bool then mret None
          else
            let task := Task.set_claimed_by (Some agent) task in
            let task := Task.set_status TaskStatus.IN_PROGRESS task in
            let task := Task.set_updated_at utcnow task in
            store_task i task;;
            _save;;
            _append_to_log (task_claimed_entry task_id agent);;
            mret (Some task)
      else claim_task_loop task_id agent utcnow (S i) rest'
  end.

Definition claim_task (utcnow : datetime.t) (task_id : string)
    (agent : AgentRole.t) : M (option Task.t) :=
  s ← state;
  claim_task_loop task_id agent utcnow 0 (ConversationState.tasks s).

Fixpoint complete_task_loop (task_id : string) (agent : AgentRole.t)
    (result : string) (files_modified : option (list string))
    (utcnow : datetime.t) (i : nat) (rest : list Task.t)
    : M (option Task.t) :=
  match rest with
  | [] => mret None
  | task :: rest' =>
      if decide (Task.id task = task_id) then
        if decide (Task.claimed_by task ≠ Some agent) then mret None
        else
          let task := Task.set_status TaskStatus.COMPLETED task in
          let task := Task.set_result (Some result) task in
          let task :=
            Task.set_files_modified (default [] files_modified) task in
          let task := Task.set_updated_at utcnow task in
          store_task i task;;
          _save;;
          _append_to_log
            (task_completed_entry task_id agent result files_modified);;
          mret (Some task)
      else
        complete_task_loop task_id agent result files_modified utcnow (S i)
          rest'
  end.

Definition complete_task (utcnow : datetime.t) (task_id : string)
    (agent : AgentRole.t) (result : string)
    (files_modified : option (list string)) : M (option Task.t) :=
  s ← state;
  complete_task_loop task_id agent result files_modified utcnow 0
    (ConversationState.tasks s).

(** [get_tasks]: a filter that is [None] is not applied (every member of
    the two enums is a non-empty string, hence true in [if status:]). *)
Definition get_tasks (status : option TaskStatus.t)
    (assigned_to : option AgentRole.t) : M (list Task.t) :=
  s ← state;
  let tasks := ConversationState.tasks s in
  let tasks :=
    match status with
    | Some st => List.filter (λ x, bool_decide (Task.status x = st)) tasks
    | None => tasks
    end in
  let tasks :=
    match assigned_to with
    | Some a =>
        List.filter (λ x, bool_decide (Task.assigned_to x = Some a)) tasks
    | None => tasks
    end in
  mret tasks.

(** *** Review operations *)

Definition request_review (uuid : string) (utcnow : datetime.t)
    (uuid_msg : string) (utcnow_msg : datetime.t)
    (from_agent to_agent : AgentRole.t) (content : string)
    (task_id : option string) (files : option (list string))
    : M ReviewRequest.t :=
  let review :=
    ReviewRequest.mk uuid utcnow from_agent to_agent task_id content
      (default [] files) None None in
  mutate (λ s, ConversationState.set_reviews
                 (ConversationState.reviews s ++ [review]) s);;
  _save;;
  send_message uuid_msg utcnow_msg from_agent (Some to_agent)
    (review_request_content (ReviewRequest.id review) content)
    MessageType.REVIEW_REQUEST Priority.HIGH None;;
  mret review.

Definition store_review (i : nat) (review : ReviewRequest.t) : M unit :=
  mutate (λ s, ConversationState.set_reviews
                 (<[i := review]> (ConversationState.reviews s)) s).

Fixpoint submit_review_loop (uuid : string) (utcnow : datetime.t)
    (review_id : string) (agent : AgentRole.t) (verdict feedback : string)
    (i : nat) (rest : list ReviewRequest.t) : M (option ReviewRequest.t) :=
  match rest with
  | [] => mret None
  | review :: rest' =>
      if bool_decide (ReviewRequest.id review = review_id)
         && bool_decide (ReviewRequest.to_agent review = agent)
      then
        let review := ReviewRequest.set_verdict (Some verdict) review in
        let review := ReviewRequest.set_feedback (Some feedback) review in
        store_review i review;;
        _save;;
        send_message uuid utcnow agent (Some (ReviewRequest.from_agent review))
          (review_result_content review_id verdict feedback)
          MessageType.REVIEW_RESULT Priority.HIGH None;;
        mret (Some review)
      else
        submit_review_loop uuid utcnow review_id agent verdict feedback (S i)
          rest'
  end.

Definition submit_review (uuid : string) (utcnow : datetime.t)
    (review_id : string) (agent : AgentRole.t) (verdict feedback : string)
    : M (option ReviewRequest.t) :=
  s ← state;
  submit_review_loop uuid utcnow review_id agent verdict feedback 0
    (ConversationState.reviews s).

Definition get_pending_reviews (agent : AgentRole.t)
    : M (list ReviewRequest.t) :=
  s ← state;
  mret (List.filter
          (λ r, bool_decide (ReviewRequest.to_agent r = agent)
                && bool_decide (ReviewRequest.verdict r = None))
          (ConversationState.reviews s)).

(** *** Context operations *)

Definition set_context (key value : string) : M unit :=
  mutate (λ s, ConversationState.set_context
                 (<[key := value]> (ConversationState.context s)) s);;
  _save.

Definition get_context (key : string) : M (option string) :=
  s ← state; mret (ConversationState.context s !! key).

Definition append_context (key value : string) : M unit :=
  s ← state;
  let existing := default "" (ConversationState.context s !! key) in
  mutate (λ s, ConversationState.set_context
                 (<[key := if decide (existing = "") then value
                           else existing +:+ nl +:+ value]>
                    (ConversationState.context s)) s);;
  _save.

Definition get_all_context : M (gmap string string) :=
  s ← state; mret (ConversationState.context s).

(** *** Voting operations *)

Definition create_vote (uuid : string) (utcnow : datetime.t)
    (topic : string) (options : list string) : M Vote.t :=
  let vote := Vote.mk topic options ∅ None None in
  mutate (λ s, ConversationState.set_active_votes
                 (ConversationState.active_votes s ++ [vote]) s);;
  _save;;
  send_message uuid utcnow AgentRole.CLAUDE None
    (vote_content topic options)
    MessageType.BROADCAST Priority.NORMAL None;;
  mret vote.

Definition store_vote (i : nat) (vote : Vote.t) : M unit :=
  mutate (λ s, ConversationState.set_active_votes
                 (<[i := vote]> (ConversationState.active_votes s)) s).

Fixpoint cast_vote_loop (topic : string) (agent : AgentRole.t)
    (choice : string) (i : nat) (rest : list Vote.t) : M (option Vote.t) :=
  match rest with
  | [] => mret None
  | vote :: rest' =>
      if decide (Vote.topic vote = topic) then
        if decide (choice ∈ Vote.options vote) then
          let vote :=
            Vote.set_votes
              (<[AgentRole.value agent := choice]> (Vote.votes vote)) vote in
          store_vote i vote;;
          _save;;
          mret (Some vote)
        else cast_vote_loop topic agent choice (S i) rest'
      else cast_vote_loop topic agent choice (S i) rest'
  end.

Definition cast_vote (topic : string) (agent : AgentRole.t) (choice : string)
    : M (option Vote.t) :=
  s ← state;
  cast_vote_loop topic agent choice 0 (ConversationState.active_votes s).

(** *** Escalation *)

Definition escalate_to_human (uuid : string) (utcnow : datetime.t)
    (agent : AgentRole.t) (reason : string) : M unit :=
  mutate (ConversationState.set_human_intervention_requested true);;
  mutate (ConversationState.set_escalation_reason (Some reason));;
  _save;;
  _append_to_log (escalation_entry agent reason);;
  send_message uuid utcnow agent None
    (escalation_content reason)
    MessageType.ESCALATION Priority.URGENT None;;
  mret ().

Definition clear_escalation : M unit :=
  mutate (ConversationState.set_human_intervention_requested false);;
  mutate (ConversationState.set_escalation_reason None);;
  _save.

(** *** Session management *)

Definition set_initial_prompt (prompt : string) : M unit :=
  mutate (ConversationState.set_initial_prompt (Some prompt));;
  _save;;
  s ← state;
  _append_to_log (session_entry s prompt).

(** [conversation_log.unlink()], guarded by [exists()]. *)
Definition unlink_log : M unit := λ self,
  (Return (), mk (_state self) (state_file self) None).

Definition reset (uuid : string) (utcnow : datetime.t) : M unit :=
  put (ConversationState.fresh uuid utcnow);;
  _save;;
  unlink_log.

(** The dict that [get_status] returns. *)
Module Status.
Record counts := mk_counts {
  pending : nat;
  in_progress : nat;
  completed : nat;
  total : nat
}.

Record t := mk {
  session_id : string;
  started_at : string;
  message_count : nat;
  tasks : counts;
  pending_reviews : nat;
  human_intervention_requested : bool;
  escalation_reason : option string
}.
End Status.

Definition count_status (st : TaskStatus.t) (tasks : list Task.t) : nat :=
  List.length (List.filter (λ x, bool_decide (Task.status x = st)) tasks).

Definition get_status : M Status.t :=
  s ← state;
  let pending_tasks :=
    count_status TaskStatus.PENDING (ConversationState.tasks s) in
  let in_progress :=
    count_status TaskStatus.IN_PROGRESS (ConversationState.tasks s) in
  let completed :=
    count_status TaskStatus.COMPLETED (ConversationState.tasks s) in
  mret (Status.mk
          (ConversationState.session_id s)
          (datetime.isoformat (ConversationState.started_at s))
          (List.length (ConversationState.messages s))
          (Status.mk_counts pending_tasks in_progress completed
             (List.length (ConversationState.tasks s)))
          (List.length
             (List.filter
                (λ r, bool_decide (ReviewRequest.verdict r = None))
                (ConversationState.reviews s)))
          (ConversationState.human_intervention_requested s)
          (ConversationState.escalation_reason s)).

(** *** Calls

    One call of a mutating method, with what it draws from [uuid4] and
    [utcnow]; [run] issues a sequence of them on one manager, one after
    the other. *)

Inductive Call :=
| SendMessage (uuid : string) (utcnow : datetime.t)
    (from_agent : AgentRole.t) (to_agent : option AgentRole.t)
    (content : string) (message_type : MessageType.t)
    (priority : Priority.t) (in_reply_to : option string)
| MarkRead (message_id : string) (agent : AgentRole.t)
| CreateTask (uuid : string) (utcnow_created utcnow_updated : datetime.t)
    (title description : string) (created_by : AgentRole.t)
    (assigned_to : option AgentRole.t) (dependencies : option (list string))
| ClaimTask (utcnow : datetime.t) (task_id : string) (agent : AgentRole.t)
| CompleteTask (utcnow : datetime.t) (task_id : string)
    (agent : AgentRole.t) (result : string)
    (files_modified : option (list string))
| RequestReview (uuid : string) (utcnow : datetime.t)
    (uuid_msg : string) (utcnow_msg : datetime.t)
    (from_agent to_agent : AgentRole.t) (content : string)
    (task_id : option string) (files : option (list string))
| SubmitReview (uuid : string) (utcnow : datetime.t)
    (review_id : string) (agent : AgentRole.t) (verdict feedback : string)
| SetContext (key value : string)
| AppendContext (key value : string)
| CreateVote (uuid : string) (utcnow : datetime.t)
    (topic : string) (options : list string)
| CastVote (topic : string) (agent : AgentRole.t) (choice : string)
| EscalateToHuman (uuid : string) (utcnow : datetime.t)
    (agent : AgentRole.t) (reason : string)
| ClearEscalation
| SetInitialPrompt (prompt : string)
| Reset (uuid : string) (utcnow : datetime.t).

Definition call (c : Call) : M unit :=
  match c with
  | SendMessage uuid utcnow from_agent to_agent content message_type
      priority in_reply_to =>
      send_message uuid utcnow from_agent to_agent content message_type
        priority in_reply_to;; mret ()
  | MarkRead message_id agent => mark_read message_id agent
  | CreateTask uuid utcnow_created utcnow_updated title description
      created_by assigned_to dependencies =>
      create_task uuid utcnow_created utcnow_updated title description
        created_by assigned_to dependencies;; mret ()
  | ClaimTask utcnow task_id agent =>
      claim_task utcnow task_id agent;; mret ()
  | CompleteTask utcnow task_id agent result files_modified =>
      complete_task utcnow task_id agent result files_modified;; mret ()
  | RequestReview uuid utcnow uuid_msg utcnow_msg from_agent to_agent
      content task_id files =>
      request_review uuid utcnow uuid_msg utcnow_msg from_agent to_agent
        content task_id files;; mret ()
  | SubmitReview uuid utcnow review_id agent verdict feedback =>
      submit_review uuid utcnow review_id agent verdict feedback;; mret ()
  | SetContext key value => set_context key value
  | AppendContext key value => append_context key value
  | CreateVote uuid utcnow topic options =>
      create_vote uuid utcnow topic options;; mret ()
  | CastVote topic agent choice => cast_vote topic agent choice;; mret ()
  | EscalateToHuman uuid utcnow agent reason =>
      escalate_to_human uuid utcnow agent reason
  | ClearEscalation => clear_escalation
  | SetInitialPrompt prompt => set_initial_prompt prompt
  | Reset uuid utcnow => reset uuid utcnow
  end.

Definition is_reset (c : Call) : bool :=
  match c with
  | Reset _ _ => true
  | _ => false
  end.

Fixpoint run (calls : list Call) (self : t) : t :=
  match calls with
  | [] => self
  | c :: rest => run rest (call c self).2
  end.

End StateManager.

(** ** Notions used in the statements *)

(** The task that [task_id] resolves to is claimed by [agent] and has the
    dependency list [deps]. *)
Definition held_by (task_id : string) (agent : AgentRole.t)
    (deps : list string) (self : StateManager.t) : Prop :=
  ∃ s x,
    StateManager._state self = Some s
    ∧ StateManager.get_task_loop task_id (ConversationState.tasks s) = Some x
    ∧ Task.claimed_by x = Some agent
    ∧ Task.dependencies x = deps.

(** What one call can do to the list of tasks: nothing, append a task, or
    overwrite the first task with some id by a task with the same id and
    dependencies that keeps its owner, if it had one. *)
Inductive tasks_step (ts : list Task.t) : list Task.t → Prop :=
| tasks_same : tasks_step ts ts
| tasks_created (x : Task.t) : tasks_step ts (ts ++ [x])
| tasks_updated (i : nat) (x x' : Task.t) :
    list_find (λ y, Task.id y = Task.id x) ts = Some (i, x) →
    Task.id x' = Task.id x →
    Task.dependencies x' = Task.dependencies x →
    (∀ a, Task.claimed_by x = Some a → Task.claimed_by x' = Some a) →
    tasks_step ts (<[i := x']> ts).

(** The inbox as the specification words it: the messages addressed to
    [agent] or to nobody, not sent by [agent], and unread when only unread
    ones are asked for; in the order of the message list. *)
Definition inbox_spec (agent : AgentRole.t) (unread_only : bool)
    (messages : list Message.t) : list Message.t :=
  filter (λ m, (Message.to_agent m = Some agent ∨ Message.to_agent m = None)
               ∧ Message.from_agent m ≠ agent
               ∧ (unread_only = true → Message.read m = false))
    messages.

(** Every datetime held by the state satisfies the range invariant of
    Python's [datetime] objects. *)
Definition valid_timestamps (s : ConversationState.t) : bool :=
  datetime.valid (ConversationState.started_at s)
  && forallb (λ m, datetime.valid (Message.timestamp m))
       (ConversationState.messages s)
  && forallb (λ x, datetime.valid (Task.created_at x)
                   && datetime.valid (Task.updated_at x))
       (ConversationState.tasks s)
  && forallb (λ r, datetime.valid (ReviewRequest.timestamp r))
       (ConversationState.reviews s)
  && forallb (λ v, from_option datetime.valid true (Vote.deadline v))
       (ConversationState.active_votes s).

(** ** Sessions used as concrete inputs

    Each one is reached from an empty state directory through calls of the
    manager. *)

Module Examples.
Import StateManager.

Definition t0 : datetime.t := datetime.mk 2025 1 15 9 30 0 0.
Definition t1 : datetime.t := datetime.mk 2025 1 15 9 31 12 250000.
Definition t2 : datetime.t := datetime.mk 2025 1 15 9 32 40 0.
Definition t3 : datetime.t := datetime.mk 2025 1 15 9 33 5 17.

Definition fresh_session : t := Eval vm_compute in
  (initialize "5e551001" t0 (init None None)).2.

(** Scenario A of the specification: task "bbbb0002" depends on task
    "aaaa0001", both pending. *)
Definition scenario_a : t := Eval vm_compute in
  run [CreateTask "aaaa0001" t0 t0 "Parser" "Write the parser"
         AgentRole.CLAUDE None None;
       CreateTask "bbbb0002" t0 t0 "Printer" "Write the printer"
         AgentRole.CLAUDE (Some AgentRole.GEMINI) (Some ["aaaa0001"])]
    fresh_session.

(** A task whose only dependency names no task. *)
Definition ghost_dependency : t := Eval vm_compute in
  run [CreateTask "bbbb0002" t0 t0 "Printer" "Write the printer"
         AgentRole.CLAUDE None (Some ["deadbeef"])]
    fresh_session.

(** "aaaa0001" was claimed by codex and is in progress. *)
Definition scenario_a_started : t := Eval vm_compute in
  run [ClaimTask t1 "aaaa0001" AgentRole.CODEX] scenario_a.

(** "aaaa0001" was claimed and completed by codex ... *)
Definition scenario_a_done : t := Eval vm_compute in
  run [ClaimTask t1 "aaaa0001" AgentRole.CODEX;
       CompleteTask t1 "aaaa0001" AgentRole.CODEX "done" None]
    scenario_a.

(** ... and then "bbbb0002" was claimed by gemini. *)
Definition scenario_a_claimed : t := Eval vm_compute in
  run [ClaimTask t2 "bbbb0002" AgentRole.GEMINI] scenario_a_done.

(** Scenario D of the specification: copilot asks codex for a review. *)
Definition scenario_d : t := Eval vm_compute in
  run [RequestReview "cccc0003" t1 "dddd0004" t1 AgentRole.COPILOT
         AgentRole.CODEX "review diff" None None]
    fresh_session.

Definition scenario_d_approved : t := Eval vm_compute in
  run [SubmitReview "eeee0005" t2 "cccc0003" AgentRole.CODEX "APPROVED" "ok"]
    scenario_d.

(** Scenario B of the specification: a broadcast from claude, then a
    direct message from gemini to claude, which claude marks as read. *)
Definition scenario_b : t := Eval vm_compute in
  run [SendMessage "ffff0006" t1 AgentRole.CLAUDE None "hello"
         MessageType.BROADCAST Priority.NORMAL None;
       SendMessage "ffff0007" t2 AgentRole.GEMINI (Some AgentRole.CLAUDE)
         "hi" MessageType.RESPONSE Priority.NORMAL (Some "ffff0006");
       MarkRead "ffff0007" AgentRole.CLAUDE]
    fresh_session.

(** Scenario C of the specification: one vote on "lang". *)
Definition scenario_c : t := Eval vm_compute in
  run [CreateVote "abcd0008" t1 "lang" ["go"; "rust"]] fresh_session.

(** Two votes on the same topic. *)
Definition duplicate_topic : t := Eval vm_compute in
  run [CreateVote "abcd0008" t1 "lang" ["go"; "rust"];
       CreateVote "abcd0009" t2 "lang" ["python"; "go"]]
    fresh_session.

(** A session that has used every collection of the state. *)
Definition busy_session : t := Eval vm_compute in
  run [SetInitialPrompt "Build the pretty-printer";
       SetContext "branch" "main";
       AppendContext "branch" "feature/printer";
       CreateVote "abcd0008" t1 "lang" ["go"; "rust"];
       CastVote "lang" AgentRole.GEMINI "go";
       RequestReview "cccc0003" t2 "dddd0004" t2 AgentRole.GEMINI
         AgentRole.CODEX "review diff" (Some "bbbb0002")
         (Some ["printer.py"]);
       SubmitReview "eeee0005" t3 "cccc0003" AgentRole.CODEX "APPROVED" "ok";
       EscalateToHuman "ffff0006" t3 AgentRole.COPILOT "stuck"]
    scenario_a_claimed.

End Examples.

(** ** Elementary changes of the state

    Every call changes the conversation state by a sequence of the steps
    below.  [V] is what is known of the datetimes a step stores, and
    [resets] says whether a reset may be among the steps. *)

Definition call_clock (c : StateManager.Call) : list datetime.t :=
  match c with
  | StateManager.SendMessage _ utcnow _ _ _ _ _ _ => [utcnow]
  | StateManager.CreateTask _ utcnow_created utcnow_updated _ _ _ _ _ =>
      [utcnow_created; utcnow_updated]
  | StateManager.ClaimTask utcnow _ _ => [utcnow]
  | StateManager.CompleteTask utcnow _ _ _ _ => [utcnow]
  | StateManager.RequestReview _ utcnow _ utcnow_msg _ _ _ _ _ =>
      [utcnow; utcnow_msg]
  | StateManager.SubmitReview _ utcnow _ _ _ _ => [utcnow]
  | StateManager.CreateVote _ utcnow _ _ => [utcnow]
  | StateManager.EscalateToHuman _ utcnow _ _ => [utcnow]
  | StateManager.Reset _ utcnow => [utcnow]
  | _ => []
  end.

Inductive effect (V : datetime.t → Prop) (resets : Prop)
    (s : ConversationState.t) : ConversationState.t → Prop :=
| effect_message (msg : Message.t) :
    V (Message.timestamp msg) →
    Message.read msg = false →
    effect V resets s
      (ConversationState.set_messages
         (ConversationState.messages s ++ [msg]) s)
| effect_read (message_id : string) :
    effect V resets s
      (ConversationState.set_messages
         (StateManager.mark_read_loop message_id
            (ConversationState.messages s)) s)
| effect_task (x : Task.t) :
    V (Task.created_at x) → V (Task.updated_at x) →
    Task.status x = TaskStatus.PENDING →
    Task.claimed_by x = None →
    Task.result x = None →
    Task.files_modified x = [] →
    effect V resets s
      (ConversationState.set_tasks (ConversationState.tasks s ++ [x]) s)
| effect_claim (i : nat) (x : Task.t) (agent : AgentRole.t)
    (utcnow : datetime.t) :
    V utcnow →
    list_find (λ y, Task.id y = Task.id x) (ConversationState.tasks s)
    = Some (i, x) →
    StateManager.claimed_by_other agent x = false →
    effect V resets s
      (ConversationState.set_tasks
         (<[i := Task.set_updated_at utcnow
                   (Task.set_status TaskStatus.IN_PROGRESS
                      (Task.set_claimed_by (Some agent) x))]>
            (ConversationState.tasks s)) s)
| effect_complete (i : nat) (x : Task.t) (agent : AgentRole.t)
    (result : string) (files : list string) (utcnow : datetime.t) :
    V utcnow →
    list_find (λ y, Task.id y = Task.id x) (ConversationState.tasks s)
    = Some (i, x) →
    Task.claimed_by x = Some agent →
    effect V resets s
      (ConversationState.set_tasks
         (<[i := Task.set_updated_at utcnow
                   (Task.set_files_modified files
                      (Task.set_result (Some result)
                         (Task.set_status TaskStatus.COMPLETED x)))]>
            (ConversationState.tasks s)) s)
| effect_review (r : ReviewRequest.t) :
    V (ReviewRequest.timestamp r) →
    ReviewRequest.verdict r = None →
    ReviewRequest.feedback r = None →
    effect V resets s
      (ConversationState.set_reviews
         (ConversationState.reviews s ++ [r]) s)
| effect_verdict (i : nat) (r : ReviewRequest.t) (verdict feedback : string) :
    ConversationState.reviews s !! i = Some r →
    effect V resets s
      (ConversationState.set_reviews
         (<[i := ReviewRequest.set_feedback (Some feedback)
                   (ReviewRequest.set_verdict (Some verdict) r)]>
            (ConversationState.reviews s)) s)
| effect_context (key value : string) :
    effect V resets s
      (ConversationState.set_context
         (<[key := value]> (ConversationState.context s)) s)
| effect_vote (v : Vote.t) :
    Vote.votes v = ∅ →
    Vote.deadline v = None →
    effect V resets s
      (ConversationState.set_active_votes
         (ConversationState.active_votes s ++ [v]) s)
| effect_cast (i : nat) (v : Vote.t) (agent : AgentRole.t)
    (choice : string) :
    ConversationState.active_votes s !! i = Some v →
    choice ∈ Vote.options v →
    effect V resets s
      (ConversationState.set_active_votes
         (<[i := Vote.set_votes
                   (<[AgentRole.value agent := choice]> (Vote.votes v)) v]>
            (ConversationState.active_votes s)) s)
| effect_escalate (reason : string) :
    effect V resets s
      (ConversationState.set_escalation_reason (Some reason)
         (ConversationState.set_human_intervention_requested true s))
| effect_clear :
    effect V resets s
      (ConversationState.set_escalation_reason None
         (ConversationState.set_human_intervention_requested false s))
| effect_prompt (prompt : string) :
    effect V resets s
      (ConversationState.set_initial_prompt (Some prompt) s)
| effect_reset (uuid : string) (utcnow : datetime.t) :
    resets → V utcnow →
    effect V resets s (ConversationState.fresh uuid utcnow).

(** ** What holds of a state the manager has built *)

(** A pending task has no owner, no result and no files; a task in
    progress has an owner; a completed task has an owner and a result.
    The other three statuses are never stored. *)
Definition task_consistent (x : Task.t) : Prop :=
  match Task.status x with
  | TaskStatus.PENDING =>
      Task.claimed_by x = None ∧ Task.result x = None
      ∧ Task.files_modified x = []
  | TaskStatus.IN_PROGRESS => is_Some (Task.claimed_by x)
  | TaskStatus.COMPLETED =>
      is_Some (Task.claimed_by x) ∧ is_Some (Task.result x)
  | _ => False
  end.

(** Every entry of the vote map is stored under the name of an agent role
    and holds one of the options of the vote. *)
Definition vote_valid (v : Vote.t) : Prop :=
  ∀ k c, Vote.votes v !! k = Some c →
         c ∈ Vote.options v ∧ ∃ a, k = AgentRole.value a.

(** A review has feedback exactly when it has a verdict. *)
Definition review_consistent (r : ReviewRequest.t) : Prop :=
  is_Some (ReviewRequest.verdict r) ↔ is_Some (ReviewRequest.feedback r).

(** Two versions of one message: the later one is the earlier one,
    possibly flagged as read. *)
Definition message_later (m m' : Message.t) : Prop :=
  m' = m ∨ m' = Message.set_read true m.

(** Two versions of one task: what [create_task] stored is the same, and
    an owner, once there, is the same. *)
Definition task_later (x x' : Task.t) : Prop :=
  Task.id x' = Task.id x
  ∧ Task.created_at x' = Task.created_at x
  ∧ Task.title x' = Task.title x
  ∧ Task.description x' = Task.description x
  ∧ Task.created_by x' = Task.created_by x
  ∧ Task.assigned_to x' = Task.assigned_to x
  ∧ Task.dependencies x' = Task.dependencies x
  ∧ (∀ a, Task.claimed_by x = Some a → Task.claimed_by x' = Some a).

(** Two versions of one review: the request is the same, and a verdict,
    once there, is still there (possibly another one). *)
Definition review_later (r r' : ReviewRequest.t) : Prop :=
  ReviewRequest.id r' = ReviewRequest.id r
  ∧ ReviewRequest.timestamp r' = ReviewRequest.timestamp r
  ∧ ReviewRequest.from_agent r' = ReviewRequest.from_agent r
  ∧ ReviewRequest.to_agent r' = ReviewRequest.to_agent r
  ∧ ReviewRequest.task_id r' = ReviewRequest.task_id r
  ∧ ReviewRequest.content r' = ReviewRequest.content r
  ∧ ReviewRequest.files r' = ReviewRequest.files r
  ∧ (is_Some (ReviewRequest.verdict r) → is_Some (ReviewRequest.verdict r')).

(** Two versions of one vote: topic and options are the same, and an
    agent that has voted still has a vote. *)
Definition vote_later (v v' : Vote.t) : Prop :=
  Vote.topic v' = Vote.topic v
  ∧ Vote.options v' = Vote.options v
  ∧ dom (Vote.votes v) ⊆ dom (Vote.votes v').

(** [l'] extends [l]: position by position, it holds a later version of
    what [l] holds. *)
Definition extends {A} (later : A → A → Prop) (l l' : list A) : Prop :=
  ∀ i a, l !! i = Some a → ∃ a', l' !! i = Some a' ∧ later a a'.

(** * Properties *)

Import StateManager.

(** ** Running a method on an initialised manager *)

Lemma bind_eq {A B} (m : M A) (k : A → M B) (self : t) :
  (m ≫= k) self =
  match m self with
  | (Return a, self') => k a self'
  | (Raise e, self') => (Raise e, self')
  end.
Proof. reflexivity. Qed.

Lemma initialised_eq (self : t) (s : ConversationState.t) :
  _state self = Some s →
  self = mk (Some s) (state_file self) (conversation_log self).
Proof. destruct self; simpl; congruence. Qed.

Lemma state_raises {A} (k : ConversationState.t → M A) (self : t) :
  _state self = None → ∃ e, (state ≫= k) self = (Raise e, self).
Proof.
  intros H. rewrite bind_eq. unfold state. rewrite H. eauto.
Qed.

(** ** Looking tasks up *)

Lemma get_task_loop_find (task_id : string) (l : list Task.t) :
  get_task_loop task_id l
  = snd <$> list_find (λ x, Task.id x = task_id) l.
Proof.
  induction l as [|x l IH]; [done|]. cbn.
  destruct (decide (Task.id x = task_id)); [done|].
  rewrite IH. by destruct (list_find _ l) as [[]|].
Qed.

Lemma get_task_loop_id (task_id : string) (l : list Task.t) (x : Task.t) :
  get_task_loop task_id l = Some x → Task.id x = task_id.
Proof.
  induction l as [|y l IH]; [done|]. cbn.
  destruct (decide (Task.id y = task_id)); [congruence | done].
Qed.

Lemma get_task_loop_elem (task_id : string) (l : list Task.t) (x : Task.t) :
  get_task_loop task_id l = Some x → x ∈ l.
Proof.
  induction l as [|y l IH]; [done|]. cbn.
  destruct (decide (Task.id y = task_id)).
  - intros [= ->]. left.
  - intros H. right. auto.
Qed.

Lemma get_task_loop_app (task_id : string) (l1 l2 : list Task.t) :
  get_task_loop task_id (l1 ++ l2)
  = match get_task_loop task_id l1 with
    | Some x => Some x
    | None => get_task_loop task_id l2
    end.
Proof.
  induction l1 as [|y l1 IH]; [done|]. cbn.
  by destruct (decide (Task.id y = task_id)).
Qed.

(** Storing, at the position of the first task called [task_id], a task
    with the same id: only the lookup of [task_id] changes. *)
Lemma get_task_loop_insert (task_id k : string) (l : list Task.t)
    (i : nat) (x x' : Task.t) :
  list_find (λ y, Task.id y = task_id) l = Some (i, x) →
  Task.id x' = task_id →
  get_task_loop k (<[i := x']> l)
  = if decide (k = task_id) then Some x' else get_task_loop k l.
Proof.
  revert i. induction l as [|y l IH]; intros i; [done|]. cbn.
  destruct (decide (Task.id y = task_id)) as [Hy|Hy].
  - intros [= <- <-] Hx'. cbn. rewrite Hx'.
    destruct (decide (task_id = k)) as [->|Hk].
    + by rewrite decide_True.
    + rewrite decide_False by done. rewrite decide_False by congruence.
      done.
  - destruct (list_find _ l) as [[j z]|] eqn:Hf; [|done].
    intros [= <- <-] Hx'. cbn.
    destruct (decide (Task.id y = k)) as [Hk|Hk].
    + rewrite decide_False by congruence. done.
    + apply (IH j eq_refl Hx').
Qed.

Section initialised.
Context (s : ConversationState.t) (f : option json) (l : option string).

Local Abbreviation self := (mk (Some s) f l).
Local Abbreviation tasks := (ConversationState.tasks s).

Lemma get_task_eq (task_id : string) :
  get_task task_id self = (Return (get_task_loop task_id tasks), self).
Proof. reflexivity. Qed.

(** The dependency loop reads and never writes; it reports a block exactly
    when some dependency resolves to a task that is not completed. *)
Lemma dependency_blocks_spec (deps : list string) :
  ∃ b : bool,
    dependency_blocks deps self = (Return b, self) ∧
    (b = true ↔
     ∃ dep d, dep ∈ deps ∧ get_task_loop dep tasks = Some d
              ∧ Task.status d ≠ TaskStatus.COMPLETED).
Proof.
  induction deps as [|dep deps [b [IH1 IH2]]].
  - exists false. split; [reflexivity|]. split; [intros [=]|].
    intros (dep & d & H & _). by apply elem_of_nil in H.
  - cbn [dependency_blocks]. rewrite bind_eq, get_task_eq.
    destruct (get_task_loop dep tasks) as [d|] eqn:Hd.
    + destruct (decide (Task.status d ≠ TaskStatus.COMPLETED)) as [Hs|Hs].
      * exists true. split; [done|]. split; [|done].
        intros _. exists dep, d. split_and!; [left|done|done].
      * exists b. split; [done|]. rewrite IH2. split.
        -- intros (dep' & d' & H1 & H2 & H3).
           exists dep', d'. split_and!; [by right|done|done].
        -- intros (dep' & d' & H1 & H2 & H3).
           apply elem_of_cons in H1 as [->|H1].
           ++ rewrite Hd in H2. injection H2 as <-. by destruct Hs.
           ++ eauto.
    + exists b. split; [done|]. rewrite IH2. split.
      * intros (dep' & d' & H1 & H2 & H3).
        exists dep', d'. split_and!; [by right|done|done].
      * intros (dep' & d' & H1 & H2 & H3).
        apply elem_of_cons in H1 as [->|H1]; [congruence|eauto].
Qed.

End initialised.

(** ** The loops stop at the first match *)

Lemma claim_task_loop_find (task_id : string) (agent : AgentRole.t)
    (utcnow : datetime.t) (rest : list Task.t) (i : nat) (self : t) :
  claim_task_loop task_id agent utcnow i rest self
  = match list_find (λ x, Task.id x = task_id) rest with
    | None => (Return None, self)
    | Some (j, x) => claim_task_loop task_id agent utcnow (i + j) [x] self
    end.
Proof.
  revert i. induction rest as [|y rest IH]; intros i; [done|].
  cbn [claim_task_loop list_find].
  destruct (decide (Task.id y = task_id)) as [Hy|Hy].
  - cbn. destruct (decide (Task.id y = task_id)); [|done].
    by rewrite Nat.add_0_r.
  - rewrite IH. destruct (list_find _ rest) as [[j x]|]; [|done].
    cbn. by rewrite Nat.add_succ_r.
Qed.

Lemma complete_task_loop_find (task_id : string) (agent : AgentRole.t)
    (result : string) (files_modified : option (list string))
    (utcnow : datetime.t) (rest : list Task.t) (i : nat) (self : t) :
  complete_task_loop task_id agent result files_modified utcnow i rest self
  = match list_find (λ x, Task.id x = task_id) rest with
    | None => (Return None, self)
    | Some (j, x) =>
        complete_task_loop task_id agent result files_modified utcnow
          (i + j) [x] self
    end.
Proof.
  revert i. induction rest as [|y rest IH]; intros i; [done|].
  cbn [complete_task_loop list_find].
  destruct (decide (Task.id y = task_id)) as [Hy|Hy].
  - cbn. destruct (decide (Task.id y = task_id)); [|done].
    by rewrite Nat.add_0_r.
  - rewrite IH. destruct (list_find _ rest) as [[j x]|]; [|done].
    cbn. by rewrite Nat.add_succ_r.
Qed.

Section tasks.
Context (s : ConversationState.t) (f : option json) (l : option string).

Local Abbreviation self := (mk (Some s) f l).
Local Abbreviation tasks := (ConversationState.tasks s).

Lemma claim_task_not_found utcnow task_id agent :
  get_task_loop task_id tasks = None →
  claim_task utcnow task_id agent self = (Return None, self).
Proof.
  rewrite get_task_loop_find. intros H.
  unfold claim_task. rewrite bind_eq. cbn.
  rewrite claim_task_loop_find.
  by destruct (list_find _ tasks) as [[]|].
Qed.

Lemma claim_task_other utcnow task_id agent x :
  get_task_loop task_id tasks = Some x →
  claimed_by_other agent x = true →
  claim_task utcnow task_id agent self = (Return None, self).
Proof.
  intros H Ho. pose proof (get_task_loop_id _ _ _ H) as Hid.
  rewrite get_task_loop_find in H.
  unfold claim_task. rewrite bind_eq. cbn.
  rewrite claim_task_loop_find.
  destruct (list_find _ tasks) as [[j y]|]; [|done].
  injection H as ->. cbn.
  destruct (decide (Task.id x = task_id)); [|done]. by rewrite Ho.
Qed.

Lemma claim_task_blocked utcnow task_id agent x dep d :
  get_task_loop task_id tasks = Some x →
  dep ∈ Task.dependencies x →
  get_task_loop dep tasks = Some d →
  Task.status d ≠ TaskStatus.COMPLETED →
  claim_task utcnow task_id agent self = (Return None, self).
Proof.
  intros H Hdep Hd Hst. pose proof (get_task_loop_id _ _ _ H) as Hid.
  rewrite get_task_loop_find in H.
  unfold claim_task. rewrite bind_eq. cbn.
  rewrite claim_task_loop_find.
  destruct (list_find _ tasks) as [[j y]|]; [|done].
  injection H as ->. cbn.
  destruct (decide (Task.id x = task_id)); [|done].
  destruct (claimed_by_other agent x); [done|].
  destruct (dependency_blocks_spec s f l (Task.dependencies x))
    as (b & Hb1 & Hb2).
  rewrite bind_eq, Hb1.
  assert (b = true) as -> by (apply Hb2; eauto). done.
Qed.

Lemma claim_task_ok utcnow task_id agent i x :
  list_find (λ y, Task.id y = task_id) tasks = Some (i, x) →
  claimed_by_other agent x = false →
  (∀ dep d, dep ∈ Task.dependencies x →
            get_task_loop dep tasks = Some d →
            Task.status d = TaskStatus.COMPLETED) →
  let x' :=
    Task.set_updated_at utcnow
      (Task.set_status TaskStatus.IN_PROGRESS
         (Task.set_claimed_by (Some agent) x)) in
  let s' := ConversationState.set_tasks (<[i := x']> tasks) s in
  claim_task utcnow task_id agent self
  = (Return (Some x'),
     mk (Some s') (Some (ConversationState.model_dump s'))
        (Some (default "" l +:+ task_claimed_entry task_id agent
               +:+ nl +:+ nl))).
Proof.
  intros H Ho Hdeps x' s'.
  pose proof H as (_ & Hid & _)%list_find_Some.
  unfold claim_task. rewrite bind_eq. cbn.
  rewrite claim_task_loop_find, H.
  cbn. destruct (decide (Task.id x = task_id)); [|done]. rewrite Ho.
  destruct (dependency_blocks_spec s f l (Task.dependencies x))
    as (b & Hb1 & Hb2).
  rewrite bind_eq, Hb1.
  destruct b.
  - destruct Hb2 as [Hb2 _]. destruct (Hb2 eq_refl) as (dep & d & ? & ? & ?).
    exfalso. eauto.
  - reflexivity.
Qed.

Lemma complete_task_not_found utcnow task_id agent result files_modified :
  get_task_loop task_id tasks = None →
  complete_task utcnow task_id agent result files_modified self
  = (Return None, self).
Proof.
  rewrite get_task_loop_find. intros H.
  unfold complete_task. rewrite bind_eq. cbn.
  rewrite complete_task_loop_find.
  by destruct (list_find _ tasks) as [[]|].
Qed.

Lemma complete_task_not_owner utcnow task_id agent result files_modified x :
  get_task_loop task_id tasks = Some x →
  Task.claimed_by x ≠ Some agent →
  complete_task utcnow task_id agent result files_modified self
  = (Return None, self).
Proof.
  intros H Ho. pose proof (get_task_loop_id _ _ _ H) as Hid.
  rewrite get_task_loop_find in H.
  unfold complete_task. rewrite bind_eq. cbn.
  rewrite complete_task_loop_find.
  destruct (list_find _ tasks) as [[j y]|]; [|done].
  injection H as ->. cbn.
  destruct (decide (Task.id x = task_id)); [|done].
  by destruct (decide (Task.claimed_by x ≠ Some agent)).
Qed.

Lemma complete_task_ok utcnow task_id agent result files_modified i x :
  list_find (λ y, Task.id y = task_id) tasks = Some (i, x) →
  Task.claimed_by x = Some agent →
  let x' :=
    Task.set_updated_at utcnow
      (Task.set_files_modified (default [] files_modified)
         (Task.set_result (Some result)
            (Task.set_status TaskStatus.COMPLETED x))) in
  let s' := ConversationState.set_tasks (<[i := x']> tasks) s in
  complete_task utcnow task_id agent result files_modified self
  = (Return (Some x'),
     mk (Some s') (Some (ConversationState.model_dump s'))
        (Some (default "" l
               +:+ task_completed_entry task_id agent result files_modified
               +:+ nl +:+ nl))).
Proof.
  intros H Ho x' s'.
  pose proof H as (_ & Hid & _)%list_find_Some.
  unfold complete_task. rewrite bind_eq. cbn.
  rewrite complete_task_loop_find, H.
  cbn. destruct (decide (Task.id x = task_id)); [|done].
  destruct (decide (Task.claimed_by x ≠ Some agent)); [done|].
  reflexivity.
Qed.

End tasks.

Lemma submit_review_loop_find (uuid : string) (utcnow : datetime.t)
    (review_id : string) (agent : AgentRole.t) (verdict feedback : string)
    (rest : list ReviewRequest.t) (i : nat) (self : t) :
  submit_review_loop uuid utcnow review_id agent verdict feedback i rest self
  = match
      list_find (λ r, ReviewRequest.id r = review_id
                      ∧ ReviewRequest.to_agent r = agent) rest
    with
    | None => (Return None, self)
    | Some (j, r) =>
        submit_review_loop uuid utcnow review_id agent verdict feedback
          (i + j) [r] self
    end.
Proof.
  revert i. induction rest as [|y rest IH]; intros i; [done|].
  cbn [submit_review_loop list_find].
  destruct (decide (ReviewRequest.id y = review_id
                    ∧ ReviewRequest.to_agent y = agent)) as [[Hy1 Hy2]|Hy].
  - cbn. rewrite !bool_decide_eq_true_2 by done. cbn.
    by rewrite Nat.add_0_r.
  - replace (bool_decide (ReviewRequest.id y = review_id)
             && bool_decide (ReviewRequest.to_agent y = agent))
      with false.
    + rewrite IH. destruct (list_find _ rest) as [[j x]|]; [|done].
      cbn [fmap option_fmap option_map prod_map fst snd id].
      by rewrite Nat.add_succ_r.
    + symmetry. apply andb_false_iff.
      destruct (decide (ReviewRequest.id y = review_id));
        [right|left]; rewrite bool_decide_eq_false; tauto.
Qed.

Lemma cast_vote_loop_find (topic : string) (agent : AgentRole.t)
    (choice : string) (rest : list Vote.t) (i : nat) (self : t) :
  cast_vote_loop topic agent choice i rest self
  = match
      list_find (λ v, Vote.topic v = topic ∧ choice ∈ Vote.options v) rest
    with
    | None => (Return None, self)
    | Some (j, v) => cast_vote_loop topic agent choice (i + j) [v] self
    end.
Proof.
  revert i. induction rest as [|y rest IH]; intros i; [done|].
  cbn [cast_vote_loop list_find].
  destruct (decide (Vote.topic y = topic ∧ choice ∈ Vote.options y))
    as [[Hy1 Hy2]|Hy].
  - cbn. destruct (decide (Vote.topic y = topic)); [|done].
    destruct (decide (choice ∈ Vote.options y)); [|done].
    by rewrite Nat.add_0_r.
  - assert (cast_vote_loop topic agent choice (S i) rest self
            = match
                prod_map S id <$>
                  list_find (λ v, Vote.topic v = topic
                                  ∧ choice ∈ Vote.options v) rest
              with
              | None => (Return None, self)
              | Some (j, v) =>
                  cast_vote_loop topic agent choice (i + j) [v] self
              end) as Hrest.
    { rewrite IH. destruct (list_find _ rest) as [[j x]|]; [|done].
      cbn [fmap option_fmap option_map prod_map fst snd id].
      by rewrite Nat.add_succ_r. }
    destruct (decide (Vote.topic y = topic)); [|done].
    destruct (decide (choice ∈ Vote.options y)); [tauto|done].
Qed.

Section reviews_votes.
Context (s : ConversationState.t) (f : option json) (l : option string).

Local Abbreviation self := (mk (Some s) f l).

Lemma submit_review_none uuid utcnow review_id agent verdict feedback :
  (∀ r, r ∈ ConversationState.reviews s →
        ¬ (ReviewRequest.id r = review_id
           ∧ ReviewRequest.to_agent r = agent)) →
  submit_review uuid utcnow review_id agent verdict feedback self
  = (Return None, self).
Proof.
  intros H. unfold submit_review. rewrite bind_eq. cbn.
  rewrite submit_review_loop_find.
  destruct (list_find _ _) as [[j r]|] eqn:Hf; [|done].
  apply list_find_Some in Hf as (Hj & Hr & _).
  exfalso. eapply H; [|done]. by eapply list_elem_of_lookup_2.
Qed.

Lemma submit_review_ok uuid utcnow review_id agent verdict feedback i r :
  list_find (λ r, ReviewRequest.id r = review_id
                  ∧ ReviewRequest.to_agent r = agent)
    (ConversationState.reviews s) = Some (i, r) →
  let r' :=
    ReviewRequest.set_feedback (Some feedback)
      (ReviewRequest.set_verdict (Some verdict) r) in
  let s1 :=
    ConversationState.set_reviews
      (<[i := r']> (ConversationState.reviews s)) s in
  let msg :=
    Message.mk uuid utcnow agent (Some (ReviewRequest.from_agent r))
      MessageType.REVIEW_RESULT
      (review_result_content review_id verdict feedback) Priority.HIGH
      None false in
  let s2 :=
    ConversationState.set_messages
      (ConversationState.messages s1 ++ [msg]) s1 in
  submit_review uuid utcnow review_id agent verdict feedback self
  = (Return (Some r'),
     mk (Some s2) (Some (ConversationState.model_dump s2))
        (Some (default "" l
               +:+ message_entry msg
                     (AgentRole.value (ReviewRequest.from_agent r))
               +:+ nl +:+ nl))).
Proof.
  intros H r' s1 msg s2.
  pose proof H as (_ & [Hid Hto] & _)%list_find_Some.
  unfold submit_review. rewrite bind_eq. cbn.
  rewrite submit_review_loop_find, H.
  cbn. rewrite !bool_decide_eq_true_2 by done. reflexivity.
Qed.

Lemma cast_vote_none topic agent choice :
  (∀ v, v ∈ ConversationState.active_votes s →
        ¬ (Vote.topic v = topic ∧ choice ∈ Vote.options v)) →
  cast_vote topic agent choice self = (Return None, self).
Proof.
  intros H. unfold cast_vote. rewrite bind_eq. cbn.
  rewrite cast_vote_loop_find.
  destruct (list_find _ _) as [[j r]|] eqn:Hf; [|done].
  apply list_find_Some in Hf as (Hj & Hr & _).
  exfalso. eapply H; [|done]. by eapply list_elem_of_lookup_2.
Qed.

Lemma cast_vote_ok topic agent choice i v :
  list_find (λ v, Vote.topic v = topic ∧ choice ∈ Vote.options v)
    (ConversationState.active_votes s) = Some (i, v) →
  let v' :=
    Vote.set_votes (<[AgentRole.value agent := choice]> (Vote.votes v)) v in
  let s' :=
    ConversationState.set_active_votes
      (<[i := v']> (ConversationState.active_votes s)) s in
  cast_vote topic agent choice self
  = (Return (Some v'),
     mk (Some s') (Some (ConversationState.model_dump s')) l).
Proof.
  intros H v' s'.
  pose proof H as (_ & [Hid Hto] & _)%list_find_Some.
  unfold cast_vote. rewrite bind_eq. cbn.
  rewrite cast_vote_loop_find, H.
  cbn. destruct (decide (Vote.topic v = topic)); [|done].
  destruct (decide (choice ∈ Vote.options v)); [|done].
  reflexivity.
Qed.

End reviews_votes.

(** ** What a claim can do *)

Section claim_cases.
Context (s : ConversationState.t) (f : option json) (l : option string).

Local Abbreviation self := (mk (Some s) f l).
Local Abbreviation tasks := (ConversationState.tasks s).

Lemma claim_task_cases utcnow task_id agent :
  (claim_task utcnow task_id agent self = (Return None, self)
   ∧ (get_task_loop task_id tasks = None
      ∨ ∃ x, get_task_loop task_id tasks = Some x
             ∧ (claimed_by_other agent x = true
                ∨ ∃ dep d, dep ∈ Task.dependencies x
                           ∧ get_task_loop dep tasks = Some d
                           ∧ Task.status d ≠ TaskStatus.COMPLETED)))
  ∨ (∃ i x,
       list_find (λ y, Task.id y = task_id) tasks = Some (i, x)
       ∧ claimed_by_other agent x = false
       ∧ (∀ dep d, dep ∈ Task.dependencies x →
                   get_task_loop dep tasks = Some d →
                   Task.status d = TaskStatus.COMPLETED)
       ∧ claim_task utcnow task_id agent self
         = (Return
              (Some (Task.set_updated_at utcnow
                       (Task.set_status TaskStatus.IN_PROGRESS
                          (Task.set_claimed_by (Some agent) x)))),
            (claim_task utcnow task_id agent self).2)).
Proof.
  destruct (get_task_loop task_id tasks) as [x|] eqn:Hget.
  2: { left. split; [by apply claim_task_not_found | by left]. }
  destruct (claimed_by_other agent x) eqn:Ho.
  { left. split; [by eapply claim_task_other | right; eauto]. }
  destruct (dependency_blocks_spec s f l (Task.dependencies x))
    as ([] & _ & Hb).
  - destruct Hb as [Hb _]. destruct (Hb eq_refl) as (dep & d & H1 & H2 & H3).
    left. split; [by eapply claim_task_blocked|].
    right. exists x. split; [done|]. right. eauto.
  - right. pose proof Hget as Hfind. rewrite get_task_loop_find in Hfind.
    destruct (list_find _ tasks) as [[i y]|] eqn:Hf; [|done].
    injection Hfind as ->.
    assert (∀ dep d, dep ∈ Task.dependencies x →
                     get_task_loop dep tasks = Some d →
                     Task.status d = TaskStatus.COMPLETED) as Hdeps.
    { intros dep d H1 H2.
      destruct (decide (Task.status d = TaskStatus.COMPLETED)); [done|].
      destruct Hb as [_ Hb]. discriminate Hb. eauto. }
    exists i, x. split_and!; [done..|].
    by rewrite (claim_task_ok s f l utcnow task_id agent i x Hf Ho Hdeps).
Qed.

Lemma complete_task_cases utcnow task_id agent result files_modified :
  (complete_task utcnow task_id agent result files_modified self
   = (Return None, self)
   ∧ (get_task_loop task_id tasks = None
      ∨ ∃ x, get_task_loop task_id tasks = Some x
             ∧ Task.claimed_by x ≠ Some agent))
  ∨ (∃ i x,
       list_find (λ y, Task.id y = task_id) tasks = Some (i, x)
       ∧ Task.claimed_by x = Some agent
       ∧ complete_task utcnow task_id agent result files_modified self
         = (Return
              (Some (Task.set_updated_at utcnow
                       (Task.set_files_modified (default [] files_modified)
                          (Task.set_result (Some result)
                             (Task.set_status TaskStatus.COMPLETED x))))),
            (complete_task utcnow task_id agent result files_modified
               self).2)).
Proof.
  destruct (get_task_loop task_id tasks) as [x|] eqn:Hget.
  2: { left. split; [by apply complete_task_not_found | by left]. }
  destruct (decide (Task.claimed_by x = Some agent)) as [Ho|Ho].
  - right. pose proof Hget as Hfind. rewrite get_task_loop_find in Hfind.
    destruct (list_find _ tasks) as [[i y]|] eqn:Hf; [|done].
    injection Hfind as ->. exists i, x. split_and!; [done..|].
    by rewrite (complete_task_ok s f l utcnow task_id agent result
                  files_modified i x Hf Ho).
  - left. split; [by eapply complete_task_not_owner | right; eauto].
Qed.

Lemma submit_review_cases uuid utcnow review_id agent verdict feedback :
  (submit_review uuid utcnow review_id agent verdict feedback self
   = (Return None, self)
   ∧ ∀ r, r ∈ ConversationState.reviews s →
          ¬ (ReviewRequest.id r = review_id
             ∧ ReviewRequest.to_agent r = agent))
  ∨ (∃ i r,
       list_find (λ r, ReviewRequest.id r = review_id
                       ∧ ReviewRequest.to_agent r = agent)
         (ConversationState.reviews s) = Some (i, r)
       ∧ submit_review uuid utcnow review_id agent verdict feedback self
         = (Return
              (Some (ReviewRequest.set_feedback (Some feedback)
                       (ReviewRequest.set_verdict (Some verdict) r))),
            (submit_review uuid utcnow review_id agent verdict feedback
               self).2)).
Proof.
  destruct (list_find (λ r, ReviewRequest.id r = review_id
                            ∧ ReviewRequest.to_agent r = agent)
              (ConversationState.reviews s)) as [[i r]|] eqn:Hf.
  - right. exists i, r. split; [done|].
    by rewrite (submit_review_ok s f l uuid utcnow review_id agent verdict
                  feedback i r Hf).
  - left. apply list_find_None in Hf.
    assert (∀ r, r ∈ ConversationState.reviews s →
                 ¬ (ReviewRequest.id r = review_id
                    ∧ ReviewRequest.to_agent r = agent)) as Hno.
    { intros r Hr. by eapply Forall_forall in Hf. }
    split; [by apply submit_review_none | done].
Qed.

Lemma cast_vote_cases topic agent choice :
  (cast_vote topic agent choice self = (Return None, self)
   ∧ ∀ v, v ∈ ConversationState.active_votes s →
          ¬ (Vote.topic v = topic ∧ choice ∈ Vote.options v))
  ∨ (∃ i v,
       list_find (λ v, Vote.topic v = topic ∧ choice ∈ Vote.options v)
         (ConversationState.active_votes s) = Some (i, v)
       ∧ cast_vote topic agent choice self
         = (Return
              (Some (Vote.set_votes
                       (<[AgentRole.value agent := choice]> (Vote.votes v))
                       v)),
            (cast_vote topic agent choice self).2)).
Proof.
  destruct (list_find (λ v, Vote.topic v = topic
                            ∧ choice ∈ Vote.options v)
              (ConversationState.active_votes s)) as [[i v]|] eqn:Hf.
  - right. exists i, v. split; [done|].
    by rewrite (cast_vote_ok s f l topic agent choice i v Hf).
  - left. apply list_find_None in Hf.
    assert (∀ v, v ∈ ConversationState.active_votes s →
                 ¬ (Vote.topic v = topic ∧ choice ∈ Vote.options v))
      as Hno.
    { intros v Hv. by eapply Forall_forall in Hf. }
    split; [by apply cast_vote_none | done].
Qed.

End claim_cases.

(** A method that returns did so on an initialised manager. *)
Lemma returned_initialised {A} (k : ConversationState.t → M A) (self : t)
    (a : A) :
  ((state ≫= k) self).1 = Return a → ∃ s, _state self = Some s.
Proof.
  destruct (_state self) as [s|] eqn:Hs; [eauto|].
  destruct (state_raises k self Hs) as [e He]. by rewrite He.
Qed.

(** A claim succeeds exactly when the task is not claimed by another agent
    and no dependency resolves to a task that is not completed. *)
Lemma claim_task_success_iff (s : ConversationState.t) (f : option json)
    (l : option string) utcnow task_id agent x :
  get_task_loop task_id (ConversationState.tasks s) = Some x →
  (∃ x', (claim_task utcnow task_id agent (mk (Some s) f l)).1
         = Return (Some x'))
  ↔ claimed_by_other agent x = false
    ∧ ∀ dep d,
        dep ∈ Task.dependencies x →
        get_task_loop dep (ConversationState.tasks s) = Some d →
        Task.status d = TaskStatus.COMPLETED.
Proof.
  intros Hx.
  destruct (claim_task_cases s f l utcnow task_id agent)
    as [[Heq Hwhy]|(i & y & Hf & Ho & Hdeps & Heq)].
  - rewrite Heq. split; [by intros [x' [=]]|]. intros [Ho Hdeps].
    destruct Hwhy as [Hn|(y & Hy & Hwhy)]; [congruence|].
    assert (y = x) as -> by congruence.
    destruct Hwhy as [Hc|(dep & d & H1 & H2 & H3)]; [congruence|].
    destruct H3. eauto.
  - rewrite Heq. rewrite get_task_loop_find, Hf in Hx.
    injection Hx as ->. split; [done | eauto].
Qed.

Lemma set_claimed_by_same (agent : AgentRole.t) (x : Task.t) :
  Task.claimed_by x = Some agent → Task.set_claimed_by (Some agent) x = x.
Proof. destruct x; cbn. by intros ->. Qed.

Lemma claimed_by_owner_not_other (agent : AgentRole.t) (x : Task.t) :
  Task.claimed_by x = Some agent → claimed_by_other agent x = false.
Proof.
  unfold claimed_by_other. intros ->. by rewrite bool_decide_eq_false_2 by auto.
Qed.


(** ** Votes *)

Lemma list_find_middle {A} (P : A → Prop) `{!∀ x, Decision (P x)}
    (pre post : list A) (v : A) :
  P v → (∀ w, w ∈ pre → ¬ P w) →
  list_find P (pre ++ v :: post) = Some (List.length pre, v).
Proof.
  intros Hv Hpre. apply list_find_Some. split_and!.
  - by apply list_lookup_middle.
  - done.
  - intros j y Hj Hlt. rewrite lookup_app_l in Hj by done.
    apply Hpre. by eapply list_elem_of_lookup_2.
Qed.

Lemma insert_middle {A} (pre post : list A) (v v' : A) :
  <[List.length pre := v']> (pre ++ v :: post) = pre ++ v' :: post.
Proof.
  rewrite <-(Nat.add_0_r (List.length pre)). by rewrite insert_app_r.
Qed.

(** A cast lands in the first vote on [topic] that offers [choice]. *)
Lemma cast_vote_at (s : ConversationState.t) (f : option json)
    (l : option string) (topic : string) (agent : AgentRole.t)
    (choice : string) (pre : list Vote.t) (v : Vote.t) (post : list Vote.t) :
  ConversationState.active_votes s = pre ++ v :: post →
  Vote.topic v = topic →
  choice ∈ Vote.options v →
  (∀ w, w ∈ pre →
        ¬ (Vote.topic w = topic ∧ choice ∈ Vote.options w)) →
  let v' :=
    Vote.set_votes (<[AgentRole.value agent := choice]> (Vote.votes v)) v in
  let s' := ConversationState.set_active_votes (pre ++ v' :: post) s in
  cast_vote topic agent choice (mk (Some s) f l)
  = (Return (Some v'),
     mk (Some s') (Some (ConversationState.model_dump s')) l).
Proof.
  intros Hvotes Ht Hc Hpre v' s'.
  assert (list_find (λ w, Vote.topic w = topic ∧ choice ∈ Vote.options w)
            (ConversationState.active_votes s)
          = Some (List.length pre, v)) as Hf.
  { rewrite Hvotes. by apply list_find_middle. }
  rewrite (cast_vote_ok s f l topic agent choice _ v Hf).
  subst s' v'. by rewrite Hvotes, insert_middle.
Qed.

(** A dict holds one entry per key: after [d[k] = x], the items of [d]
    under [k] are just [(k, x)]. *)
Lemma items_insert (d : gmap string string) (k x : string) :
  filter (λ kv, kv.1 = k) (map_to_list (<[k := x]> d)) = [(k, x)].
Proof.
  apply Permutation_singleton_r.
  rewrite <-insert_delete_eq.
  rewrite map_to_list_insert by apply lookup_delete_eq.
  rewrite filter_cons_True by done.
  apply Permutation_singleton_r. f_equal.
  apply elem_of_nil_inv. intros [k' x'] [Hk Hin]%list_elem_of_filter.
  apply elem_of_map_to_list in Hin. cbn in Hk. subst k'.
  by rewrite lookup_delete_eq in Hin.
Qed.

(** ** Writing and reading the state file *)

Lemma digit_value_digit (d : N) :
  d < 10 → datetime.digit_value (datetime.digit d) = Some d.
Proof.
  intros H.
  assert (d = 0 ∨ d = 1 ∨ d = 2 ∨ d = 3 ∨ d = 4 ∨ d = 5 ∨ d = 6
          ∨ d = 7 ∨ d = 8 ∨ d = 9) as Hd by lia.
  destruct_or!; subst d; reflexivity.
Qed.

Lemma append_cons (x : ascii) (a b : string) :
  String x a +:+ b = String x (a +:+ b).
Proof. reflexivity. Qed.

Lemma append_nil_l (a : string) : "" +:+ a = a.
Proof. reflexivity. Qed.

Lemma append_assoc (a b c : string) : (a +:+ b) +:+ c = a +:+ (b +:+ c).
Proof.
  induction a as [|x a IH]; [done|]. rewrite !append_cons. by f_equal.
Qed.

Lemma append_nil_r (a : string) : a +:+ "" = a.
Proof. induction a as [|x a IH]; [done|]. rewrite append_cons. by f_equal. Qed.

Lemma read_digits_zfill (w : nat) (n : N) (rest : string) :
  n < 10 ^ N.of_nat w →
  datetime.read_digits w (datetime.zfill w n +:+ rest) = Some (n, rest).
Proof.
  revert n rest. induction w as [|w IH]; intros n rest Hn.
  - cbn in *. f_equal. f_equal. lia.
  - cbn [datetime.zfill datetime.read_digits].
    rewrite append_assoc, append_cons, append_nil_l.
    rewrite IH.
    + rewrite digit_value_digit by (apply N.mod_lt; lia).
      do 2 f_equal. symmetry. apply N.div_mod'.
    + rewrite Nat2N.inj_succ, N.pow_succ_r' in Hn.
      apply N.Div0.div_lt_upper_bound. lia.
Qed.

Lemma fromisoformat_isoformat (d : datetime.t) :
  datetime.valid d = true →
  datetime.fromisoformat (datetime.isoformat d) = Some d.
Proof.
  intros Hvalid. pose proof Hvalid as Hv. unfold datetime.valid in Hv.
  repeat (apply andb_true_iff in Hv as [Hv ?]).
  repeat match goal with
         | H : (_ <=? _) = true |- _ => apply N.leb_le in H
         | H : (_ <? _) = true |- _ => apply N.ltb_lt in H
         end.
  assert (datetime.days_in_month (datetime.year d) (datetime.month d) <= 31)
    as Hdim.
  { unfold datetime.days_in_month. repeat case_match; lia. }
  destruct d as [y mo dd h mi se us]. cbn [datetime.year datetime.month
    datetime.day datetime.hour datetime.minute datetime.second
    datetime.microsecond] in *.
  unfold datetime.fromisoformat, datetime.isoformat.
  cbn [datetime.year datetime.month datetime.day datetime.hour
       datetime.minute datetime.second datetime.microsecond].
  rewrite read_digits_zfill by (cbn; lia). cbn [mbind option_bind].
  rewrite append_cons, append_nil_l. cbn [datetime.expect].
  rewrite decide_True by done.
  cbn [mbind option_bind].
  rewrite read_digits_zfill by (cbn; lia). cbn [mbind option_bind].
  rewrite append_cons, append_nil_l. cbn [datetime.expect].
  rewrite decide_True by done.
  cbn [mbind option_bind].
  rewrite read_digits_zfill by (cbn; lia). cbn [mbind option_bind].
  rewrite append_cons, append_nil_l. cbn [datetime.expect].
  rewrite decide_True by done.
  cbn [mbind option_bind].
  rewrite read_digits_zfill by (cbn; lia). cbn [mbind option_bind].
  rewrite append_cons, append_nil_l. cbn [datetime.expect].
  rewrite decide_True by done.
  cbn [mbind option_bind].
  rewrite read_digits_zfill by (cbn; lia). cbn [mbind option_bind].
  rewrite append_cons, append_nil_l. cbn [datetime.expect].
  rewrite decide_True by done.
  cbn [mbind option_bind].
  rewrite read_digits_zfill by (cbn; lia). cbn [mbind option_bind].
  destruct (us =? 0) eqn:Hus.
  - apply N.eqb_eq in Hus. subst us. cbn [mbind option_bind].
    by rewrite Hvalid.
  - rewrite append_cons, append_nil_l. cbn [datetime.expect].
    rewrite decide_True by done.
    cbn [mbind option_bind].
    rewrite <-(append_nil_r (datetime.zfill 6 us)).
    rewrite read_digits_zfill by (cbn; lia). cbn [mbind option_bind].
    by rewrite Hvalid.
Qed.

Lemma validate_datetime_dump (d : datetime.t) :
  datetime.valid d = true → validate_datetime (dump_datetime d) = Some d.
Proof. apply fromisoformat_isoformat. Qed.

Lemma AgentRole_of_value (a : AgentRole.t) :
  enum_of_value AgentRole.value AgentRole.members (AgentRole.value a)
  = Some a.
Proof. by destruct a. Qed.

Lemma Priority_of_value (p : Priority.t) :
  enum_of_value Priority.value Priority.members (Priority.value p) = Some p.
Proof. by destruct p. Qed.

Lemma TaskStatus_of_value (x : TaskStatus.t) :
  enum_of_value TaskStatus.value TaskStatus.members (TaskStatus.value x)
  = Some x.
Proof. by destruct x. Qed.

Lemma MessageType_of_value (m : MessageType.t) :
  enum_of_value MessageType.value MessageType.members (MessageType.value m)
  = Some m.
Proof. by destruct m. Qed.

Lemma validate_list_dump {A} (validate : json → option A) (dump : A → json)
    (l : list A) :
  Forall (λ a, validate (dump a) = Some a) l →
  validate_list validate (dump_list dump l) = Some l.
Proof.
  intros H. cbn. induction H as [|a l Ha _ IH]; [done|].
  cbn. rewrite Ha. cbn. by rewrite IH.
Qed.

Lemma validate_str_list_dump (l : list string) :
  validate_list validate_str (dump_list JString l) = Some l.
Proof. apply validate_list_dump. by apply Forall_forall. Qed.

Lemma validate_dict_dump (d : gmap string string) :
  validate_dict (dump_dict d) = Some d.
Proof.
  unfold validate_dict, dump_dict, obj_dict.
  assert (list_to_map (reverse (prod_map id JString <$> map_to_list d))
          = (JString <$> d : gmap string json)) as ->.
  { transitivity (list_to_map (map_to_list (JString <$> d))
                  : gmap string json); [|apply list_to_map_to_list].
    symmetry. apply list_to_map_proper; [apply NoDup_fst_map_to_list|].
    by rewrite map_to_list_fmap, reverse_Permutation. }
  rewrite decide_True.
  - f_equal. apply map_eq. intros k.
    rewrite lookup_omap, lookup_fmap. by destruct (d !! k).
  - intros k v. rewrite lookup_fmap. destruct (d !! k); intros [= <-]. done.
Qed.

Ltac validate_fields :=
  unfold required, with_default, optional;
  cbn -[validate_datetime dump_datetime validate_enum validate_list
        dump_list validate_dict dump_dict];
  repeat first
    [ rewrite validate_datetime_dump by assumption
    | rewrite validate_str_list_dump
    | rewrite validate_dict_dump
    | progress cbn [validate_enum]
    | rewrite AgentRole_of_value
    | rewrite Priority_of_value
    | rewrite TaskStatus_of_value
    | rewrite MessageType_of_value
    | progress cbn [mbind option_bind fmap option_fmap option_map] ].

Lemma Message_validate_dump uuid utcnow (m : Message.t) :
  datetime.valid (Message.timestamp m) = true →
  Message.validate uuid utcnow (Message.model_dump m) = Some m.
Proof.
  destruct m as [? ? ? [?|] ? ? ? [?|] ?]; cbn [Message.timestamp];
    intros Hv; unfold Message.validate, Message.model_dump;
    validate_fields; reflexivity.
Qed.

Lemma Task_validate_dump uuid utcnow (x : Task.t) :
  datetime.valid (Task.created_at x) = true →
  datetime.valid (Task.updated_at x) = true →
  Task.validate uuid utcnow (Task.model_dump x) = Some x.
Proof.
  destruct x as [? ? ? ? ? ? ? [?|] [?|] ? [?|] ?];
    cbn [Task.created_at Task.updated_at];
    intros Hc Hu; unfold Task.validate, Task.model_dump;
    validate_fields; reflexivity.
Qed.

Lemma ReviewRequest_validate_dump uuid utcnow (r : ReviewRequest.t) :
  datetime.valid (ReviewRequest.timestamp r) = true →
  ReviewRequest.validate uuid utcnow (ReviewRequest.model_dump r) = Some r.
Proof.
  destruct r as [? ? ? ? [?|] ? ? [?|] [?|]]; cbn [ReviewRequest.timestamp];
    intros Hv; unfold ReviewRequest.validate, ReviewRequest.model_dump;
    validate_fields; reflexivity.
Qed.

Lemma Vote_validate_dump (v : Vote.t) :
  from_option datetime.valid true (Vote.deadline v) = true →
  Vote.validate (Vote.model_dump v) = Some v.
Proof.
  destruct v as [? ? ? [?|] [?|]]; cbn [Vote.deadline from_option];
    intros Hv; unfold Vote.validate, Vote.model_dump;
    validate_fields; reflexivity.
Qed.

Lemma forallb_Forall {A} (p : A → bool) (P : A → Prop) (l : list A) :
  (∀ a, p a = true → P a) → forallb p l = true → Forall P l.
Proof.
  intros Hp. induction l as [|a l IH]; [done|]. cbn.
  intros [Ha Hl]%andb_true_iff. constructor; auto.
Qed.

Lemma ConversationState_validate_dump uuid utcnow (s : ConversationState.t) :
  valid_timestamps s = true →
  ConversationState.validate uuid utcnow (ConversationState.model_dump s)
  = Some s.
Proof.
  unfold valid_timestamps.
  intros [[[[Hs Hm]%andb_true_iff Ht]%andb_true_iff Hr]%andb_true_iff
            Hv]%andb_true_iff.
  eapply (forallb_Forall _ (λ m, Message.validate uuid utcnow
                                   (Message.model_dump m) = Some m)) in Hm;
    [|intros m; apply Message_validate_dump].
  eapply (forallb_Forall _ (λ x, Task.validate uuid utcnow
                                   (Task.model_dump x) = Some x)) in Ht;
    [|intros x [? ?]%andb_true_iff; by apply Task_validate_dump].
  eapply (forallb_Forall _ (λ r, ReviewRequest.validate uuid utcnow
                                   (ReviewRequest.model_dump r) = Some r))
    in Hr; [|intros r; apply ReviewRequest_validate_dump].
  eapply (forallb_Forall _ (λ v, Vote.validate (Vote.model_dump v) = Some v))
    in Hv; [|intros v; apply Vote_validate_dump].
  destruct s as [? ? [?|] ? ? ? ? ? ? [?|]];
    cbn [ConversationState.started_at ConversationState.messages
         ConversationState.tasks ConversationState.reviews
         ConversationState.active_votes] in *;
    unfold ConversationState.validate, ConversationState.model_dump;
    validate_fields;
    rewrite !validate_list_dump by assumption;
    reflexivity.
Qed.

(** ** Claiming a task *)

(** Against C1 as worded: a dependency id that names no task does not
    stand in the way of a claim; the dependency loop skips it. *)
Lemma claim_task_unresolved_dependency_counterexample :
  let self := Examples.ghost_dependency in
  ∃ s x,
    _state self = Some s
    ∧ get_task_loop "bbbb0002" (ConversationState.tasks s) = Some x
    ∧ "deadbeef" ∈ Task.dependencies x
    ∧ get_task_loop "deadbeef" (ConversationState.tasks s) = None
    ∧ ∃ x',
        (claim_task Examples.t1 "bbbb0002" AgentRole.GEMINI self).1
        = Return (Some x')
        ∧ Task.claimed_by x' = Some AgentRole.GEMINI.
Proof.
  eexists _, _. split_and!; [reflexivity | reflexivity | | reflexivity | ].
  - vm_compute. left.
  - eexists. split; vm_compute; reflexivity.
Qed.

(** C1 (as the code has it). For the task [x] that [task_id] resolves to:
    the claim is rejected, and nothing changes, whenever some dependency id
    resolves to a task that is not completed; the claim succeeds exactly
    when [x] is not claimed by another agent and every dependency id that
    resolves to a task resolves to a completed one.  A dependency id that
    resolves to no task is skipped: a task all of whose dependencies are
    unresolvable is claimed like a task without dependencies. *)
Theorem claim_task_dependency_gate (self : t) (s : ConversationState.t)
    (utcnow : datetime.t) (task_id : string) (agent : AgentRole.t)
    (x : Task.t) :
  _state self = Some s →
  get_task_loop task_id (ConversationState.tasks s) = Some x →
  (∀ dep d,
     dep ∈ Task.dependencies x →
     get_task_loop dep (ConversationState.tasks s) = Some d →
     Task.status d ≠ TaskStatus.COMPLETED →
     claim_task utcnow task_id agent self = (Return None, self))
  ∧ ((∃ x', (claim_task utcnow task_id agent self).1 = Return (Some x'))
     ↔ claimed_by_other agent x = false
       ∧ ∀ dep d,
           dep ∈ Task.dependencies x →
           get_task_loop dep (ConversationState.tasks s) = Some d →
           Task.status d = TaskStatus.COMPLETED)
  ∧ (claimed_by_other agent x = false →
     (∀ dep, dep ∈ Task.dependencies x →
             get_task_loop dep (ConversationState.tasks s) = None) →
     ∃ x', (claim_task utcnow task_id agent self).1 = Return (Some x')).
Proof.
  intros Hs Hx. rewrite (initialised_eq _ _ Hs).
  set (f := state_file self). set (l := conversation_log self).
  pose proof (claim_task_success_iff s f l utcnow task_id agent x Hx)
    as Hiff.
  split_and!.
  - intros dep d H1 H2 H3. by eapply claim_task_blocked.
  - done.
  - intros Ho Hnone. apply Hiff. split; [done|].
    intros dep d H1 H2. rewrite (Hnone dep H1) in H2. discriminate H2.
Qed.

Lemma claim_task_dependency_gate_witness :
  claim_task Examples.t1 "bbbb0002" AgentRole.GEMINI Examples.scenario_a
  = (Return None, Examples.scenario_a).
Proof.
  eassert (_state Examples.scenario_a = Some _) as Hs by reflexivity.
  match type of Hs with
  | _ = Some ?s =>
      eassert (get_task_loop "bbbb0002" (ConversationState.tasks s)
               = Some _) as Hx by (vm_compute; reflexivity);
      eassert (get_task_loop "aaaa0001" (ConversationState.tasks s)
               = Some _) as Hd by (vm_compute; reflexivity)
  end.
  refine (proj1 (claim_task_dependency_gate _ _ Examples.t1 _
                   AgentRole.GEMINI _ Hs Hx) "aaaa0001" _ _ Hd _).
  - vm_compute. left.
  - vm_compute. discriminate.
Defined.

(** ** Exclusivity of a claim *)

Section steps.
Context (s : ConversationState.t) (f : option json) (l : option string).

Local Abbreviation self := (mk (Some s) f l).
Local Abbreviation tasks := (ConversationState.tasks s).

Lemma claim_task_step utcnow task_id agent :
  ∃ s', _state (claim_task utcnow task_id agent self).2 = Some s'
        ∧ tasks_step tasks (ConversationState.tasks s').
Proof.
  destruct (claim_task_cases s f l utcnow task_id agent)
    as [[-> _]|(i & x & Hf & Ho & Hdeps & _)].
  - exists s. split; [done | constructor].
  - rewrite (claim_task_ok s f l utcnow task_id agent i x Hf Ho Hdeps).
    eexists. split; [reflexivity|]. cbn.
    pose proof Hf as (_ & Hid & _)%list_find_Some. subst task_id.
    apply (tasks_updated _ i x); [done..|].
    intros a Ha. unfold claimed_by_other in Ho. rewrite Ha in Ho.
    apply bool_decide_eq_false in Ho. cbn. f_equal.
    by destruct (decide (a = agent)).
Qed.

Lemma complete_task_step utcnow task_id agent result files_modified :
  ∃ s',
    _state (complete_task utcnow task_id agent result files_modified self).2
    = Some s'
    ∧ tasks_step tasks (ConversationState.tasks s').
Proof.
  destruct (complete_task_cases s f l utcnow task_id agent result
              files_modified)
    as [[-> _]|(i & x & Hf & Ho & _)].
  - exists s. split; [done | constructor].
  - rewrite (complete_task_ok s f l utcnow task_id agent result
               files_modified i x Hf Ho).
    eexists. split; [reflexivity|]. cbn.
    pose proof Hf as (_ & Hid & _)%list_find_Some. subst task_id.
    by apply (tasks_updated _ i x).
Qed.

Lemma submit_review_step uuid utcnow review_id agent verdict feedback :
  ∃ s',
    _state (submit_review uuid utcnow review_id agent verdict feedback
              self).2 = Some s'
    ∧ tasks_step tasks (ConversationState.tasks s').
Proof.
  destruct (submit_review_cases s f l uuid utcnow review_id agent verdict
              feedback)
    as [[-> _]|(i & x & Hf & _)].
  - exists s. split; [done | constructor].
  - rewrite (submit_review_ok s f l uuid utcnow review_id agent verdict
               feedback i x Hf).
    eexists. split; [reflexivity | constructor].
Qed.

Lemma cast_vote_step topic agent choice :
  ∃ s', _state (cast_vote topic agent choice self).2 = Some s'
        ∧ tasks_step tasks (ConversationState.tasks s').
Proof.
  destruct (cast_vote_cases s f l topic agent choice)
    as [[-> _]|(i & x & Hf & _)].
  - exists s. split; [done | constructor].
  - rewrite (cast_vote_ok s f l topic agent choice i x Hf).
    eexists. split; [reflexivity | constructor].
Qed.

(** Short of a reset, a call leaves the manager initialised and moves the
    task list by one [tasks_step]. *)
Lemma call_step (c : Call) :
  is_reset c = false →
  ∃ s', _state (call c self).2 = Some s'
        ∧ tasks_step tasks (ConversationState.tasks s').
Proof.
  intros Hc. destruct c; try discriminate Hc; cbn [call].
  - eexists. split; [reflexivity | constructor].
  - eexists. split; [reflexivity | constructor].
  - eexists. split; [reflexivity | apply tasks_created].
  - destruct (claim_task_step utcnow task_id agent) as (s' & H1 & H2).
    exists s'. split; [|done]. rewrite bind_eq.
    by destruct (claim_task utcnow task_id agent self) as [[] ?].
  - destruct (complete_task_step utcnow task_id agent result files_modified)
      as (s' & H1 & H2).
    exists s'. split; [|done]. rewrite bind_eq.
    by destruct (complete_task _ _ _ _ _ self) as [[] ?].
  - eexists. split; [reflexivity | constructor].
  - destruct (submit_review_step uuid utcnow review_id agent verdict
                feedback) as (s' & H1 & H2).
    exists s'. split; [|done]. rewrite bind_eq.
    by destruct (submit_review _ _ _ _ _ _ self) as [[] ?].
  - eexists. split; [reflexivity | constructor].
  - eexists. split; [reflexivity | constructor].
  - eexists. split; [reflexivity | constructor].
  - destruct (cast_vote_step topic agent choice) as (s' & H1 & H2).
    exists s'. split; [|done]. rewrite bind_eq.
    by destruct (cast_vote _ _ _ self) as [[] ?].
  - eexists. split; [reflexivity | constructor].
  - eexists. split; [reflexivity | constructor].
  - eexists. split; [reflexivity | constructor].
Qed.

End steps.

Lemma tasks_step_lookup (ts ts' : list Task.t) (k : string) (x : Task.t) :
  tasks_step ts ts' →
  get_task_loop k ts = Some x →
  ∃ x', get_task_loop k ts' = Some x'
        ∧ Task.dependencies x' = Task.dependencies x
        ∧ ∀ a, Task.claimed_by x = Some a → Task.claimed_by x' = Some a.
Proof.
  intros [|y|i y y' Hf Hid Hdeps Hown] Hx.
  - eauto.
  - exists x. rewrite get_task_loop_app, Hx. eauto.
  - rewrite (get_task_loop_insert (Task.id y) k ts i y y' Hf Hid).
    destruct (decide (k = Task.id y)) as [->|]; [|eauto].
    rewrite get_task_loop_find, Hf in Hx. injection Hx as ->. eauto.
Qed.

Lemma call_preserves_held task_id agent deps (c : Call) (self : t) :
  is_reset c = false →
  held_by task_id agent deps self →
  held_by task_id agent deps (call c self).2.
Proof.
  intros Hc (s & x & Hs & Hx & Ho & Hd).
  rewrite (initialised_eq _ _ Hs).
  destruct (call_step s (state_file self) (conversation_log self) c Hc)
    as (s' & Hs' & Hstep).
  destruct (tasks_step_lookup _ _ _ _ Hstep Hx) as (x' & Hx' & Hd' & Ho').
  exists s', x'. split_and!; [done | done | auto | congruence].
Qed.

Lemma run_preserves_held task_id agent deps (calls : list Call) (self : t) :
  Forall (λ c, is_reset c = false) calls →
  held_by task_id agent deps self →
  held_by task_id agent deps (run calls self).
Proof.
  intros Hcalls. revert self.
  induction Hcalls as [|c calls Hc _ IH]; intros self Hheld; [done|].
  cbn. apply IH. by apply call_preserves_held.
Qed.

Lemma claim_task_holds utcnow task_id agent (self self1 : t) (x1 : Task.t) :
  claim_task utcnow task_id agent self = (Return (Some x1), self1) →
  held_by task_id agent (Task.dependencies x1) self1.
Proof.
  intros H.
  assert ((claim_task utcnow task_id agent self).1 = Return (Some x1)) as H1
    by (by rewrite H).
  destruct (returned_initialised _ _ _ H1) as [s Hs].
  rewrite (initialised_eq _ _ Hs) in H.
  destruct (claim_task_cases s (state_file self) (conversation_log self)
              utcnow task_id agent)
    as [[Heq _]|(i & x & Hf & Ho & Hdeps & _)]; [congruence|].
  rewrite (claim_task_ok s _ _ utcnow task_id agent i x Hf Ho Hdeps) in H.
  injection H as <- <-.
  pose proof Hf as (_ & Hid & _)%list_find_Some.
  eexists _, _. split; [reflexivity|]. split.
  - cbn. erewrite get_task_loop_insert; [|exact Hf|exact Hid].
    by rewrite decide_True.
  - split; reflexivity.
Qed.

(** Against C2 as worded: after "aaaa0001" is completed and "bbbb0002",
    which depends on it, is claimed by gemini, codex claims "aaaa0001"
    again; that puts it back in progress, and gemini's next claim of
    "bbbb0002" is rejected. *)
Lemma reclaim_rejected_counterexample :
  ∃ x1 self1,
    claim_task Examples.t2 "bbbb0002" AgentRole.GEMINI
      Examples.scenario_a_done
    = (Return (Some x1), self1)
    ∧ let self2 :=
        run [ClaimTask Examples.t3 "aaaa0001" AgentRole.CODEX] self1 in
      claim_task Examples.t3 "bbbb0002" AgentRole.GEMINI self2
      = (Return None, self2).
Proof.
  eexists _, _. split.
  - vm_compute. reflexivity.
  - vm_compute. reflexivity.
Qed.

(** C2 (as the code has it). Once [claim_task] has succeeded for [agent],
    then after any further calls short of a reset: a claim of the same
    task by any other agent is rejected and changes nothing; a claim by
    [agent] itself succeeds exactly when no dependency of the task
    resolves, at that time, to a task that is not completed. *)
Theorem claim_exclusivity (self self1 : t) (utcnow : datetime.t)
    (task_id : string) (agent : AgentRole.t) (x1 : Task.t)
    (calls : list Call) :
  claim_task utcnow task_id agent self = (Return (Some x1), self1) →
  Forall (λ c, is_reset c = false) calls →
  let self2 := run calls self1 in
  (∀ utcnow' other,
     other ≠ agent →
     claim_task utcnow' task_id other self2 = (Return None, self2))
  ∧ (∀ utcnow',
       (∃ x2, (claim_task utcnow' task_id agent self2).1
              = Return (Some x2))
       ↔ ∃ s2, _state self2 = Some s2
               ∧ ∀ dep d,
                   dep ∈ Task.dependencies x1 →
                   get_task_loop dep (ConversationState.tasks s2) = Some d →
                   Task.status d = TaskStatus.COMPLETED).
Proof.
  intros Hclaim Hcalls self2.
  pose proof (run_preserves_held _ _ _ calls self1 Hcalls
                (claim_task_holds _ _ _ _ _ _ Hclaim))
    as (s2 & x2 & Hs2 & Hx2 & Ho2 & Hd2).
  fold self2 in Hs2. rewrite (initialised_eq _ _ Hs2). split.
  - intros utcnow' other Hne. eapply claim_task_other; [done|].
    unfold claimed_by_other. rewrite Ho2.
    apply bool_decide_eq_true. congruence.
  - intros utcnow'.
    rewrite (claim_task_success_iff s2 _ _ utcnow' task_id agent x2 Hx2).
    rewrite Hd2. split.
    + intros [_ H]. eauto.
    + intros (s2' & [= <-] & H). split; [|done].
      by apply claimed_by_owner_not_other.
Qed.

Lemma claim_exclusivity_witness :
  let self2 :=
    run [ClaimTask Examples.t3 "aaaa0001" AgentRole.CODEX;
         SetContext "branch" "main"]
      Examples.scenario_a_claimed in
  claim_task Examples.t3 "bbbb0002" AgentRole.CODEX self2
  = (Return None, self2).
Proof.
  eassert (claim_task Examples.t2 "bbbb0002" AgentRole.GEMINI
             Examples.scenario_a_done
           = (Return (Some _), Examples.scenario_a_claimed)) as Hclaim
    by (vm_compute; reflexivity).
  refine (proj1 (claim_exclusivity _ _ _ _ _ _ _ Hclaim _) Examples.t3
            AgentRole.CODEX _).
  - repeat constructor.
  - discriminate.
Defined.

(** ** Completing a task *)

(** C3. [complete_task] is rejected when [task_id] resolves to no task and
    when the task it resolves to is not claimed by [agent] (never claimed
    included); when it is claimed by [agent] the call succeeds, and the
    task, in the state and as returned, is completed and carries the
    result and the list of modified files. *)
Theorem complete_task_ownership (self : t) (s : ConversationState.t)
    (utcnow : datetime.t) (task_id : string) (agent : AgentRole.t)
    (result : string) (files_modified : option (list string)) :
  _state self = Some s →
  (get_task_loop task_id (ConversationState.tasks s) = None →
   complete_task utcnow task_id agent result files_modified self
   = (Return None, self))
  ∧ (∀ x,
       get_task_loop task_id (ConversationState.tasks s) = Some x →
       Task.claimed_by x ≠ Some agent →
       complete_task utcnow task_id agent result files_modified self
       = (Return None, self))
  ∧ (∀ x,
       get_task_loop task_id (ConversationState.tasks s) = Some x →
       Task.claimed_by x = Some agent →
       ∃ x' self' s',
         complete_task utcnow task_id agent result files_modified self
         = (Return (Some x'), self')
         ∧ _state self' = Some s'
         ∧ get_task_loop task_id (ConversationState.tasks s') = Some x'
         ∧ Task.status x' = TaskStatus.COMPLETED
         ∧ Task.result x' = Some result
         ∧ Task.files_modified x' = default [] files_modified
         ∧ Task.claimed_by x' = Some agent
         ∧ state_file self' = Some (ConversationState.model_dump s')).
Proof.
  intros Hs. rewrite (initialised_eq _ _ Hs).
  set (f := state_file self). set (l := conversation_log self).
  split_and!.
  - apply complete_task_not_found.
  - intros x. apply complete_task_not_owner.
  - intros x Hx Ho. pose proof Hx as Hfind.
    rewrite get_task_loop_find in Hfind.
    destruct (list_find _ (ConversationState.tasks s)) as [[i y]|] eqn:Hf;
      [|done].
    injection Hfind as ->.
    rewrite (complete_task_ok s f l utcnow task_id agent result
               files_modified i x Hf Ho).
    eexists _, _, _. split_and!; try reflexivity; [|done].
    cbn. erewrite get_task_loop_insert; [|done|].
    + by rewrite decide_True.
    + cbn. by eapply get_task_loop_id.
Qed.

Lemma complete_task_ownership_witness :
  ∃ x',
    (complete_task Examples.t3 "bbbb0002" AgentRole.GEMINI "printed"
       (Some ["printer.py"]) Examples.scenario_a_claimed).1
    = Return (Some x')
    ∧ Task.status x' = TaskStatus.COMPLETED
    ∧ Task.result x' = Some "printed"
    ∧ Task.files_modified x' = ["printer.py"].
Proof.
  eassert (_state Examples.scenario_a_claimed = Some _) as Hs
    by reflexivity.
  pose proof (proj2 (proj2
    (complete_task_ownership Examples.scenario_a_claimed _ Examples.t3
       "bbbb0002" AgentRole.GEMINI "printed" (Some ["printer.py"]) Hs)))
    as H.
  edestruct H as (x' & self' & s' & H1 & _ & _ & H2 & H3 & H4 & _).
  - vm_compute. reflexivity.
  - vm_compute. reflexivity.
  - exists x'. rewrite H1.
    split_and!; [reflexivity | exact H2 | exact H3 | exact H4].
Defined.

(** ** Submitting a review *)

(** Against C4 as worded: the reviewer can submit a second verdict, and it
    replaces the first. *)
Lemma verdict_overwritten_counterexample :
  let self := Examples.scenario_d_approved in
  ∃ s r r',
    _state self = Some s
    ∧ ConversationState.reviews s = [r]
    ∧ ReviewRequest.id r = "cccc0003"
    ∧ ReviewRequest.verdict r = Some "APPROVED"
    ∧ (submit_review "abab000a" Examples.t3 "cccc0003" AgentRole.CODEX
         "REJECTED" "no" self).1
      = Return (Some r')
    ∧ ReviewRequest.verdict r' = Some "REJECTED".
Proof.
  eexists _, _, _.
  split_and!; [reflexivity | reflexivity | reflexivity | reflexivity | | ].
  - vm_compute. reflexivity.
  - reflexivity.
Qed.

(** C4 (as the code has it). [submit_review] is rejected exactly when no
    review with that id is addressed to [agent]; so the requester, or any
    agent other than the reviewer, is rejected.  Otherwise it succeeds,
    whether or not a verdict is already there: the first review with that
    id addressed to [agent] gets the verdict and the feedback of this
    call, and every other review is left as it was. *)
Theorem submit_review_gate (self : t) (s : ConversationState.t)
    (uuid : string) (utcnow : datetime.t) (review_id : string)
    (agent : AgentRole.t) (verdict feedback : string) :
  _state self = Some s →
  ((submit_review uuid utcnow review_id agent verdict feedback self).1
   = Return None
   ↔ ∀ r, r ∈ ConversationState.reviews s →
          ReviewRequest.id r = review_id →
          ReviewRequest.to_agent r ≠ agent)
  ∧ (∀ i r,
       list_find (λ r, ReviewRequest.id r = review_id
                       ∧ ReviewRequest.to_agent r = agent)
         (ConversationState.reviews s) = Some (i, r) →
       let r' :=
         ReviewRequest.set_feedback (Some feedback)
           (ReviewRequest.set_verdict (Some verdict) r) in
       ∃ self' s',
         submit_review uuid utcnow review_id agent verdict feedback self
         = (Return (Some r'), self')
         ∧ _state self' = Some s'
         ∧ ConversationState.reviews s'
           = <[i := r']> (ConversationState.reviews s)
         ∧ ReviewRequest.verdict r' = Some verdict
         ∧ ReviewRequest.feedback r' = Some feedback
         ∧ ReviewRequest.to_agent r' = agent).
Proof.
  intros Hs. rewrite (initialised_eq _ _ Hs).
  set (f := state_file self). set (l := conversation_log self). split.
  - destruct (submit_review_cases s f l uuid utcnow review_id agent verdict
                feedback) as [[-> Hno]|(i & r & Hf & ->)].
    + split; [|done]. intros _ r Hr Hid Hto. by apply (Hno r).
    + split; [done|]. intros Hno.
      apply list_find_Some in Hf as (Hi & [Hid Hto] & _).
      destruct (Hno r); [by eapply list_elem_of_lookup_2|done..].
  - intros i r Hf r'.
    rewrite (submit_review_ok s f l uuid utcnow review_id agent verdict
               feedback i r Hf).
    apply list_find_Some in Hf as (_ & [_ Hto] & _).
    eexists _, _. split_and!; reflexivity || exact Hto.
Qed.

Lemma submit_review_gate_witness :
  (submit_review "eeee0005" Examples.t2 "cccc0003" AgentRole.COPILOT
     "APPROVED" "ok" Examples.scenario_d).1
  = Return None.
Proof.
  eassert (_state Examples.scenario_d = Some _) as Hs by reflexivity.
  apply (proj1 (submit_review_gate Examples.scenario_d _ "eeee0005"
                  Examples.t2 "cccc0003" AgentRole.COPILOT "APPROVED" "ok"
                  Hs)).
  intros r Hr _. apply list_elem_of_singleton in Hr as ->.
  vm_compute. discriminate.
Defined.

(** ** The inbox *)

Lemma get_inbox_loop_spec (agent : AgentRole.t) (unread_only : bool)
    (messages : list Message.t) :
  get_inbox_loop agent unread_only messages
  = inbox_spec agent unread_only messages.
Proof.
  unfold inbox_spec. induction messages as [|m rest IH]; [done|].
  cbn [get_inbox_loop]. rewrite IH, filter_cons.
  unfold is_for_agent, is_from_self.
  destruct (Message.to_agent m) as [a|];
    destruct (decide (Message.from_agent m = agent)) as [Hf|Hf];
    destruct unread_only; destruct (Message.read m) eqn:Hr;
    try (destruct (decide (a = agent)) as [->|Ha]);
    repeat first
      [ rewrite bool_decide_eq_true_2 by congruence
      | rewrite bool_decide_eq_false_2 by congruence ];
    cbn [andb orb negb];
    first [ rewrite decide_True by (split_and!; auto; congruence)
          | rewrite decide_False
              by (intros (? & ? & ?); intuition congruence) ];
    reflexivity.
Qed.

(** C5. [get_inbox] returns exactly the messages addressed to [agent] or
    to nobody, not sent by [agent], and not yet read when [unread_only] is
    set; they come in the order of the message list, and the manager is
    left as it was.  So a broadcast is in the inbox of every agent but its
    sender (as long as it is unread, when only unread messages are asked
    for). *)
Theorem get_inbox_contents (self : t) (s : ConversationState.t)
    (agent : AgentRole.t) (unread_only : bool) :
  _state self = Some s →
  ∃ inbox,
    get_inbox agent unread_only self = (Return inbox, self)
    ∧ inbox = inbox_spec agent unread_only (ConversationState.messages s)
    ∧ sublist inbox (ConversationState.messages s)
    ∧ ∀ m, m ∈ ConversationState.messages s →
           Message.to_agent m = None →
           (m ∈ inbox
            ↔ Message.from_agent m ≠ agent
              ∧ (unread_only = true → Message.read m = false)).
Proof.
  intros Hs. destruct self as [? f l]. cbn in Hs. subst.
  exists (inbox_spec agent unread_only (ConversationState.messages s)).
  split_and!.
  - unfold get_inbox. rewrite bind_eq. cbn. by rewrite get_inbox_loop_spec.
  - done.
  - apply sublist_filter.
  - intros m Hm Hto. unfold inbox_spec. rewrite list_elem_of_filter.
    split; [tauto | intros []; split_and!; auto].
Qed.

Lemma get_inbox_contents_witness :
  ∃ inbox m,
    get_inbox AgentRole.GEMINI true Examples.scenario_b
    = (Return inbox, Examples.scenario_b)
    ∧ inbox = [m]
    ∧ Message.content m = "hello".
Proof.
  eassert (_state Examples.scenario_b = Some _) as Hs by reflexivity.
  destruct (get_inbox_contents Examples.scenario_b _ AgentRole.GEMINI true Hs)
    as (inbox & H1 & H2 & _).
  eexists inbox, _. split; [exact H1|]. rewrite H2.
  split; vm_compute; reflexivity.
Defined.

(** ** Casting a vote *)

(** C6. A cast on a topic that no vote has is rejected.  When exactly one
    vote [v] has the topic, the cast is rejected if and only if [choice] is
    not among the options of [v]; a valid cast stores [choice] under the
    agent's name in the vote map of [v] and touches nothing else.  A second
    valid cast by the same agent overwrites the first: the map is what the
    second cast alone would have produced, with one entry for the agent. *)
Theorem cast_vote_validity (self : t) (s : ConversationState.t)
    (topic : string) (agent : AgentRole.t) (choice : string) :
  _state self = Some s →
  ((∀ w, w ∈ ConversationState.active_votes s →
         Vote.topic w ≠ topic) →
   cast_vote topic agent choice self = (Return None, self))
  ∧ ∀ pre v post,
      ConversationState.active_votes s = pre ++ v :: post →
      Vote.topic v = topic →
      (∀ w, w ∈ pre ++ post → Vote.topic w ≠ topic) →
      ((cast_vote topic agent choice self).1 = Return None
       ↔ choice ∉ Vote.options v)
      ∧ (choice ∈ Vote.options v →
         let v' :=
           Vote.set_votes
             (<[AgentRole.value agent := choice]> (Vote.votes v)) v in
         ∃ self' s',
           cast_vote topic agent choice self = (Return (Some v'), self')
           ∧ _state self' = Some s'
           ∧ ConversationState.active_votes s' = pre ++ v' :: post
           ∧ Vote.votes v' !! AgentRole.value agent = Some choice
           ∧ (∀ k, k ≠ AgentRole.value agent →
                   Vote.votes v' !! k = Vote.votes v !! k)
           ∧ ∀ choice2,
               choice2 ∈ Vote.options v →
               ∃ v'',
                 (cast_vote topic agent choice2 self').1
                 = Return (Some v'')
                 ∧ Vote.votes v''
                   = <[AgentRole.value agent := choice2]> (Vote.votes v)
                 ∧ filter (λ kv, kv.1 = AgentRole.value agent)
                     (map_to_list (Vote.votes v''))
                   = [(AgentRole.value agent, choice2)]).
Proof.
  intros Hs. rewrite (initialised_eq _ _ Hs).
  set (f := state_file self). set (l := conversation_log self). split.
  { intros Hno. apply cast_vote_none. intros w Hw [Ht _]. by apply (Hno w). }
  intros pre v post Hvotes Ht Huniq.
  assert (∀ c w, w ∈ pre →
                 ¬ (Vote.topic w = topic ∧ c ∈ Vote.options w)) as Hpre.
  { intros c w Hw [Hw' _]. apply (Huniq w); [|done].
    apply elem_of_app. by left. }
  split.
  - destruct (decide (choice ∈ Vote.options v)) as [Hc|Hc].
    + rewrite (cast_vote_at s f l topic agent choice pre v post Hvotes Ht Hc
                 (Hpre choice)).
      split; [done|]. by intros [].
    + rewrite cast_vote_none; [done|].
      intros w Hw [Hw1 Hw2]. rewrite Hvotes in Hw.
      apply elem_of_app in Hw as [Hw|Hw].
      * apply (Huniq w); [apply elem_of_app; by left | done].
      * apply elem_of_cons in Hw as [->|Hw]; [done|].
        apply (Huniq w); [apply elem_of_app; by right | done].
  - intros Hc v'.
    rewrite (cast_vote_at s f l topic agent choice pre v post Hvotes Ht Hc
               (Hpre choice)).
    eexists _, _. split; [reflexivity|]. split; [reflexivity|].
    split; [reflexivity|]. split; [apply lookup_insert_eq|].
    split; [intros k Hk; by apply lookup_insert_ne|].
    intros choice2 Hc2.
    erewrite (cast_vote_at _ _ _ topic agent choice2 pre v' post);
      [|reflexivity|exact Ht|exact Hc2|exact (Hpre choice2)].
    eexists. split; [reflexivity|]. cbn. rewrite insert_insert_eq.
    split; [done | apply items_insert].
Qed.

Lemma cast_vote_validity_witness :
  (cast_vote "lang" AgentRole.CODEX "python" Examples.scenario_c).1
  = Return None.
Proof.
  eassert (_state Examples.scenario_c = Some _) as Hs by reflexivity.
  eapply (proj1 (proj2 (cast_vote_validity Examples.scenario_c _ "lang"
                          AgentRole.CODEX "python" Hs)
                   [] _ [] eq_refl eq_refl _)).
  vm_compute. intros H. repeat (apply elem_of_cons in H as [H|H]; [discriminate H|]).
  by apply elem_of_nil in H.
  Unshelve. intros w Hw. by apply elem_of_nil in Hw.
Defined.

(** Against C7 as worded: with two votes on "lang", a cast of "python",
    which only the second one offers, is recorded in the second one. *)
Lemma cast_lands_in_later_duplicate_counterexample :
  let self := Examples.duplicate_topic in
  ∃ s first second second' s',
    _state self = Some s
    ∧ ConversationState.active_votes s = [first; second]
    ∧ Vote.topic first = "lang" ∧ Vote.topic second = "lang"
    ∧ cast_vote "lang" AgentRole.GEMINI "python" self
      = (Return (Some second'),
         (cast_vote "lang" AgentRole.GEMINI "python" self).2)
    ∧ _state (cast_vote "lang" AgentRole.GEMINI "python" self).2 = Some s'
    ∧ ConversationState.active_votes s' = [first; second']
    ∧ Vote.votes second' !! "gemini" = Some "python".
Proof.
  eexists _, _, _, _, _.
  split_and!; [reflexivity | reflexivity | reflexivity | reflexivity
               | | | | ].
  - vm_compute. reflexivity.
  - vm_compute. reflexivity.
  - vm_compute. reflexivity.
  - vm_compute. reflexivity.
Qed.

(** C7 (as the code has it). Among the votes on [topic], a cast lands in
    the first one that offers [choice]: votes before it, on the topic or
    not, are skipped and left as they were, and so are the votes after it.
    In particular the cast lands in the first vote on the topic whenever
    that vote offers [choice]; and it is rejected exactly when no vote on
    the topic offers [choice]. *)
Theorem cast_vote_first_valid_match (self : t) (s : ConversationState.t)
    (topic : string) (agent : AgentRole.t) (choice : string) :
  _state self = Some s →
  (∀ pre v post,
     ConversationState.active_votes s = pre ++ v :: post →
     Vote.topic v = topic →
     choice ∈ Vote.options v →
     (∀ w, w ∈ pre → Vote.topic w = topic → choice ∉ Vote.options w) →
     let v' :=
       Vote.set_votes
         (<[AgentRole.value agent := choice]> (Vote.votes v)) v in
     ∃ self' s',
       cast_vote topic agent choice self = (Return (Some v'), self')
       ∧ _state self' = Some s'
       ∧ ConversationState.active_votes s' = pre ++ v' :: post)
  ∧ ((cast_vote topic agent choice self).1 = Return None
     ↔ ∀ w, w ∈ ConversationState.active_votes s →
            Vote.topic w = topic → choice ∉ Vote.options w).
Proof.
  intros Hs. rewrite (initialised_eq _ _ Hs).
  set (f := state_file self). set (l := conversation_log self). split.
  - intros pre v post Hvotes Ht Hc Hpre v'.
    rewrite (cast_vote_at s f l topic agent choice pre v post Hvotes Ht Hc).
    + eexists _, _. split_and!; reflexivity.
    + intros w Hw [Hw1 Hw2]. by apply (Hpre w).
  - destruct (cast_vote_cases s f l topic agent choice)
      as [[-> Hno]|(i & v & Hf & ->)].
    + split; [|done]. intros _ w Hw Ht Hc. by apply (Hno w).
    + split; [done|]. intros Hno.
      apply list_find_Some in Hf as (Hi & [Ht Hc] & _).
      destruct (Hno v); [by eapply list_elem_of_lookup_2|done..].
Qed.

Lemma cast_vote_first_valid_match_witness :
  ∃ v' self',
    cast_vote "lang" AgentRole.GEMINI "go" Examples.duplicate_topic
    = (Return (Some v'), self')
    ∧ Vote.options v' = ["go"; "rust"].
Proof.
  eassert (_state Examples.duplicate_topic = Some _) as Hs by reflexivity.
  edestruct (proj1 (cast_vote_first_valid_match Examples.duplicate_topic _
                      "lang" AgentRole.GEMINI "go" Hs) [])
    as (self' & s' & H1 & _).
  - reflexivity.
  - reflexivity.
  - vm_compute. left.
  - intros w Hw. by apply elem_of_nil in Hw.
  - eexists _, _. split; [exact H1 | reflexivity].
Defined.

(** ** Claiming again *)

(** Against C8 as worded: a second claim by the owner is not a no-op; the
    task gets a new [updated_at], and with it the state changes. *)
Lemma reclaim_not_noop_counterexample :
  let self := Examples.scenario_a_claimed in
  ∃ s x x',
    _state self = Some s
    ∧ get_task_loop "bbbb0002" (ConversationState.tasks s) = Some x
    ∧ Task.claimed_by x = Some AgentRole.GEMINI
    ∧ (claim_task Examples.t3 "bbbb0002" AgentRole.GEMINI self).1
      = Return (Some x')
    ∧ Task.updated_at x' ≠ Task.updated_at x
    ∧ _state (claim_task Examples.t3 "bbbb0002" AgentRole.GEMINI self).2
      ≠ Some s.
Proof.
  eexists _, _, _.
  split_and!; [reflexivity | reflexivity | reflexivity | | | ].
  - vm_compute. reflexivity.
  - vm_compute. discriminate.
  - vm_compute. discriminate.
Qed.

(** C8 (as the code has it). For a task [x] already claimed by [agent]
    whose dependencies do not block, a further claim by [agent] succeeds:
    it stores [utcnow] in [updated_at] and [IN_PROGRESS] in [status], and
    leaves every other field of the task, every other task and the rest of
    the state as they were; the state is saved and a transcript entry is
    appended again.  For a task that is in progress only [updated_at]
    changes, and nothing in the state changes when [updated_at] already
    holds [utcnow]. *)
Theorem reclaim_by_owner (self : t) (s : ConversationState.t)
    (utcnow : datetime.t) (task_id : string) (agent : AgentRole.t)
    (i : nat) (x : Task.t) :
  _state self = Some s →
  list_find (λ y, Task.id y = task_id) (ConversationState.tasks s)
  = Some (i, x) →
  Task.claimed_by x = Some agent →
  (∀ dep d, dep ∈ Task.dependencies x →
            get_task_loop dep (ConversationState.tasks s) = Some d →
            Task.status d = TaskStatus.COMPLETED) →
  let x' :=
    Task.set_updated_at utcnow (Task.set_status TaskStatus.IN_PROGRESS x) in
  let s' :=
    ConversationState.set_tasks (<[i := x']> (ConversationState.tasks s)) s in
  claim_task utcnow task_id agent self
  = (Return (Some x'),
     mk (Some s') (Some (ConversationState.model_dump s'))
        (Some (default "" (conversation_log self)
               +:+ task_claimed_entry task_id agent +:+ nl +:+ nl)))
  ∧ (Task.status x = TaskStatus.IN_PROGRESS →
     x' = Task.set_updated_at utcnow x)
  ∧ (Task.status x = TaskStatus.IN_PROGRESS → Task.updated_at x = utcnow →
     s' = s).
Proof.
  intros Hs Hf Ho Hdeps x' s'. rewrite (initialised_eq _ _ Hs) at 1.
  split_and!.
  - rewrite (claim_task_ok s _ _ utcnow task_id agent i x Hf
               (claimed_by_owner_not_other _ _ Ho) Hdeps).
    by rewrite (set_claimed_by_same _ _ Ho).
  - intros Hst. subst x'. destruct x; cbn in *. by rewrite Hst.
  - intros Hst Hup. subst s' x'.
    apply list_find_Some in Hf as (Hi & _ & _).
    assert (Task.set_updated_at utcnow
              (Task.set_status TaskStatus.IN_PROGRESS x) = x) as ->.
    { destruct x; cbn in *. by rewrite Hst, Hup. }
    rewrite list_insert_id by done. by destruct s.
Qed.

Lemma reclaim_by_owner_witness :
  ∃ x' self',
    claim_task Examples.t3 "bbbb0002" AgentRole.GEMINI
      Examples.scenario_a_claimed
    = (Return (Some x'), self')
    ∧ Task.updated_at x' = Examples.t3
    ∧ Task.status x' = TaskStatus.IN_PROGRESS.
Proof.
  eassert (_state Examples.scenario_a_claimed = Some _) as Hs
    by reflexivity.
  match type of Hs with
  | _ = Some ?s =>
      eassert (list_find (λ y, Task.id y = "bbbb0002")
                 (ConversationState.tasks s) = Some (1%nat, _)) as Hf
        by (vm_compute; reflexivity)
  end.
  destruct (reclaim_by_owner _ _ Examples.t3 _ AgentRole.GEMINI _ _ Hs Hf
              eq_refl) as (H1 & _ & _).
  - intros dep d Hdep. vm_compute in Hdep.
    apply list_elem_of_singleton in Hdep as ->.
    vm_compute. intros [= <-]. reflexivity.
  - eexists _, _. split_and!; [exact H1 | reflexivity | reflexivity].
Defined.

(** ** The state file *)

(** C9. Saving a state and initialising a manager on the same directory
    gives back the same state, field for field: the document [_save]
    writes validates to the state it was dumped from, whatever the default
    factories would draw. *)
Theorem save_then_initialize (self : t) (s : ConversationState.t)
    (uuid : string) (utcnow : datetime.t) :
  _state self = Some s →
  valid_timestamps s = true →
  ∃ self1,
    _save self = (Return (), self1)
    ∧ state_file self1 = Some (ConversationState.model_dump s)
    ∧ initialize uuid utcnow
        (init (state_file self1) (conversation_log self1))
      = (Return s, mk (Some s) (state_file self1) (conversation_log self1)).
Proof.
  intros Hs Hvalid. unfold _save. rewrite Hs.
  eexists. split; [reflexivity|]. split; [reflexivity|].
  unfold initialize, init. cbn [state_file conversation_log].
  by rewrite ConversationState_validate_dump.
Qed.

Lemma save_then_initialize_witness :
  ∃ s self1,
    _state Examples.busy_session = Some s
    ∧ _save Examples.busy_session = (Return (), self1)
    ∧ (initialize "0badc0de" Examples.t0
         (init (state_file self1) (conversation_log self1))).1
      = Return s.
Proof.
  eassert (_state Examples.busy_session = Some _) as Hs by reflexivity.
  edestruct (save_then_initialize Examples.busy_session _ "0badc0de"
               Examples.t0 Hs) as (self1 & H1 & _ & H2).
  - vm_compute. reflexivity.
  - eexists _, self1. split; [exact Hs|]. split; [exact H1|].
    by rewrite H2.
Defined.

(** ** Rejections *)

(** C10. Whenever [claim_task], [complete_task], [submit_review] or
    [cast_vote] returns [None], the manager is left exactly as it was: the
    in-memory state, the state file and the transcript are all unchanged. *)
Theorem rejected_call_changes_nothing (self : t) :
  (∀ utcnow task_id agent,
     (claim_task utcnow task_id agent self).1 = Return None →
     (claim_task utcnow task_id agent self).2 = self)
  ∧ (∀ utcnow task_id agent result files_modified,
       (complete_task utcnow task_id agent result files_modified self).1
       = Return None →
       (complete_task utcnow task_id agent result files_modified self).2
       = self)
  ∧ (∀ uuid utcnow review_id agent verdict feedback,
       (submit_review uuid utcnow review_id agent verdict feedback self).1
       = Return None →
       (submit_review uuid utcnow review_id agent verdict feedback self).2
       = self)
  ∧ (∀ topic agent choice,
       (cast_vote topic agent choice self).1 = Return None →
       (cast_vote topic agent choice self).2 = self).
Proof.
  split_and!.
  - intros utcnow task_id agent H.
    destruct (returned_initialised _ _ _ H) as [s Hs].
    rewrite (initialised_eq _ _ Hs) in *.
    destruct (claim_task_cases s (state_file self) (conversation_log self)
                utcnow task_id agent)
      as [[-> _]|(i & x & _ & _ & _ & Heq)]; [done|].
    rewrite Heq in H. discriminate H.
  - intros utcnow task_id agent result files_modified H.
    destruct (returned_initialised _ _ _ H) as [s Hs].
    rewrite (initialised_eq _ _ Hs) in *.
    destruct (complete_task_cases s (state_file self)
                (conversation_log self) utcnow task_id agent result
                files_modified)
      as [[-> _]|(i & x & _ & _ & Heq)]; [done|].
    rewrite Heq in H. discriminate H.
  - intros uuid utcnow review_id agent verdict feedback H.
    destruct (returned_initialised _ _ _ H) as [s Hs].
    rewrite (initialised_eq _ _ Hs) in *.
    destruct (submit_review_cases s (state_file self)
                (conversation_log self) uuid utcnow review_id agent verdict
                feedback)
      as [[-> _]|(i & x & _ & Heq)]; [done|].
    rewrite Heq in H. discriminate H.
  - intros topic agent choice H.
    destruct (returned_initialised _ _ _ H) as [s Hs].
    rewrite (initialised_eq _ _ Hs) in *.
    destruct (cast_vote_cases s (state_file self) (conversation_log self)
                topic agent choice)
      as [[-> _]|(i & x & _ & Heq)]; [done|].
    rewrite Heq in H. discriminate H.
Qed.

Lemma rejected_call_changes_nothing_witness :
  (claim_task Examples.t1 "bbbb0002" AgentRole.GEMINI Examples.scenario_a).2
  = Examples.scenario_a
  ∧ (complete_task Examples.t1 "aaaa0001" AgentRole.GEMINI "done" None
       Examples.scenario_a).2
    = Examples.scenario_a
  ∧ (submit_review "eeee0005" Examples.t2 "cccc0003" AgentRole.CLAUDE
       "APPROVED" "ok" Examples.scenario_d).2
    = Examples.scenario_d
  ∧ (cast_vote "lang" AgentRole.CODEX "python" Examples.scenario_c).2
    = Examples.scenario_c.
Proof.
  split_and!.
  - apply (proj1 (rejected_call_changes_nothing Examples.scenario_a)).
    vm_compute. reflexivity.
  - apply (proj1 (proj2 (rejected_call_changes_nothing Examples.scenario_a))).
    vm_compute. reflexivity.
  - apply (proj1 (proj2 (proj2
             (rejected_call_changes_nothing Examples.scenario_d)))).
    vm_compute. reflexivity.
  - apply (proj2 (proj2 (proj2
             (rejected_call_changes_nothing Examples.scenario_c)))).
    vm_compute. reflexivity.
Defined.

(** * Further properties of the manager *)

(** ** Every call is a sequence of elementary changes *)

Section effects.
Context (V : datetime.t → Prop) (resets : Prop).
Context (s : ConversationState.t) (f : option json) (l : option string).

Local Abbreviation self := (mk (Some s) f l).

Lemma call_effects (c : Call) :
  Forall V (call_clock c) →
  (is_reset c = true → resets) →
  ∃ s', _state (call c self).2 = Some s'
        ∧ rtc (effect V resets) s s'.
Proof.
  intros Hclock Hreset. destruct c; cbn [call call_clock] in *.
  - (* send_message *)
    apply Forall_cons in Hclock as [Hv _].
    eexists. split; [reflexivity|].
    apply rtc_once. by apply (effect_message V resets s (Message.mk _ _ _ _ _ _ _ _ _)).
  - (* mark_read *)
    eexists. split; [reflexivity|]. apply rtc_once. apply effect_read.
  - (* create_task *)
    apply Forall_cons in Hclock as [Hc [Hu _]%Forall_cons].
    eexists. split; [reflexivity|]. apply rtc_once.
    by apply (effect_task V resets s (Task.mk _ _ _ _ _ _ _ _ _ _ _ _)).
  - (* claim_task *)
    apply Forall_cons in Hclock as [Hv _]. rewrite bind_eq.
    destruct (claim_task_cases s f l utcnow task_id agent)
      as [[-> _]|(i & x & Hf & Ho & Hdeps & _)].
    + exists s. split; [done | apply rtc_refl].
    + rewrite (claim_task_ok s f l utcnow task_id agent i x Hf Ho Hdeps).
      eexists. split; [reflexivity|]. apply rtc_once.
      pose proof Hf as (_ & Hid & _)%list_find_Some. subst task_id.
      by apply effect_claim.
  - (* complete_task *)
    apply Forall_cons in Hclock as [Hv _]. rewrite bind_eq.
    destruct (complete_task_cases s f l utcnow task_id agent result
                files_modified)
      as [[-> _]|(i & x & Hf & Ho & _)].
    + exists s. split; [done | apply rtc_refl].
    + rewrite (complete_task_ok s f l utcnow task_id agent result
                 files_modified i x Hf Ho).
      eexists. split; [reflexivity|]. apply rtc_once.
      pose proof Hf as (_ & Hid & _)%list_find_Some. subst task_id.
      by apply (effect_complete V resets s i x agent).
  - (* request_review *)
    apply Forall_cons in Hclock as [Hr [Hm _]%Forall_cons].
    eexists. split; [reflexivity|].
    eapply (rtc_l _ _
              (ConversationState.set_reviews
                 (ConversationState.reviews s
                  ++ [ReviewRequest.mk uuid utcnow from_agent to_agent
                        task_id content (default [] files) None None]) s)).
    { by apply (effect_review V resets s
                  (ReviewRequest.mk _ _ _ _ _ _ _ _ _)). }
    apply rtc_once.
    by apply (effect_message V resets _ (Message.mk _ _ _ _ _ _ _ _ _)).
  - (* submit_review *)
    apply Forall_cons in Hclock as [Hv _]. rewrite bind_eq.
    destruct (submit_review_cases s f l uuid utcnow review_id agent verdict
                feedback)
      as [[-> _]|(i & r & Hf & _)].
    + exists s. split; [done | apply rtc_refl].
    + rewrite (submit_review_ok s f l uuid utcnow review_id agent verdict
                 feedback i r Hf).
      eexists. split; [reflexivity|].
      apply list_find_Some in Hf as (Hi & _ & _).
      eapply (rtc_l _ _
                (ConversationState.set_reviews
                   (<[i := ReviewRequest.set_feedback (Some feedback)
                             (ReviewRequest.set_verdict (Some verdict) r)]>
                      (ConversationState.reviews s)) s));
        [by apply effect_verdict|].
      apply rtc_once.
      by apply (effect_message V resets _ (Message.mk _ _ _ _ _ _ _ _ _)).
  - (* set_context *)
    eexists. split; [reflexivity|]. apply rtc_once. apply effect_context.
  - (* append_context *)
    eexists. split; [reflexivity|]. apply rtc_once. apply effect_context.
  - (* create_vote *)
    apply Forall_cons in Hclock as [Hv _].
    eexists. split; [reflexivity|].
    eapply (rtc_l _ _
              (ConversationState.set_active_votes
                 (ConversationState.active_votes s
                  ++ [Vote.mk topic options ∅ None None]) s)).
    { by apply (effect_vote V resets s (Vote.mk _ _ _ _ _)). }
    apply rtc_once.
    by apply (effect_message V resets _ (Message.mk _ _ _ _ _ _ _ _ _)).
  - (* cast_vote *)
    rewrite bind_eq.
    destruct (cast_vote_cases s f l topic agent choice)
      as [[-> _]|(i & v & Hf & _)].
    + exists s. split; [done | apply rtc_refl].
    + rewrite (cast_vote_ok s f l topic agent choice i v Hf).
      eexists. split; [reflexivity|].
      apply list_find_Some in Hf as (Hi & [_ Hc] & _).
      apply rtc_once. by apply effect_cast.
  - (* escalate_to_human *)
    apply Forall_cons in Hclock as [Hv _].
    eexists. split; [reflexivity|].
    eapply (rtc_l _ _
              (ConversationState.set_escalation_reason (Some reason)
                 (ConversationState.set_human_intervention_requested true
                    s)));
      [apply effect_escalate|].
    apply rtc_once.
    by apply (effect_message V resets _ (Message.mk _ _ _ _ _ _ _ _ _)).
  - (* clear_escalation *)
    eexists. split; [reflexivity|]. apply rtc_once. apply effect_clear.
  - (* set_initial_prompt *)
    eexists. split; [reflexivity|]. apply rtc_once. apply effect_prompt.
  - (* reset *)
    apply Forall_cons in Hclock as [Hv _].
    eexists. split; [reflexivity|]. apply rtc_once.
    apply effect_reset; auto.
Qed.

End effects.

Lemma run_effects (V : datetime.t → Prop) (resets : Prop)
    (calls : list Call) (self : t) (s : ConversationState.t) :
  _state self = Some s →
  Forall (λ c, Forall V (call_clock c)) calls →
  Forall (λ c, is_reset c = true → resets) calls →
  ∃ s', _state (run calls self) = Some s' ∧ rtc (effect V resets) s s'.
Proof.
  intros Hs Hclock. revert self s Hs.
  induction Hclock as [|c calls Hc _ IH]; intros self s Hs Hresets.
  - exists s. split; [done | apply rtc_refl].
  - apply Forall_cons in Hresets as [Hr Hresets]. cbn [run].
    rewrite (initialised_eq _ _ Hs).
    destruct (call_effects V resets s (state_file self)
                (conversation_log self) c Hc Hr) as (s1 & Hs1 & Hstep).
    destruct (IH _ s1 Hs1 Hresets) as (s' & Hs' & Hsteps).
    exists s'. split; [done|]. by etrans.
Qed.

(** What every elementary change keeps, every sequence of calls keeps. *)
Lemma effects_keep (V : datetime.t → Prop) (resets : Prop)
    (P : ConversationState.t → Prop) (s s' : ConversationState.t) :
  (∀ a b, effect V resets a b → P a → P b) →
  rtc (effect V resets) s s' → P s → P s'.
Proof. intros Hstep Hrtc. induction Hrtc; eauto. Qed.

Lemma clock_any (calls : list Call) :
  Forall (λ c, Forall (λ _, True) (call_clock c)) calls.
Proof. apply Forall_forall. intros c _. by apply Forall_forall. Qed.

Lemma resets_any (calls : list Call) :
  Forall (λ c, is_reset c = true → True) calls.
Proof. by apply Forall_forall. Qed.

Lemma resets_none (calls : list Call) :
  Forall (λ c, is_reset c = false) calls →
  Forall (λ c, is_reset c = true → False) calls.
Proof.
  intros H. eapply Forall_impl; [exact H|]. intros c ->. discriminate.
Qed.

(** ** Invariants of the stored collections *)

Lemma effect_keeps_tasks V resets s s' :
  effect V resets s s' →
  Forall task_consistent (ConversationState.tasks s) →
  Forall task_consistent (ConversationState.tasks s').
Proof.
  destruct 1; cbn; try done; intros Hall.
  - apply Forall_app. split; [done|]. apply Forall_singleton.
    unfold task_consistent. by rewrite H1.
  - apply Forall_insert; [done|]. unfold task_consistent. cbn. eauto.
  - apply Forall_insert; [done|]. unfold task_consistent. cbn.
    rewrite H1. eauto.
Qed.

(** X1. The statuses the manager stores.  If every task of the state is
    pending without owner, result or files, in progress with an owner, or
    completed with an owner and a result, the same holds after any
    sequence of calls, resets included; the reserved statuses claimed,
    review, blocked are never stored. *)
Theorem tasks_stay_consistent (self : t) (s : ConversationState.t)
    (calls : list Call) :
  _state self = Some s →
  Forall task_consistent (ConversationState.tasks s) →
  ∃ s', _state (run calls self) = Some s'
        ∧ Forall task_consistent (ConversationState.tasks s').
Proof.
  intros Hs Hall.
  destruct (run_effects (λ _, True) True calls self s Hs (clock_any calls)
              (resets_any calls)) as (s' & Hs' & Hsteps).
  exists s'. split; [done|].
  revert Hall. apply (effects_keep _ _ _ _ _ (effect_keeps_tasks _ _) Hsteps).
Qed.

Lemma tasks_stay_consistent_witness :
  ∃ s', _state Examples.busy_session = Some s'
        ∧ Forall task_consistent (ConversationState.tasks s').
Proof.
  eassert (_state Examples.fresh_session = Some _) as Hs by reflexivity.
  exact (tasks_stay_consistent Examples.fresh_session _
           [CreateTask "aaaa0001" Examples.t0 Examples.t0 "Parser"
              "Write the parser" AgentRole.CLAUDE None None;
            CreateTask "bbbb0002" Examples.t0 Examples.t0 "Printer"
              "Write the printer" AgentRole.CLAUDE (Some AgentRole.GEMINI)
              (Some ["aaaa0001"]);
            ClaimTask Examples.t1 "aaaa0001" AgentRole.CODEX;
            CompleteTask Examples.t1 "aaaa0001" AgentRole.CODEX "done" None;
            ClaimTask Examples.t2 "bbbb0002" AgentRole.GEMINI;
            SetInitialPrompt "Build the pretty-printer";
            SetContext "branch" "main";
            AppendContext "branch" "feature/printer";
            CreateVote "abcd0008" Examples.t1 "lang" ["go"; "rust"];
            CastVote "lang" AgentRole.GEMINI "go";
            RequestReview "cccc0003" Examples.t2 "dddd0004" Examples.t2
              AgentRole.GEMINI AgentRole.CODEX "review diff"
              (Some "bbbb0002") (Some ["printer.py"]);
            SubmitReview "eeee0005" Examples.t3 "cccc0003" AgentRole.CODEX
              "APPROVED" "ok";
            EscalateToHuman "ffff0006" Examples.t3 AgentRole.COPILOT "stuck"]
           Hs (Forall_nil_2 _)).
Defined.

Lemma effect_keeps_votes V resets s s' :
  effect V resets s s' →
  Forall vote_valid (ConversationState.active_votes s) →
  Forall vote_valid (ConversationState.active_votes s').
Proof.
  destruct 1; cbn; try done; intros Hall.
  - apply Forall_app. split; [done|]. apply Forall_singleton.
    intros k c. by rewrite H.
  - apply Forall_insert; [done|]. intros k c. cbn.
    destruct (decide (k = AgentRole.value agent)) as [->|Hk].
    + rewrite lookup_insert_eq. intros [= <-]. eauto.
    + rewrite lookup_insert_ne by done.
      by apply (Forall_lookup_1 _ _ _ _ Hall H).
Qed.

(** X2. Recorded votes are valid.  If every entry of every vote map
    is stored under the name of an agent role and holds one of the options
    of its vote, the same holds after any sequence of calls: no call
    stores a choice outside the options, or under another key. *)
Theorem votes_stay_valid (self : t) (s : ConversationState.t)
    (calls : list Call) :
  _state self = Some s →
  Forall vote_valid (ConversationState.active_votes s) →
  ∃ s', _state (run calls self) = Some s'
        ∧ Forall vote_valid (ConversationState.active_votes s').
Proof.
  intros Hs Hall.
  destruct (run_effects (λ _, True) True calls self s Hs (clock_any calls)
              (resets_any calls)) as (s' & Hs' & Hsteps).
  exists s'. split; [done|].
  revert Hall. apply (effects_keep _ _ _ _ _ (effect_keeps_votes _ _) Hsteps).
Qed.

Lemma votes_stay_valid_witness :
  ∃ s',
    _state (run [CastVote "lang" AgentRole.GEMINI "go";
                 CastVote "lang" AgentRole.CODEX "python";
                 CastVote "lang" AgentRole.GEMINI "rust"]
              Examples.duplicate_topic) = Some s'
    ∧ Forall vote_valid (ConversationState.active_votes s').
Proof.
  eassert (_state Examples.duplicate_topic = Some _) as Hs by reflexivity.
  refine (votes_stay_valid Examples.duplicate_topic _ _ Hs _).
  apply Forall_forall. intros v Hv k c H.
  repeat (apply elem_of_cons in Hv as [->|Hv]);
    [ match type of H with
      | ?m !! _ = _ =>
          replace m with (∅ : gmap string string) in H by reflexivity
      end;
      by rewrite lookup_empty in H ..
    | by apply elem_of_nil in Hv ].
Defined.

Lemma effect_keeps_escalation V resets s s' :
  effect V resets s s' →
  (ConversationState.human_intervention_requested s = true
   ↔ is_Some (ConversationState.escalation_reason s)) →
  (ConversationState.human_intervention_requested s' = true
   ↔ is_Some (ConversationState.escalation_reason s')).
Proof.
  destruct 1; cbn; done.
Qed.

(** X3. The escalation flag and its reason go together.  If the
    state has a reason exactly when [human_intervention_requested] is set,
    the same holds after any sequence of calls. *)
Theorem escalation_flag_matches_reason (self : t) (s : ConversationState.t)
    (calls : list Call) :
  _state self = Some s →
  (ConversationState.human_intervention_requested s = true
   ↔ is_Some (ConversationState.escalation_reason s)) →
  ∃ s', _state (run calls self) = Some s'
        ∧ (ConversationState.human_intervention_requested s' = true
           ↔ is_Some (ConversationState.escalation_reason s')).
Proof.
  intros Hs Hall.
  destruct (run_effects (λ _, True) True calls self s Hs (clock_any calls)
              (resets_any calls)) as (s' & Hs' & Hsteps).
  exists s'. split; [done|].
  revert Hall.
  apply (effects_keep _ _
           (λ s, ConversationState.human_intervention_requested s = true
                 ↔ is_Some (ConversationState.escalation_reason s))
           _ _ (effect_keeps_escalation _ _) Hsteps).
Qed.

Lemma escalation_flag_matches_reason_witness :
  ∃ s',
    _state (run [ClearEscalation;
                 EscalateToHuman "ffff0007" Examples.t3 AgentRole.CODEX ""]
              Examples.busy_session) = Some s'
    ∧ (ConversationState.human_intervention_requested s' = true
       ↔ is_Some (ConversationState.escalation_reason s')).
Proof.
  eassert (_state Examples.busy_session = Some _) as Hs by reflexivity.
  refine (escalation_flag_matches_reason Examples.busy_session _ _ Hs _).
  split; [intros _; eexists; reflexivity | reflexivity].
Defined.

Lemma effect_keeps_reviews V resets s s' :
  effect V resets s s' →
  Forall review_consistent (ConversationState.reviews s) →
  Forall review_consistent (ConversationState.reviews s').
Proof.
  destruct 1; cbn; try done; intros Hall.
  - apply Forall_app. split; [done|]. apply Forall_singleton.
    unfold review_consistent. rewrite H0, H1. done.
  - apply Forall_insert; [done|]. unfold review_consistent. cbn.
    split; eauto.
Qed.

(** X4. A review has feedback exactly when it has a verdict: if
    that holds of every stored review, it holds after any sequence of
    calls. *)
Theorem reviews_stay_consistent (self : t) (s : ConversationState.t)
    (calls : list Call) :
  _state self = Some s →
  Forall review_consistent (ConversationState.reviews s) →
  ∃ s', _state (run calls self) = Some s'
        ∧ Forall review_consistent (ConversationState.reviews s').
Proof.
  intros Hs Hall.
  destruct (run_effects (λ _, True) True calls self s Hs (clock_any calls)
              (resets_any calls)) as (s' & Hs' & Hsteps).
  exists s'. split; [done|].
  revert Hall.
  apply (effects_keep _ _ _ _ _ (effect_keeps_reviews _ _) Hsteps).
Qed.

Lemma reviews_stay_consistent_witness :
  ∃ s',
    _state (run [SubmitReview "eeee0005" Examples.t2 "cccc0003"
                   AgentRole.CODEX "NEEDS_CHANGES" "";
                 RequestReview "cccc0009" Examples.t3 "dddd000a" Examples.t3
                   AgentRole.CODEX AgentRole.CLAUDE "again" None None]
              Examples.scenario_d) = Some s'
    ∧ Forall review_consistent (ConversationState.reviews s').
Proof.
  eassert (_state Examples.scenario_d = Some _) as Hs by reflexivity.
  refine (reviews_stay_consistent Examples.scenario_d _ _ Hs _).
  repeat constructor; intros [? H]; vm_compute in H; discriminate H.
Defined.

(** ** Nothing is deleted, reordered or rewritten *)

Section extends.
Context {A : Type} (later : A → A → Prop).
Context (later_refl : ∀ a, later a a).
Context (later_trans : ∀ a b c, later a b → later b c → later a c).

Lemma extends_refl (l : list A) : extends later l l.
Proof. intros i a Hi. eauto. Qed.

Lemma extends_trans (l1 l2 l3 : list A) :
  extends later l1 l2 → extends later l2 l3 → extends later l1 l3.
Proof.
  intros H12 H23 i a Hi.
  destruct (H12 i a Hi) as (b & Hb & Hab).
  destruct (H23 i b Hb) as (c & Hc & Hbc). eauto.
Qed.

Lemma extends_app (l k : list A) : extends later l (l ++ k).
Proof.
  intros i a Hi. exists a. split; [|done]. by apply lookup_app_l_Some.
Qed.

Lemma extends_insert (l : list A) (i : nat) (a a' : A) :
  l !! i = Some a → later a a' → extends later l (<[i := a']> l).
Proof.
  intros Hi Hlater j b Hj. destruct (decide (j = i)) as [->|Hne].
  - exists a'. split.
    + apply list_lookup_insert_eq. by eapply lookup_lt_Some.
    + congruence.
  - exists b. split; [|done]. by rewrite list_lookup_insert_ne.
Qed.

End extends.

Lemma message_later_refl (m : Message.t) : message_later m m.
Proof. by left. Qed.

Lemma message_later_trans (a b c : Message.t) :
  message_later a b → message_later b c → message_later a c.
Proof.
  intros [->| ->] [->| ->]; unfold message_later; auto.
Qed.

Lemma task_later_refl (x : Task.t) : task_later x x.
Proof. unfold task_later. auto 10. Qed.

Lemma task_later_trans (a b c : Task.t) :
  task_later a b → task_later b c → task_later a c.
Proof.
  unfold task_later. intros (?&?&?&?&?&?&?&?) (?&?&?&?&?&?&?&?).
  split_and!; try congruence. auto.
Qed.

Lemma review_later_refl (r : ReviewRequest.t) : review_later r r.
Proof. unfold review_later. auto 10. Qed.

Lemma review_later_trans (a b c : ReviewRequest.t) :
  review_later a b → review_later b c → review_later a c.
Proof.
  unfold review_later. intros (?&?&?&?&?&?&?&?) (?&?&?&?&?&?&?&?).
  split_and!; try congruence. auto.
Qed.

Lemma vote_later_refl (v : Vote.t) : vote_later v v.
Proof. unfold vote_later. auto. Qed.

Lemma vote_later_trans (a b c : Vote.t) :
  vote_later a b → vote_later b c → vote_later a c.
Proof.
  unfold vote_later. intros (?&?&?) (?&?&?).
  split_and!; try congruence. set_solver.
Qed.

Lemma mark_read_loop_extends (message_id : string) (l : list Message.t) :
  extends message_later l (mark_read_loop message_id l).
Proof.
  induction l as [|m l IH]; intros i a Hi; [done|]. cbn.
  destruct (decide (Message.id m = message_id)).
  - destruct i as [|i]; cbn in *.
    + injection Hi as <-. eexists. split; [done | by right].
    + eexists. split; [done | by left].
  - destruct i as [|i]; cbn in *.
    + injection Hi as <-. eexists. split; [done | by left].
    + by apply IH.
Qed.

Lemma effect_extends V s s' :
  effect V False s s' →
  extends message_later (ConversationState.messages s)
    (ConversationState.messages s')
  ∧ extends task_later (ConversationState.tasks s)
      (ConversationState.tasks s')
  ∧ extends review_later (ConversationState.reviews s)
      (ConversationState.reviews s')
  ∧ extends vote_later (ConversationState.active_votes s)
      (ConversationState.active_votes s')
  ∧ ConversationState.session_id s' = ConversationState.session_id s
  ∧ ConversationState.started_at s' = ConversationState.started_at s.
Proof.
  pose proof (extends_refl _ message_later_refl) as Hm.
  pose proof (extends_refl _ task_later_refl) as Ht.
  pose proof (extends_refl _ review_later_refl) as Hr.
  pose proof (extends_refl _ vote_later_refl) as Hv.
  destruct 1; cbn; split_and!; try done.
  - apply extends_app, message_later_refl.
  - apply mark_read_loop_extends.
  - apply extends_app, task_later_refl.
  - apply list_find_Some in H0 as (Hi & _ & _).
    eapply extends_insert; [apply task_later_refl|done|].
    unfold task_later. cbn.
    split_and!; try done. intros a Ha.
    unfold claimed_by_other in H1. rewrite Ha in H1.
    apply bool_decide_eq_false in H1. f_equal.
    by destruct (decide (a = agent)).
  - apply list_find_Some in H0 as (Hi & _ & _).
    eapply extends_insert; [apply task_later_refl|done|].
    unfold task_later. cbn.
    split_and!; done.
  - apply extends_app, review_later_refl.
  - eapply extends_insert; [apply review_later_refl|done|].
    unfold review_later. cbn.
    split_and!; eauto.
  - apply extends_app, vote_later_refl.
  - eapply extends_insert; [apply vote_later_refl|done|].
    unfold vote_later. cbn.
    split_and!; try done. set_solver.
Qed.

Lemma run_extends (self : t) (s : ConversationState.t) (calls : list Call) :
  _state self = Some s →
  Forall (λ c, is_reset c = false) calls →
  ∃ s', _state (run calls self) = Some s'
        ∧ extends message_later (ConversationState.messages s)
            (ConversationState.messages s')
        ∧ extends task_later (ConversationState.tasks s)
            (ConversationState.tasks s')
        ∧ extends review_later (ConversationState.reviews s)
            (ConversationState.reviews s')
        ∧ extends vote_later (ConversationState.active_votes s)
            (ConversationState.active_votes s')
        ∧ ConversationState.session_id s' = ConversationState.session_id s
        ∧ ConversationState.started_at s' = ConversationState.started_at s.
Proof.
  intros Hs Hcalls.
  destruct (run_effects (λ _, True) False calls self s Hs (clock_any calls)
              (resets_none calls Hcalls)) as (s' & Hs' & Hsteps).
  exists s'. split; [done|]. clear Hs Hs' Hcalls.
  induction Hsteps as [a|a b c Hab _ IH].
  - pose proof (extends_refl _ message_later_refl).
    pose proof (extends_refl _ task_later_refl).
    pose proof (extends_refl _ review_later_refl).
    pose proof (extends_refl _ vote_later_refl).
    split_and!; auto.
  - destruct (effect_extends _ _ _ Hab) as (?&?&?&?&?&?).
    destruct IH as (?&?&?&?&?&?).
    split_and!.
    + eapply extends_trans; [apply message_later_trans|done..].
    + eapply extends_trans; [apply task_later_trans|done..].
    + eapply extends_trans; [apply review_later_trans|done..].
    + eapply extends_trans; [apply vote_later_trans|done..].
    + congruence.
    + congruence.
Qed.

(** X5. Messages are append-only.  Short of a reset, after any
    sequence of calls every message is still at its position, unchanged
    except that its [read] flag may have been set; no call removes,
    reorders or rewrites a message, or clears a [read] flag. *)
Theorem messages_append_only (self : t) (s : ConversationState.t)
    (calls : list Call) :
  _state self = Some s →
  Forall (λ c, is_reset c = false) calls →
  ∃ s', _state (run calls self) = Some s'
        ∧ ∀ i m,
            ConversationState.messages s !! i = Some m →
            ∃ m', ConversationState.messages s' !! i = Some m'
                  ∧ (m' = m ∨ m' = Message.set_read true m).
Proof.
  intros Hs Hcalls.
  destruct (run_extends self s calls Hs Hcalls) as (s' & Hs' & H & _).
  by exists s'.
Qed.

Lemma messages_append_only_witness :
  ∃ s' m',
    _state (run [MarkRead "ffff0006" AgentRole.GEMINI;
                 SendMessage "ffff0008" Examples.t3 AgentRole.CODEX None
                   "done" MessageType.RESPONSE Priority.LOW None]
              Examples.scenario_b) = Some s'
    ∧ ConversationState.messages s' !! 0%nat = Some m'
    ∧ Message.content m' = "hello" ∧ Message.read m' = true.
Proof.
  eassert (_state Examples.scenario_b = Some _) as Hs by reflexivity.
  edestruct (messages_append_only Examples.scenario_b _
               [MarkRead "ffff0006" AgentRole.GEMINI;
                SendMessage "ffff0008" Examples.t3 AgentRole.CODEX None
                  "done" MessageType.RESPONSE Priority.LOW None] Hs)
    as (s' & Hs' & Hold).
  - repeat constructor.
  - edestruct (Hold 0%nat) as (m' & Hm' & Hlater); [reflexivity|].
    exists s', m'. split; [exact Hs'|]. split; [exact Hm'|].
    vm_compute in Hs'. injection Hs' as <-.
    vm_compute in Hm'. injection Hm' as <-. split; reflexivity.
Defined.

(** X6. Tasks are never deleted, reordered or redefined.
    Short of a reset, after any sequence of calls every task is still at
    its position with the id, creation time, title, description, creator,
    assignee and dependencies it was created with, and a task that had an
    owner has the same owner. *)
Theorem tasks_keep_definition (self : t) (s : ConversationState.t)
    (calls : list Call) :
  _state self = Some s →
  Forall (λ c, is_reset c = false) calls →
  ∃ s', _state (run calls self) = Some s'
        ∧ ∀ i x,
            ConversationState.tasks s !! i = Some x →
            ∃ x', ConversationState.tasks s' !! i = Some x'
                  ∧ task_later x x'.
Proof.
  intros Hs Hcalls.
  destruct (run_extends self s calls Hs Hcalls) as (s' & Hs' & _ & H & _).
  by exists s'.
Qed.

Lemma tasks_keep_definition_witness :
  ∃ s' x',
    _state (run [ClaimTask Examples.t3 "aaaa0001" AgentRole.COPILOT;
                 CompleteTask Examples.t3 "bbbb0002" AgentRole.GEMINI "ok"
                   None]
              Examples.scenario_a_claimed) = Some s'
    ∧ ConversationState.tasks s' !! 0%nat = Some x'
    ∧ Task.claimed_by x' = Some AgentRole.CODEX.
Proof.
  eassert (_state Examples.scenario_a_claimed = Some _) as Hs
    by reflexivity.
  edestruct (tasks_keep_definition Examples.scenario_a_claimed _
               [ClaimTask Examples.t3 "aaaa0001" AgentRole.COPILOT;
                CompleteTask Examples.t3 "bbbb0002" AgentRole.GEMINI "ok"
                  None] Hs)
    as (s' & Hs' & Hold).
  - repeat constructor.
  - edestruct (Hold 0%nat) as (x' & Hx' & Hlater); [reflexivity|].
    exists s', x'. split; [exact Hs'|]. split; [exact Hx'|].
    apply Hlater. reflexivity.
Defined.

(** X7. Review requests are never deleted, reordered or
    redefined, and a verdict is never cleared.  Short of a reset, after
    any sequence of calls every review is still at its position with the
    same id, time, requester, reviewer, task, content and files, and a
    review that had a verdict still has one. *)
Theorem reviews_keep_request (self : t) (s : ConversationState.t)
    (calls : list Call) :
  _state self = Some s →
  Forall (λ c, is_reset c = false) calls →
  ∃ s', _state (run calls self) = Some s'
        ∧ ∀ i r,
            ConversationState.reviews s !! i = Some r →
            ∃ r', ConversationState.reviews s' !! i = Some r'
                  ∧ review_later r r'.
Proof.
  intros Hs Hcalls.
  destruct (run_extends self s calls Hs Hcalls)
    as (s' & Hs' & _ & _ & H & _).
  by exists s'.
Qed.

Lemma reviews_keep_request_witness :
  ∃ s' r',
    _state (run [SubmitReview "eeee0006" Examples.t3 "cccc0003"
                   AgentRole.CODEX "REJECTED" "no"]
              Examples.scenario_d_approved) = Some s'
    ∧ ConversationState.reviews s' !! 0%nat = Some r'
    ∧ ReviewRequest.from_agent r' = AgentRole.COPILOT
    ∧ is_Some (ReviewRequest.verdict r').
Proof.
  eassert (_state Examples.scenario_d_approved = Some _) as Hs
    by reflexivity.
  edestruct (reviews_keep_request Examples.scenario_d_approved _
               [SubmitReview "eeee0006" Examples.t3 "cccc0003"
                  AgentRole.CODEX "REJECTED" "no"] Hs)
    as (s' & Hs' & Hold).
  - repeat constructor.
  - edestruct (Hold 0%nat) as (r' & Hr' & Hlater); [reflexivity|].
    exists s', r'. split; [exact Hs'|]. split; [exact Hr'|].
    destruct Hlater as (_ & _ & Hfrom & _ & _ & _ & _ & Hverdict).
    split; [exact Hfrom|]. apply Hverdict. eexists. reflexivity.
Defined.

(** X8. Votes are never deleted, reordered or redefined,
    and a cast is never withdrawn.  Short of a reset, after any sequence
    of calls every vote is still at its position with the same topic and
    options, and every agent that had an entry in its map still has
    one. *)
Theorem votes_keep_topic (self : t) (s : ConversationState.t)
    (calls : list Call) :
  _state self = Some s →
  Forall (λ c, is_reset c = false) calls →
  ∃ s', _state (run calls self) = Some s'
        ∧ ∀ i v,
            ConversationState.active_votes s !! i = Some v →
            ∃ v', ConversationState.active_votes s' !! i = Some v'
                  ∧ vote_later v v'.
Proof.
  intros Hs Hcalls.
  destruct (run_extends self s calls Hs Hcalls)
    as (s' & Hs' & _ & _ & _ & H & _).
  by exists s'.
Qed.

Lemma votes_keep_topic_witness :
  ∃ s' v',
    _state (run [CastVote "lang" AgentRole.GEMINI "python";
                 CreateVote "abcd000a" Examples.t3 "lang" ["zig"]]
              Examples.duplicate_topic) = Some s'
    ∧ ConversationState.active_votes s' !! 1%nat = Some v'
    ∧ Vote.options v' = ["python"; "go"].
Proof.
  eassert (_state Examples.duplicate_topic = Some _) as Hs by reflexivity.
  edestruct (votes_keep_topic Examples.duplicate_topic _
               [CastVote "lang" AgentRole.GEMINI "python";
                CreateVote "abcd000a" Examples.t3 "lang" ["zig"]] Hs)
    as (s' & Hs' & Hold).
  - repeat constructor.
  - edestruct (Hold 1%nat) as (v' & Hv' & Hlater); [reflexivity|].
    exists s', v'. split; [exact Hs'|]. split; [exact Hv'|].
    apply Hlater.
Defined.

(** ** The state file follows the state *)

Section saved.
Context (s : ConversationState.t) (f : option json) (l : option string).

Local Abbreviation self := (mk (Some s) f l).

(** A call either changes nothing at all, or ends with the state file
    holding the dump of the state it leaves in memory. *)
Lemma call_saved (c : Call) :
  (call c self).2 = self
  ∨ ∃ s', _state (call c self).2 = Some s'
          ∧ state_file (call c self).2
            = Some (ConversationState.model_dump s').
Proof.
  destruct c; cbn [call];
    try (right; eexists; split; reflexivity).
  - rewrite bind_eq.
    destruct (claim_task_cases s f l utcnow task_id agent)
      as [[-> _]|(i & x & Hf & Ho & Hdeps & _)]; [by left|].
    rewrite (claim_task_ok s f l utcnow task_id agent i x Hf Ho Hdeps).
    right. eexists. split; reflexivity.
  - rewrite bind_eq.
    destruct (complete_task_cases s f l utcnow task_id agent result
                files_modified)
      as [[-> _]|(i & x & Hf & Ho & _)]; [by left|].
    rewrite (complete_task_ok s f l utcnow task_id agent result
               files_modified i x Hf Ho).
    right. eexists. split; reflexivity.
  - rewrite bind_eq.
    destruct (submit_review_cases s f l uuid utcnow review_id agent verdict
                feedback)
      as [[-> _]|(i & r & Hf & _)]; [by left|].
    rewrite (submit_review_ok s f l uuid utcnow review_id agent verdict
               feedback i r Hf).
    right. eexists. split; reflexivity.
  - rewrite bind_eq.
    destruct (cast_vote_cases s f l topic agent choice)
      as [[-> _]|(i & v & Hf & _)]; [by left|].
    rewrite (cast_vote_ok s f l topic agent choice i v Hf).
    right. eexists. split; reflexivity.
Qed.

End saved.

(** X9. No mutation is left unsaved.  If the state file holds the
    dump of the in-memory state, it still does after any sequence of
    calls, resets included: every call that changes the state ends by
    writing it. *)
Theorem state_file_in_sync (self : t) (s : ConversationState.t)
    (calls : list Call) :
  _state self = Some s →
  state_file self = Some (ConversationState.model_dump s) →
  ∃ s', _state (run calls self) = Some s'
        ∧ state_file (run calls self)
          = Some (ConversationState.model_dump s').
Proof.
  revert self s. induction calls as [|c calls IH]; intros self s Hs Hf.
  - by exists s.
  - cbn [run].
    pose proof (call_saved s (state_file self) (conversation_log self) c)
      as Hc.
    rewrite <-(initialised_eq _ _ Hs) in Hc.
    destruct Hc as [->|(s1 & Hs1 & Hf1)]; eauto.
Qed.

Lemma state_file_in_sync_witness :
  ∃ s',
    _state (run [ClaimTask Examples.t1 "bbbb0002" AgentRole.GEMINI;
                 MarkRead "nope" AgentRole.GEMINI;
                 ClaimTask Examples.t1 "aaaa0001" AgentRole.GEMINI]
              Examples.scenario_a) = Some s'
    ∧ state_file
        (run [ClaimTask Examples.t1 "bbbb0002" AgentRole.GEMINI;
              MarkRead "nope" AgentRole.GEMINI;
              ClaimTask Examples.t1 "aaaa0001" AgentRole.GEMINI]
           Examples.scenario_a)
      = Some (ConversationState.model_dump s').
Proof.
  eassert (_state Examples.scenario_a = Some _) as Hs by reflexivity.
  refine (state_file_in_sync Examples.scenario_a _ _ Hs _).
  vm_compute. reflexivity.
Defined.

Lemma forallb_iff {A} (p : A → bool) (l : list A) :
  forallb p l = true ↔ Forall (λ a, p a = true) l.
Proof.
  induction l as [|a l IH]; cbn.
  - split; [constructor | done].
  - rewrite andb_true_iff, Forall_cons, IH. done.
Qed.

Lemma valid_timestamps_iff (s : ConversationState.t) :
  valid_timestamps s = true
  ↔ datetime.valid (ConversationState.started_at s) = true
    ∧ Forall (λ m, datetime.valid (Message.timestamp m) = true)
        (ConversationState.messages s)
    ∧ Forall (λ x, datetime.valid (Task.created_at x)
                   && datetime.valid (Task.updated_at x) = true)
        (ConversationState.tasks s)
    ∧ Forall (λ r, datetime.valid (ReviewRequest.timestamp r) = true)
        (ConversationState.reviews s)
    ∧ Forall (λ v, from_option datetime.valid true (Vote.deadline v) = true)
        (ConversationState.active_votes s).
Proof.
  unfold valid_timestamps. rewrite !andb_true_iff, !forallb_iff. tauto.
Qed.

Lemma mark_read_loop_Forall (P : Message.t → Prop) message_id
    (l : list Message.t) :
  (∀ m, P m → P (Message.set_read true m)) →
  Forall P l → Forall P (mark_read_loop message_id l).
Proof.
  intros Hset. induction 1 as [|m l Hm Hl IH]; [done|]. cbn.
  destruct (decide (Message.id m = message_id)); constructor; auto.
Qed.

Lemma effect_keeps_valid_timestamps resets s s' :
  effect (λ d, datetime.valid d = true) resets s s' →
  valid_timestamps s = true → valid_timestamps s' = true.
Proof.
  rewrite !valid_timestamps_iff.
  destruct 1; cbn; intros (Hs & Hm & Ht & Hr & Hv); split_and!;
    try done.
  - apply Forall_app. split; [done|]. by apply Forall_singleton.
  - by apply mark_read_loop_Forall.
  - apply Forall_app. split; [done|]. apply Forall_singleton.
    by rewrite H, H0.
  - apply list_find_Some in H0 as (Hi & _ & _).
    apply Forall_insert; [done|]. cbn.
    apply (Forall_lookup_1 _ _ _ _ Ht) in Hi.
    apply andb_true_iff in Hi as [-> _]. done.
  - apply list_find_Some in H0 as (Hi & _ & _).
    apply Forall_insert; [done|]. cbn.
    apply (Forall_lookup_1 _ _ _ _ Ht) in Hi.
    apply andb_true_iff in Hi as [-> _]. done.
  - apply Forall_app. split; [done|]. by apply Forall_singleton.
  - apply Forall_insert; [done|]. cbn.
    by apply (Forall_lookup_1 _ _ _ _ Hr) in H.
  - apply Forall_app. split; [done|]. apply Forall_singleton.
    by rewrite H0.
  - apply Forall_insert; [done|]. cbn.
    by apply (Forall_lookup_1 _ _ _ _ Hv) in H.
Qed.

(** X10. A restart loses nothing.  Start on an empty state
    directory and issue any sequence of calls, resets included, every one
    with a well-formed clock reading.  Then the state file validates to
    exactly the in-memory state: a new manager initialised on the
    directory holds that state, and initialising the running manager
    again (as the server does before every tool call) changes nothing. *)
Theorem restart_restores_state (uuid : string) (utcnow : datetime.t)
    (log : option string) (calls : list Call)
    (uuid' : string) (utcnow' : datetime.t) :
  datetime.valid utcnow = true →
  Forall (λ c, Forall (λ d, datetime.valid d = true) (call_clock c)) calls →
  let self := run calls (initialize uuid utcnow (init None log)).2 in
  ∃ s,
    _state self = Some s
    ∧ initialize uuid' utcnow'
        (init (state_file self) (conversation_log self))
      = (Return s, mk (Some s) (state_file self) (conversation_log self))
    ∧ initialize uuid' utcnow' self = (Return s, self).
Proof.
  intros Hnow Hclock self.
  set (self0 := (initialize uuid utcnow (init None log)).2) in *.
  assert (_state self0 = Some (ConversationState.fresh uuid utcnow)) as Hs0
    by reflexivity.
  destruct (state_file_in_sync self0 _ calls Hs0 eq_refl)
    as (s & Hs & Hfile).
  destruct (run_effects (λ d, datetime.valid d = true) True calls self0 _
              Hs0 Hclock (resets_any calls)) as (s' & Hs' & Hsteps).
  fold self in Hs, Hfile, Hs'. assert (s' = s) as -> by congruence.
  assert (valid_timestamps s = true) as Hvalid.
  { apply (effects_keep _ _ (λ s, valid_timestamps s = true) _ _
             (effect_keeps_valid_timestamps _) Hsteps).
    unfold valid_timestamps. cbn. by rewrite Hnow. }
  exists s. split; [done|]. split.
  - unfold initialize, init. cbn [state_file conversation_log].
    rewrite Hfile at 1.
    by rewrite (ConversationState_validate_dump _ _ _ Hvalid).
  - unfold initialize. rewrite Hfile.
    rewrite (ConversationState_validate_dump _ _ _ Hvalid).
    rewrite <-Hfile. f_equal. symmetry. by apply initialised_eq.
Qed.

Lemma restart_restores_state_witness :
  ∃ s,
    _state Examples.busy_session = Some s
    ∧ initialize "0badc0de" Examples.t3 Examples.busy_session
      = (Return s, Examples.busy_session).
Proof.
  edestruct (restart_restores_state "5e551001" Examples.t0 None
               [CreateTask "aaaa0001" Examples.t0 Examples.t0 "Parser"
                  "Write the parser" AgentRole.CLAUDE None None;
                CreateTask "bbbb0002" Examples.t0 Examples.t0 "Printer"
                  "Write the printer" AgentRole.CLAUDE
                  (Some AgentRole.GEMINI) (Some ["aaaa0001"]);
                ClaimTask Examples.t1 "aaaa0001" AgentRole.CODEX;
                CompleteTask Examples.t1 "aaaa0001" AgentRole.CODEX "done"
                  None;
                ClaimTask Examples.t2 "bbbb0002" AgentRole.GEMINI;
                SetInitialPrompt "Build the pretty-printer";
                SetContext "branch" "main";
                AppendContext "branch" "feature/printer";
                CreateVote "abcd0008" Examples.t1 "lang" ["go"; "rust"];
                CastVote "lang" AgentRole.GEMINI "go";
                RequestReview "cccc0003" Examples.t2 "dddd0004" Examples.t2
                  AgentRole.GEMINI AgentRole.CODEX "review diff"
                  (Some "bbbb0002") (Some ["printer.py"]);
                SubmitReview "eeee0005" Examples.t3 "cccc0003"
                  AgentRole.CODEX "APPROVED" "ok";
                EscalateToHuman "ffff0006" Examples.t3 AgentRole.COPILOT
                  "stuck"]
               "0badc0de" Examples.t3)
    as (s & Hs & _ & Hinit).
  - reflexivity.
  - repeat constructor.
  - exists s. split; [exact Hs | exact Hinit].
Defined.

(** ** Before [initialize], and after [reset] *)

(** X11. Before [initialize] every method that touches the
    state raises the [RuntimeError] of the [state] property and leaves the
    manager and both files as they are: every mutating call other than
    [reset], and every read. *)
Theorem uninitialised_manager_raises (f : option json) (l : option string) :
  let self := init f l in
  let e := RuntimeError "State not initialized. Call initialize() first." in
  (∀ c, is_reset c = false → call c self = (Raise e, self))
  ∧ (∀ agent unread_only,
       get_inbox agent unread_only self = (Raise e, self))
  ∧ (∀ limit, get_conversation limit self = (Raise e, self))
  ∧ (∀ task_id, get_task task_id self = (Raise e, self))
  ∧ (∀ status assigned_to,
       get_tasks status assigned_to self = (Raise e, self))
  ∧ (∀ agent, get_pending_reviews agent self = (Raise e, self))
  ∧ (∀ key, get_context key self = (Raise e, self))
  ∧ get_all_context self = (Raise e, self)
  ∧ get_status self = (Raise e, self).
Proof.
  intros self e. split_and!; try reflexivity. by intros [].
Qed.

Lemma uninitialised_manager_raises_witness :
  call (SetContext "branch" "main") (init None None)
  = (Raise (RuntimeError "State not initialized. Call initialize() first."),
     init None None).
Proof.
  apply (proj1 (uninitialised_manager_raises None None)). reflexivity.
Defined.

(** X12. [reset] on an initialised manager forgets the session,
    whatever it held: the state is a fresh one, the state file holds its
    dump, the transcript is gone; so every claim, completion, review
    submission and cast is rejected afterwards, every inbox is empty and
    the status counts are zero. *)
Theorem reset_forgets_everything (self : t) (s : ConversationState.t)
    (uuid : string) (utcnow : datetime.t) :
  _state self = Some s →
  let fresh := ConversationState.fresh uuid utcnow in
  let self' :=
    mk (Some fresh) (Some (ConversationState.model_dump fresh)) None in
  reset uuid utcnow self = (Return (), self')
  ∧ (∀ utcnow' task_id agent,
       claim_task utcnow' task_id agent self' = (Return None, self'))
  ∧ (∀ utcnow' task_id agent result files_modified,
       complete_task utcnow' task_id agent result files_modified self'
       = (Return None, self'))
  ∧ (∀ uuid' utcnow' review_id agent verdict feedback,
       submit_review uuid' utcnow' review_id agent verdict feedback self'
       = (Return None, self'))
  ∧ (∀ topic agent choice,
       cast_vote topic agent choice self' = (Return None, self'))
  ∧ (∀ agent unread_only,
       get_inbox agent unread_only self' = (Return [], self'))
  ∧ get_status self'
    = (Return
         (Status.mk uuid (datetime.isoformat utcnow) 0
            (Status.mk_counts 0 0 0 0) 0 false None),
       self').
Proof.
  intros _ fresh self'. split_and!; reflexivity.
Qed.

Lemma reset_forgets_everything_witness :
  ∃ self',
    reset "5e551002" Examples.t3 Examples.busy_session = (Return (), self')
    ∧ claim_task Examples.t3 "aaaa0001" AgentRole.CODEX self'
      = (Return None, self').
Proof.
  eassert (_state Examples.busy_session = Some _) as Hs by reflexivity.
  destruct (reset_forgets_everything Examples.busy_session _ "5e551002"
              Examples.t3 Hs) as (Hreset & Hclaim & _).
  eexists. split; [exact Hreset | apply Hclaim].
Defined.

(** ** Reading the state *)

(** X13. [get_conversation] returns a suffix of the message
    list and changes nothing.  For a positive [limit] it is the last
    [limit] messages (all of them when there are fewer); for [limit = 0]
    it is the whole list, not the empty one, because [messages[-0:]] is
    [messages[0:]]; for a negative [limit] it is the list without its
    first [-limit] messages. *)
Theorem get_conversation_window (self : t) (s : ConversationState.t)
    (limit : Z) :
  _state self = Some s →
  let messages := ConversationState.messages s in
  ∃ window,
    get_conversation limit self = (Return window, self)
    ∧ (∃ older, messages = older ++ window)
    ∧ ((0 < limit)%Z →
       window = drop (List.length messages - Z.to_nat limit) messages
       ∧ List.length window
         = Nat.min (Z.to_nat limit) (List.length messages))
    ∧ (limit = 0%Z → window = messages)
    ∧ ((limit < 0)%Z → window = drop (Z.to_nat (- limit)) messages).
Proof.
  intros Hs messages. destruct self as [? f l]. cbn in Hs. subst.
  eexists. split; [reflexivity|]. fold messages. unfold slice_from.
  split_and!.
  - eexists. symmetry. apply take_drop.
  - intros Hpos. rewrite (proj2 (Z.ltb_lt _ _)) by lia.
    assert (Z.to_nat (Z.max (- limit + Z.of_nat (List.length messages)) 0)
            = (List.length messages - Z.to_nat limit)%nat) as -> by lia.
    split; [done|]. rewrite length_drop. lia.
  - intros ->. cbn. destruct (List.length messages); reflexivity.
  - intros Hneg. rewrite (proj2 (Z.ltb_ge _ _)) by lia.
    destruct (decide (Z.to_nat (- limit) ≤ List.length messages)%nat).
    + f_equal. lia.
    + rewrite !drop_ge; [done|lia|lia].
Qed.

Lemma get_conversation_window_witness :
  ∃ all,
    get_conversation 0 Examples.scenario_b
    = (Return all, Examples.scenario_b)
    ∧ List.length all = 2%nat.
Proof.
  eassert (_state Examples.scenario_b = Some _) as Hs by reflexivity.
  destruct (get_conversation_window Examples.scenario_b _ 0 Hs)
    as (w & Hw & _ & _ & Hzero & _).
  exists w. split; [exact Hw|]. by rewrite (Hzero eq_refl).
Defined.

(** X14. [get_tasks] returns, in the order of the task list and
    without changing anything, exactly the tasks that pass each filter
    that is given; a filter that is [None] lets every task pass, so an
    unassigned task can be listed only without an assignee filter. *)
Theorem get_tasks_filters (self : t) (s : ConversationState.t)
    (status : option TaskStatus.t) (assigned_to : option AgentRole.t) :
  _state self = Some s →
  ∃ found,
    get_tasks status assigned_to self = (Return found, self)
    ∧ sublist found (ConversationState.tasks s)
    ∧ (∀ x, x ∈ found
            ↔ x ∈ ConversationState.tasks s
              ∧ (∀ st, status = Some st → Task.status x = st)
              ∧ (∀ a, assigned_to = Some a → Task.assigned_to x = Some a))
    ∧ (status = None → assigned_to = None →
       found = ConversationState.tasks s)
    ∧ (is_Some assigned_to → ∀ x, x ∈ found → is_Some (Task.assigned_to x)).
Proof.
  intros Hs. destruct self as [? f l]. cbn in Hs. subst.
  eexists. split; [reflexivity|].
  assert (∀ (p : Task.t → bool) (xs : list Task.t),
            sublist (List.filter p xs) xs) as Hsub.
  { intros p xs. induction xs as [|y xs IH]; cbn; [done|].
    destruct (p y); by constructor. }
  assert (∀ (p : Task.t → bool) (xs : list Task.t) x,
            x ∈ List.filter p xs ↔ x ∈ xs ∧ p x = true) as Hin.
  { intros p xs x. rewrite !list_elem_of_In. apply filter_In. }
  destruct status as [st|], assigned_to as [a|]; cbn.
  - split_and!.
    + etrans; apply Hsub.
    + intros x. rewrite !Hin, !bool_decide_eq_true. split.
      * intros [[? ?] ?]. split_and!; [done|congruence..].
      * intros (? & H1 & H2). split_and!; eauto.
    + done.
    + intros _ x. rewrite !Hin, !bool_decide_eq_true. intros [_ ->]. eauto.
  - split_and!.
    + apply Hsub.
    + intros x. rewrite !Hin, !bool_decide_eq_true. split.
      * intros [? ?]. split_and!; [done|congruence|done].
      * intros (? & H1 & _). split_and!; eauto.
    + done.
    + by intros [? [=]].
  - split_and!.
    + apply Hsub.
    + intros x. rewrite !Hin, !bool_decide_eq_true. split.
      * intros [? ?]. split_and!; [done|done|congruence].
      * intros (? & _ & H2). split_and!; eauto.
    + done.
    + intros _ x. rewrite !Hin, !bool_decide_eq_true. intros [_ ->]. eauto.
  - split_and!.
    + done.
    + intros x. split; [intros ?; split_and!; done | by intros []].
    + done.
    + by intros [? [=]].
Qed.

Lemma get_tasks_filters_witness :
  get_tasks (Some TaskStatus.IN_PROGRESS) (Some AgentRole.CODEX)
    Examples.scenario_a_claimed
  = (Return [], Examples.scenario_a_claimed).
Proof.
  eassert (_state Examples.scenario_a_claimed = Some _) as Hs
    by reflexivity.
  destruct (get_tasks_filters Examples.scenario_a_claimed _
              (Some TaskStatus.IN_PROGRESS) (Some AgentRole.CODEX) Hs)
    as (found & Hfound & _ & Hin & _).
  rewrite Hfound. do 2 f_equal. apply elem_of_nil_inv. intros x Hx.
  apply Hin in Hx as (Hx & Hst & Hto).
  specialize (Hst _ eq_refl). specialize (Hto _ eq_refl).
  vm_compute in Hx.
  repeat (apply elem_of_cons in Hx as [->|Hx]; [discriminate|]).
  by apply elem_of_nil in Hx.
Defined.

Lemma count_status_le (tasks : list Task.t) :
  (count_status TaskStatus.PENDING tasks
   + count_status TaskStatus.IN_PROGRESS tasks
   + count_status TaskStatus.COMPLETED tasks ≤ List.length tasks)%nat
  ∧ (Forall task_consistent tasks →
     (count_status TaskStatus.PENDING tasks
      + count_status TaskStatus.IN_PROGRESS tasks
      + count_status TaskStatus.COMPLETED tasks = List.length tasks)%nat).
Proof.
  unfold count_status. induction tasks as [|x tasks [IH1 IH2]]; [done|].
  cbn. split.
  - destruct (Task.status x); repeat case_bool_decide; try done; cbn; lia.
  - intros [Hx Hall]%Forall_cons. specialize (IH2 Hall).
    unfold task_consistent in Hx.
    destruct (Task.status x); try done;
      repeat case_bool_decide; try done; cbn; lia.
Qed.

Lemma pending_reviews_by_agent (reviews : list ReviewRequest.t) :
  let pending agent :=
    List.length
      (List.filter
         (λ r, bool_decide (ReviewRequest.to_agent r = agent)
               && bool_decide (ReviewRequest.verdict r = None)) reviews) in
  List.length
    (List.filter (λ r, bool_decide (ReviewRequest.verdict r = None)) reviews)
  = (pending AgentRole.CLAUDE + pending AgentRole.GEMINI
     + pending AgentRole.CODEX + pending AgentRole.COPILOT)%nat.
Proof.
  induction reviews as [|r reviews IH]; [done|]. cbn in *.
  destruct (ReviewRequest.to_agent r), (ReviewRequest.verdict r);
    repeat case_bool_decide; try done; cbn; lia.
Qed.

(** X15. [get_status] changes nothing and its numbers agree with
    the other reads: the total is the number of tasks; each count is the
    length of what [get_tasks] lists for that status; the three counts
    never exceed the total and add up to it when every task is
    consistent, as in every state the manager has built from an empty
    one; and [pending_reviews] is the sum, over the four agents, of the
    lengths of their pending-review lists. *)
Theorem get_status_counts (self : t) (s : ConversationState.t) :
  _state self = Some s →
  ∃ st,
    get_status self = (Return st, self)
    ∧ Status.message_count st = List.length (ConversationState.messages s)
    ∧ Status.total (Status.tasks st)
      = List.length (ConversationState.tasks s)
    ∧ (∀ pending in_progress completed,
         get_tasks (Some TaskStatus.PENDING) None self
         = (Return pending, self) →
         get_tasks (Some TaskStatus.IN_PROGRESS) None self
         = (Return in_progress, self) →
         get_tasks (Some TaskStatus.COMPLETED) None self
         = (Return completed, self) →
         Status.pending (Status.tasks st) = List.length pending
         ∧ Status.in_progress (Status.tasks st) = List.length in_progress
         ∧ Status.completed (Status.tasks st) = List.length completed)
    ∧ (Status.pending (Status.tasks st)
       + Status.in_progress (Status.tasks st)
       + Status.completed (Status.tasks st)
       ≤ Status.total (Status.tasks st))%nat
    ∧ (Forall task_consistent (ConversationState.tasks s) →
       (Status.pending (Status.tasks st)
        + Status.in_progress (Status.tasks st)
        + Status.completed (Status.tasks st)
        = Status.total (Status.tasks st))%nat)
    ∧ (∀ claude gemini codex copilot,
         get_pending_reviews AgentRole.CLAUDE self = (Return claude, self) →
         get_pending_reviews AgentRole.GEMINI self = (Return gemini, self) →
         get_pending_reviews AgentRole.CODEX self = (Return codex, self) →
         get_pending_reviews AgentRole.COPILOT self
         = (Return copilot, self) →
         Status.pending_reviews st
         = (List.length claude + List.length gemini + List.length codex
            + List.length copilot)%nat).
Proof.
  intros Hs. destruct self as [? f l]. cbn in Hs. subst.
  eexists. split; [reflexivity|]. cbn.
  destruct (count_status_le (ConversationState.tasks s)) as [Hle Heq].
  split_and!; try done.
  - intros p i c [= <-] [= <-] [= <-]. done.
  - intros c g x p [= <-] [= <-] [= <-] [= <-].
    apply pending_reviews_by_agent.
Qed.

Lemma get_status_counts_witness :
  ∃ st,
    get_status Examples.busy_session = (Return st, Examples.busy_session)
    ∧ Status.tasks st = Status.mk_counts 0 1 1 2
    ∧ Status.pending_reviews st = 0%nat.
Proof.
  eassert (_state Examples.busy_session = Some _) as Hs by reflexivity.
  destruct (get_status_counts Examples.busy_session _ Hs)
    as (st & Hst & _).
  exists st. split; [exact Hst|].
  vm_compute in Hst. injection Hst as <-. split; reflexivity.
Defined.

(** ** Sending and reading messages *)

Lemma get_inbox_loop_app (agent : AgentRole.t) (unread_only : bool)
    (l1 l2 : list Message.t) :
  get_inbox_loop agent unread_only (l1 ++ l2)
  = get_inbox_loop agent unread_only l1
    ++ get_inbox_loop agent unread_only l2.
Proof.
  induction l1 as [|m l1 IH]; [done|]. cbn.
  destruct (is_for_agent agent m && negb (is_from_self agent m));
    [|done].
  destruct (unread_only && Message.read m); [done|].
  cbn. by rewrite IH.
Qed.

(** A new, unread message at the end of the list: which inboxes get it. *)
Lemma get_inbox_loop_snoc (agent : AgentRole.t) (unread_only : bool)
    (messages : list Message.t) (msg : Message.t) :
  Message.read msg = false →
  get_inbox_loop agent unread_only (messages ++ [msg])
  = if decide ((Message.to_agent msg = Some agent
                ∨ Message.to_agent msg = None)
               ∧ Message.from_agent msg ≠ agent)
    then get_inbox_loop agent unread_only messages ++ [msg]
    else get_inbox_loop agent unread_only messages.
Proof.
  intros Hread. rewrite get_inbox_loop_app. cbn.
  unfold is_for_agent, is_from_self. rewrite Hread, andb_false_r.
  destruct (decide _) as [[Hto Hfrom]|Hno].
  - rewrite (bool_decide_eq_false_2 _ Hfrom).
    destruct Hto as [-> | ->].
    + by rewrite bool_decide_eq_true_2.
    + rewrite (bool_decide_eq_true_2 (None = None)) by done.
      by rewrite orb_true_r.
  - destruct (decide (Message.from_agent msg = agent)) as [->|Hfrom].
    + rewrite (bool_decide_eq_true_2 _ eq_refl), andb_false_r.
      by rewrite app_nil_r.
    + rewrite !bool_decide_eq_false_2 by (intros ?; apply Hno; auto).
      by rewrite app_nil_r.
Qed.

Lemma mark_read_loop_find (message_id : string) (l : list Message.t) :
  mark_read_loop message_id l
  = match list_find (λ m, Message.id m = message_id) l with
    | Some (i, m) => <[i := Message.set_read true m]> l
    | None => l
    end.
Proof.
  induction l as [|m l IH]; [done|]. cbn.
  destruct (decide (Message.id m = message_id)); [done|].
  rewrite IH. by destruct (list_find _ l) as [[]|].
Qed.

Lemma get_inbox_eq (s : ConversationState.t) (f : option json)
    (l : option string) (agent : AgentRole.t) (unread_only : bool) :
  get_inbox agent unread_only (mk (Some s) f l)
  = (Return (get_inbox_loop agent unread_only
               (ConversationState.messages s)), mk (Some s) f l).
Proof. reflexivity. Qed.

Lemma set_messages_same (s : ConversationState.t) :
  ConversationState.set_messages (ConversationState.messages s) s = s.
Proof. by destruct s. Qed.

(** X16. [send_message] on an initialised manager always succeeds:
    the message it returns is unread, carries the arguments, and is
    appended to the end of the message list.  For every agent, read or
    unread, the inbox afterwards is the inbox before followed by the new
    message if it is addressed to that agent or to nobody and the agent is
    not its sender, and is the inbox before otherwise; so a message an
    agent addresses to itself reaches no inbox at all. *)
Theorem send_message_delivery (self : t) (s : ConversationState.t)
    (uuid : string) (utcnow : datetime.t) (from_agent : AgentRole.t)
    (to_agent : option AgentRole.t) (content : string)
    (message_type : MessageType.t) (priority : Priority.t)
    (in_reply_to : option string) :
  _state self = Some s →
  let msg :=
    Message.mk uuid utcnow from_agent to_agent message_type content
      priority in_reply_to false in
  ∃ self' s',
    send_message uuid utcnow from_agent to_agent content message_type
      priority in_reply_to self = (Return msg, self')
    ∧ _state self' = Some s'
    ∧ ConversationState.messages s' = ConversationState.messages s ++ [msg]
    ∧ (∀ agent unread_only inbox,
         get_inbox agent unread_only self = (Return inbox, self) →
         get_inbox agent unread_only self'
         = (Return
              (if decide ((to_agent = Some agent ∨ to_agent = None)
                          ∧ from_agent ≠ agent)
               then inbox ++ [msg] else inbox),
            self'))
    ∧ (to_agent = Some from_agent →
       ∀ agent unread_only,
         (get_inbox agent unread_only self').1
         = (get_inbox agent unread_only self).1).
Proof.
  intros Hs msg. destruct self as [? f l]. cbn in Hs. subst.
  assert (∀ agent unread_only,
            get_inbox_loop agent unread_only
              (ConversationState.messages s ++ [msg])
            = if decide ((to_agent = Some agent ∨ to_agent = None)
                         ∧ from_agent ≠ agent)
              then get_inbox_loop agent unread_only
                     (ConversationState.messages s) ++ [msg]
              else get_inbox_loop agent unread_only
                     (ConversationState.messages s)) as Hinbox.
  { intros agent unread_only. by apply get_inbox_loop_snoc. }
  set (s' := ConversationState.set_messages
                (ConversationState.messages s ++ [msg]) s).
  exists (mk (Some s') (Some (ConversationState.model_dump s'))
            (Some (default "" l
                   +:+ message_entry msg
                         (match to_agent with
                          | Some a => AgentRole.value a
                          | None => "ALL"
                          end)
                   +:+ nl +:+ nl))), s'.
  split_and!; [reflexivity|reflexivity|reflexivity| |].
  - intros agent unread_only inbox. rewrite !get_inbox_eq. intros [= <-].
    change (ConversationState.messages s')
      with (ConversationState.messages s ++ [msg]).
    by rewrite Hinbox.
  - intros -> agent unread_only. rewrite !get_inbox_eq.
    change (ConversationState.messages s')
      with (ConversationState.messages s ++ [msg]).
    rewrite Hinbox.
    rewrite decide_False; [done|]. intros [[[= ->]|[=]] ?]. done.
Qed.

Lemma send_message_delivery_witness :
  ∃ msg self' before,
    send_message "ffff0010" Examples.t3 AgentRole.GEMINI None "to all"
      MessageType.BROADCAST Priority.NORMAL None Examples.scenario_b
    = (Return msg, self')
    ∧ get_inbox AgentRole.CODEX false Examples.scenario_b
      = (Return before, Examples.scenario_b)
    ∧ get_inbox AgentRole.CODEX false self'
      = (Return (before ++ [msg]), self')
    ∧ get_inbox AgentRole.GEMINI false self' = (Return before, self').
Proof.
  eassert (_state Examples.scenario_b = Some _) as Hs by reflexivity.
  destruct (send_message_delivery Examples.scenario_b _ "ffff0010"
              Examples.t3 AgentRole.GEMINI None "to all"
              MessageType.BROADCAST Priority.NORMAL None Hs)
    as (self' & s' & Hsend & _ & _ & Hinbox & _).
  eexists _, self', _. split; [exact Hsend|].
  split; [reflexivity|]. split.
  - erewrite Hinbox by reflexivity. reflexivity.
  - erewrite Hinbox by reflexivity. reflexivity.
Defined.

(** X17. [mark_read] on an initialised manager always succeeds
    and saves.  Its [agent] argument is not used: the read flag belongs to
    the message, not to a reader.  With no message of that id the state
    is unchanged.  Otherwise the first message with that id, and only it,
    gets the flag: it leaves the unread inbox of every agent, the
    messages before and after it stay where they were, and every inbox
    that includes read messages keeps its length. *)
Theorem mark_read_hides_message (self : t) (s : ConversationState.t)
    (message_id : string) (agent : AgentRole.t) :
  _state self = Some s →
  let messages := ConversationState.messages s in
  ∃ self' s',
    mark_read message_id agent self = (Return (), self')
    ∧ _state self' = Some s'
    ∧ state_file self' = Some (ConversationState.model_dump s')
    ∧ conversation_log self' = conversation_log self
    ∧ (∀ other, mark_read message_id other self = (Return (), self'))
    ∧ ((∀ m, m ∈ messages → Message.id m ≠ message_id) → s' = s)
    ∧ (∀ i m,
         list_find (λ m, Message.id m = message_id) messages = Some (i, m) →
         ConversationState.messages s'
         = <[i := Message.set_read true m]> messages
         ∧ ∀ reader,
             get_inbox reader true self'
             = (Return (get_inbox_loop reader true (take i messages)
                        ++ get_inbox_loop reader true
                             (drop (S i) messages)), self')
             ∧ ∃ inbox',
                 get_inbox reader false self' = (Return inbox', self')
                 ∧ List.length inbox'
                   = List.length (get_inbox_loop reader false messages)).
Proof.
  intros Hs messages. destruct self as [? f l]. cbn in Hs. subst.
  set (s' := ConversationState.set_messages
                (mark_read_loop message_id messages) s).
  exists (mk (Some s') (Some (ConversationState.model_dump s')) l), s'.
  split_and!; try reflexivity.
  - intros Hnone. subst s'. cbn. rewrite mark_read_loop_find.
    destruct (list_find _ _) as [[i m]|] eqn:Hf.
    + apply list_find_Some in Hf as (Hi & Hid & _).
      exfalso. eapply Hnone; [|exact Hid]. by eapply list_elem_of_lookup_2.
    + apply set_messages_same.
  - intros i m Hf. subst s'. cbn. rewrite mark_read_loop_find.
    rewrite Hf. split; [done|].
    apply list_find_Some in Hf as (Hi & _ & _).
    pose proof (take_drop_middle _ _ _ Hi) as Hsplit.
    assert (<[i := Message.set_read true m]> messages
            = take i messages ++ Message.set_read true m
              :: drop (S i) messages) as Hins.
    { rewrite <-Hsplit at 1.
      pose proof (lookup_lt_Some _ _ _ Hi) as Hlt.
      rewrite insert_app_r_alt by (rewrite length_take; lia).
      rewrite length_take, Nat.min_l by lia.
      by rewrite Nat.sub_diag. }
    intros reader. split.
    + rewrite get_inbox_eq. cbn [ConversationState.messages
        ConversationState.set_messages]. rewrite Hins.
      rewrite get_inbox_loop_app. cbn.
      by destruct (is_for_agent reader _ && negb (is_from_self reader _)).
    + eexists. split; [apply get_inbox_eq|].
      cbn [ConversationState.messages ConversationState.set_messages].
      rewrite Hins.
      replace (get_inbox_loop reader false messages)
        with (get_inbox_loop reader false
                (take i messages ++ m :: drop (S i) messages))
        by (by rewrite Hsplit).
      rewrite !get_inbox_loop_app. cbn.
      unfold is_for_agent, is_from_self. cbn.
      destruct (_ && _); by rewrite !length_app.
Qed.

Lemma mark_read_hides_message_witness :
  ∃ self',
    mark_read "ffff0006" AgentRole.COPILOT Examples.scenario_b
    = (Return (), self')
    ∧ get_inbox AgentRole.GEMINI true self' = (Return [], self').
Proof.
  eassert (_state Examples.scenario_b = Some _) as Hs by reflexivity.
  destruct (mark_read_hides_message Examples.scenario_b _ "ffff0006"
              AgentRole.COPILOT Hs)
    as (self' & s' & Hmark & _ & _ & _ & _ & _ & Hfound).
  exists self'. split; [exact Hmark|].
  match type of Hs with
  | _ = Some ?s =>
      eassert (list_find (λ m, Message.id m = "ffff0006")
                 (ConversationState.messages s) = Some _) as Hf
        by (vm_compute; reflexivity)
  end.
  destruct (Hfound _ _ Hf) as [_ Hinbox].
  destruct (Hinbox AgentRole.GEMINI) as [-> _]. reflexivity.
Defined.

(** ** The life of a task *)

Lemma get_task_loop_Some_find (task_id : string) (l : list Task.t)
    (x : Task.t) :
  get_task_loop task_id l = Some x →
  ∃ i, list_find (λ y, Task.id y = task_id) l = Some (i, x).
Proof.
  rewrite get_task_loop_find.
  destruct (list_find _ l) as [[i y]|]; [|done].
  intros [= ->]. eauto.
Qed.

(** X18. [create_task] on an initialised manager always
    succeeds: the task it returns is pending, unowned and without result,
    and is appended to the end of the task list.  Looking up any other id
    gives what it gave before.  Looking up the new id gives the new task
    when no task had that id, and still gives the old task when one had.
    A task created under an unused id and without dependencies can be
    claimed at once by every agent, whoever it is assigned to. *)
Theorem create_task_lookup (self : t) (s : ConversationState.t)
    (uuid : string) (utcnow_created utcnow_updated : datetime.t)
    (title description : string) (created_by : AgentRole.t)
    (assigned_to : option AgentRole.t) (dependencies : option (list string)) :
  _state self = Some s →
  let task :=
    Task.mk uuid utcnow_created utcnow_updated title description
      TaskStatus.PENDING created_by assigned_to None
      (default [] dependencies) None [] in
  ∃ self' s',
    create_task uuid utcnow_created utcnow_updated title description
      created_by assigned_to dependencies self = (Return task, self')
    ∧ _state self' = Some s'
    ∧ ConversationState.tasks s' = ConversationState.tasks s ++ [task]
    ∧ (∀ k, k ≠ uuid →
            (get_task k self').1 = (get_task k self).1)
    ∧ (get_task uuid self = (Return None, self) →
       get_task uuid self' = (Return (Some task), self'))
    ∧ (∀ old, get_task uuid self = (Return (Some old), self) →
              get_task uuid self' = (Return (Some old), self'))
    ∧ (get_task uuid self = (Return None, self) →
       default [] dependencies = [] →
       ∀ utcnow agent,
         ∃ x', (claim_task utcnow uuid agent self').1 = Return (Some x')
               ∧ Task.claimed_by x' = Some agent
               ∧ Task.status x' = TaskStatus.IN_PROGRESS).
Proof.
  intros Hs task. destruct self as [? f l]. cbn in Hs. subst.
  set (s' := ConversationState.set_tasks
                (ConversationState.tasks s ++ [task]) s).
  exists (mk (Some s') (Some (ConversationState.model_dump s'))
            (Some (default "" l +:+ task_created_entry task
                   +:+ nl +:+ nl))), s'.
  assert (∀ k, get_task_loop k (ConversationState.tasks s')
               = match get_task_loop k (ConversationState.tasks s) with
                 | Some x => Some x
                 | None => if decide (uuid = k) then Some task else None
                 end) as Hlookup.
  { intros k. subst s'. cbn [ConversationState.tasks
      ConversationState.set_tasks]. by rewrite get_task_loop_app. }
  split_and!; [reflexivity..| | | |].
  - intros k Hk. rewrite !get_task_eq. cbn [fst]. rewrite Hlookup.
    destruct (get_task_loop k _); [done|]. by rewrite decide_False.
  - rewrite !get_task_eq. intros [= Hnone]. rewrite Hlookup, Hnone.
    by rewrite decide_True.
  - intros old. rewrite !get_task_eq. intros [= Hold].
    by rewrite Hlookup, Hold.
  - rewrite get_task_eq. intros [= Hnone] Hdeps utcnow agent.
    assert (get_task_loop uuid (ConversationState.tasks s') = Some task)
      as Hnew by (by rewrite Hlookup, Hnone, decide_True).
    destruct (get_task_loop_Some_find _ _ _ Hnew) as [i Hf].
    erewrite claim_task_ok; [| exact Hf | done |].
    + eexists. split_and!; reflexivity.
    + intros dep d Hdep. cbn in Hdep. rewrite Hdeps in Hdep.
      by apply elem_of_nil in Hdep.
Qed.

Lemma create_task_lookup_witness :
  ∃ task self' x',
    create_task "cccc0003" Examples.t3 Examples.t3 "Docs" "Write them"
      AgentRole.CLAUDE (Some AgentRole.GEMINI) None Examples.scenario_a
    = (Return task, self')
    ∧ get_task "cccc0003" self' = (Return (Some task), self')
    ∧ (claim_task Examples.t3 "cccc0003" AgentRole.CODEX self').1
      = Return (Some x')
    ∧ Task.assigned_to x' = Some AgentRole.GEMINI
    ∧ Task.claimed_by x' = Some AgentRole.CODEX.
Proof.
  eassert (_state Examples.scenario_a = Some _) as Hs by reflexivity.
  destruct (create_task_lookup Examples.scenario_a _ "cccc0003"
              Examples.t3 Examples.t3 "Docs" "Write them"
              AgentRole.CLAUDE (Some AgentRole.GEMINI) None Hs)
    as (self' & s' & Hcreate & _ & _ & _ & Hnew & _ & Hclaim).
  assert (get_task "cccc0003" Examples.scenario_a
          = (Return None, Examples.scenario_a)) as Hfree
    by (vm_compute; reflexivity).
  destruct (Hclaim Hfree eq_refl Examples.t3 AgentRole.CODEX)
    as (x' & Hx' & Hby & _).
  eexists _, self', x'.
  split; [exact Hcreate|]. split; [exact (Hnew Hfree)|].
  split; [exact Hx'|]. split; [|exact Hby].
  destruct (returned_initialised _ _ _ Hx') as [s1 Hs1].
  rewrite (initialised_eq _ _ Hs1) in Hx'.
  pose proof (Hnew Hfree) as Hget.
  rewrite (initialised_eq _ _ Hs1), get_task_eq in Hget.
  injection Hget as Hget.
  destruct (claim_task_cases s1 (state_file self') (conversation_log self')
              Examples.t3 "cccc0003" AgentRole.CODEX)
    as [[Heq _]|(i & x & Hf & _ & _ & Heq)];
    rewrite Heq in Hx'; [discriminate|].
  injection Hx' as <-.
  rewrite get_task_loop_find, Hf in Hget. by injection Hget as ->.
Defined.

(** X19. A successful claim is a lasting right to complete.
    Once [claim_task] has succeeded for [agent], then after any further
    calls short of a reset, [complete_task] by any other agent is rejected
    and changes nothing, and [complete_task] by [agent] succeeds, whether
    or not the task is completed already: the task then holds the result
    of this call and is still owned by [agent]. *)
Theorem complete_after_claim (self self1 : t) (utcnow : datetime.t)
    (task_id : string) (agent : AgentRole.t) (x1 : Task.t)
    (calls : list Call) :
  claim_task utcnow task_id agent self = (Return (Some x1), self1) →
  Forall (λ c, is_reset c = false) calls →
  let self2 := run calls self1 in
  (∀ utcnow' other result files_modified,
     other ≠ agent →
     complete_task utcnow' task_id other result files_modified self2
     = (Return None, self2))
  ∧ (∀ utcnow' result files_modified,
       ∃ x3 self3,
         complete_task utcnow' task_id agent result files_modified self2
         = (Return (Some x3), self3)
         ∧ get_task task_id self3 = (Return (Some x3), self3)
         ∧ Task.status x3 = TaskStatus.COMPLETED
         ∧ Task.result x3 = Some result
         ∧ Task.claimed_by x3 = Some agent
         ∧ Task.dependencies x3 = Task.dependencies x1).
Proof.
  intros Hclaim Hcalls self2.
  pose proof (run_preserves_held _ _ _ calls self1 Hcalls
                (claim_task_holds _ _ _ _ _ _ Hclaim))
    as (s2 & x2 & Hs2 & Hx2 & Ho2 & Hd2).
  fold self2 in Hs2. rewrite (initialised_eq _ _ Hs2). split.
  - intros utcnow' other result files_modified Hne.
    eapply complete_task_not_owner; [done|]. congruence.
  - intros utcnow' result files_modified.
    destruct (get_task_loop_Some_find _ _ _ Hx2) as [i Hf].
    pose proof Hf as (_ & Hid & _)%list_find_Some.
    rewrite (complete_task_ok s2 _ _ utcnow' task_id agent result
               files_modified i x2 Hf Ho2).
    eexists _, _. split; [reflexivity|]. split_and!; try done.
    rewrite get_task_eq. do 2 f_equal. cbn.
    erewrite get_task_loop_insert; [|exact Hf|exact Hid].
    by rewrite decide_True.
Qed.

Lemma complete_after_claim_witness :
  let self2 :=
    run [SetContext "branch" "main"] Examples.scenario_a_claimed in
  complete_task Examples.t3 "bbbb0002" AgentRole.CODEX "mine" None self2
  = (Return None, self2).
Proof.
  eassert (claim_task Examples.t2 "bbbb0002" AgentRole.GEMINI
             Examples.scenario_a_done
           = (Return (Some _), Examples.scenario_a_claimed)) as Hclaim
    by (vm_compute; reflexivity).
  refine (proj1 (complete_after_claim _ _ _ _ _ _ _ Hclaim _) Examples.t3
            AgentRole.CODEX "mine" None _).
  - repeat constructor.
  - discriminate.
Defined.

(** X20. Completing a dependency unblocks its dependants.  Let
    task [x] depend on several ids, all of which resolve to nothing or to
    a completed task except possibly [dep_id], whose task is owned by
    [owner]; and let [x] not be claimed by an agent other than [agent].
    While the task of [dep_id] is among the dependencies and not
    completed, [agent]'s claim of [x] is rejected; after [owner]
    completes it, the claim succeeds. *)
Theorem completion_unblocks (self : t) (s : ConversationState.t)
    (utcnow utcnow' : datetime.t) (task_id dep_id : string)
    (agent owner : AgentRole.t) (x d : Task.t) (result : string)
    (files_modified : option (list string)) :
  _state self = Some s →
  get_task_loop task_id (ConversationState.tasks s) = Some x →
  get_task_loop dep_id (ConversationState.tasks s) = Some d →
  task_id ≠ dep_id →
  Task.claimed_by d = Some owner →
  claimed_by_other agent x = false →
  (∀ k y, k ∈ Task.dependencies x → k ≠ dep_id →
          get_task_loop k (ConversationState.tasks s) = Some y →
          Task.status y = TaskStatus.COMPLETED) →
  (dep_id ∈ Task.dependencies x →
   Task.status d ≠ TaskStatus.COMPLETED →
   claim_task utcnow' task_id agent self = (Return None, self))
  ∧ ∃ d' self',
      complete_task utcnow dep_id owner result files_modified self
      = (Return (Some d'), self')
      ∧ ∃ x' self'',
          claim_task utcnow' task_id agent self' = (Return (Some x'), self'')
          ∧ Task.claimed_by x' = Some agent
          ∧ Task.status x' = TaskStatus.IN_PROGRESS.
Proof.
  intros Hs Hx Hd Hne Ho Hfree Hrest.
  rewrite (initialised_eq _ _ Hs). split.
  - intros Hin Hst. by eapply claim_task_blocked.
  - destruct (get_task_loop_Some_find _ _ _ Hd) as [i Hf].
    pose proof Hf as (_ & Hid & _)%list_find_Some.
    rewrite (complete_task_ok s _ _ utcnow dep_id owner result
               files_modified i d Hf Ho).
    eexists _, _. split; [reflexivity|].
    set (d' := Task.set_updated_at utcnow _).
    set (s' := ConversationState.set_tasks _ s).
    assert (∀ k, get_task_loop k (ConversationState.tasks s')
                 = if decide (k = dep_id) then Some d'
                   else get_task_loop k (ConversationState.tasks s))
      as Hlookup.
    { intros k. subst s'. cbn [ConversationState.tasks
        ConversationState.set_tasks].
      by erewrite get_task_loop_insert; [|exact Hf|exact Hid]. }
    assert (get_task_loop task_id (ConversationState.tasks s') = Some x)
      as Hx' by (by rewrite Hlookup, decide_False).
    destruct (get_task_loop_Some_find _ _ _ Hx') as [j Hj].
    erewrite claim_task_ok; [| exact Hj | exact Hfree |].
    + eexists _, _. split; [reflexivity|]. done.
    + intros k y Hk. rewrite Hlookup.
      destruct (decide (k = dep_id)) as [->|Hkd].
      * by intros [= <-].
      * by apply Hrest.
Qed.

Lemma completion_unblocks_witness :
  claim_task Examples.t3 "bbbb0002" AgentRole.GEMINI
    Examples.scenario_a_started
  = (Return None, Examples.scenario_a_started)
  ∧ ∃ d' self' x' self'',
      complete_task Examples.t2 "aaaa0001" AgentRole.CODEX "done" None
        Examples.scenario_a_started
      = (Return (Some d'), self')
      ∧ claim_task Examples.t3 "bbbb0002" AgentRole.GEMINI self'
        = (Return (Some x'), self'').
Proof.
  eassert (_state Examples.scenario_a_started = Some _) as Hs
    by reflexivity.
  match type of Hs with
  | _ = Some ?s =>
      eassert (get_task_loop "bbbb0002" (ConversationState.tasks s)
               = Some _) as Hx by (vm_compute; reflexivity);
      eassert (get_task_loop "aaaa0001" (ConversationState.tasks s)
               = Some _) as Hd by (vm_compute; reflexivity)
  end.
  edestruct (completion_unblocks Examples.scenario_a_started _
               Examples.t2 Examples.t3 "bbbb0002" "aaaa0001"
               AgentRole.GEMINI AgentRole.CODEX _ _ "done" None Hs Hx Hd)
    as [Hblocked (d' & self' & Hdone & x' & self'' & Hclaim & _)].
  - discriminate.
  - reflexivity.
  - reflexivity.
  - intros k y Hk Hne. cbn in Hk.
    apply list_elem_of_singleton in Hk. congruence.
  - split.
    + apply Hblocked; [|discriminate]. cbn. left.
    + eauto 10.
Defined.

(** ** Reviews *)

Lemma get_pending_reviews_eq (s : ConversationState.t) (f : option json)
    (l : option string) (agent : AgentRole.t) :
  get_pending_reviews agent (mk (Some s) f l)
  = (Return (List.filter
               (λ r, bool_decide (ReviewRequest.to_agent r = agent)
                     && bool_decide (ReviewRequest.verdict r = None))
               (ConversationState.reviews s)), mk (Some s) f l).
Proof. reflexivity. Qed.


Lemma filter_update {A} (p : A → bool) (l : list A) (i : nat) (x x' : A) :
  l !! i = Some x →
  List.filter p l
  = List.filter p (take i l) ++ (if p x then [x] else [])
    ++ List.filter p (drop (S i) l)
  ∧ List.filter p (<[i := x']> l)
    = List.filter p (take i l) ++ (if p x' then [x'] else [])
      ++ List.filter p (drop (S i) l).
Proof.
  intros Hi. pose proof (take_drop_middle _ _ _ Hi) as Hsplit.
  pose proof (lookup_lt_Some _ _ _ Hi) as Hlt. split.
  - rewrite <-Hsplit at 1. rewrite List.filter_app. cbn.
    by destruct (p x).
  - assert (<[i := x']> l = take i l ++ x' :: drop (S i) l) as ->.
    { rewrite <-Hsplit at 1.
      rewrite insert_app_r_alt by (rewrite length_take; lia).
      rewrite length_take, Nat.min_l by lia.
      by rewrite Nat.sub_diag. }
    rewrite List.filter_app. cbn. by destruct (p x').
Qed.

(** X21. [request_review] on an initialised manager always
    succeeds: the review it returns has no verdict and is appended to the
    reviews, and a high-priority [REVIEW_REQUEST] message quoting its id
    is appended to the messages.  The review joins the end of the
    reviewer's pending list and no other agent's.  The message joins the
    reviewer's inbox, unless the requester names itself as reviewer: then
    the review is pending but no inbox gets the message. *)
Theorem request_review_pending (self : t) (s : ConversationState.t)
    (uuid : string) (utcnow : datetime.t) (uuid_msg : string)
    (utcnow_msg : datetime.t) (from_agent to_agent : AgentRole.t)
    (content : string) (task_id : option string)
    (files : option (list string)) :
  _state self = Some s →
  let review :=
    ReviewRequest.mk uuid utcnow from_agent to_agent task_id content
      (default [] files) None None in
  let msg :=
    Message.mk uuid_msg utcnow_msg from_agent (Some to_agent)
      MessageType.REVIEW_REQUEST (review_request_content uuid content)
      Priority.HIGH None false in
  ∃ self' s',
    request_review uuid utcnow uuid_msg utcnow_msg from_agent to_agent
      content task_id files self = (Return review, self')
    ∧ _state self' = Some s'
    ∧ ConversationState.reviews s'
      = ConversationState.reviews s ++ [review]
    ∧ ConversationState.messages s'
      = ConversationState.messages s ++ [msg]
    ∧ (∀ pending,
         get_pending_reviews to_agent self = (Return pending, self) →
         get_pending_reviews to_agent self'
         = (Return (pending ++ [review]), self'))
    ∧ (∀ agent, agent ≠ to_agent →
                (get_pending_reviews agent self').1
                = (get_pending_reviews agent self).1)
    ∧ (from_agent ≠ to_agent →
       ∀ unread_only inbox,
         get_inbox to_agent unread_only self = (Return inbox, self) →
         get_inbox to_agent unread_only self'
         = (Return (inbox ++ [msg]), self'))
    ∧ (from_agent = to_agent →
       ∀ agent unread_only,
         (get_inbox agent unread_only self').1
         = (get_inbox agent unread_only self).1).
Proof.
  intros Hs review msg. destruct self as [? f l]. cbn in Hs. subst.
  set (s1 := ConversationState.set_reviews
                (ConversationState.reviews s ++ [review]) s).
  set (s2 := ConversationState.set_messages
                (ConversationState.messages s1 ++ [msg]) s1).
  exists (mk (Some s2) (Some (ConversationState.model_dump s2))
            (Some (default "" l
                   +:+ message_entry msg (AgentRole.value to_agent)
                   +:+ nl +:+ nl))), s2.
  split_and!; [reflexivity..| | | |].
  - intros pending. rewrite !get_pending_reviews_eq. intros [= <-].
    change (ConversationState.reviews s2)
      with (ConversationState.reviews s ++ [review]).
    rewrite List.filter_app. cbn.
    by rewrite !bool_decide_eq_true_2.
  - intros agent Hne. rewrite !get_pending_reviews_eq. cbn [fst].
    change (ConversationState.reviews s2)
      with (ConversationState.reviews s ++ [review]).
    rewrite List.filter_app. cbn.
    rewrite (bool_decide_eq_false_2 (to_agent = agent)) by congruence.
    cbn. by rewrite app_nil_r.
  - intros Hne unread_only inbox. rewrite !get_inbox_eq. intros [= <-].
    change (ConversationState.messages s2)
      with (ConversationState.messages s ++ [msg]).
    rewrite get_inbox_loop_snoc by done.
    rewrite decide_True; [done|]. split; [by left | done].
  - intros -> agent unread_only. rewrite !get_inbox_eq. cbn [fst].
    change (ConversationState.messages s2)
      with (ConversationState.messages s ++ [msg]).
    rewrite get_inbox_loop_snoc by done.
    rewrite decide_False; [done|]. cbn. intros [[[= ->]|[=]] ?]. done.
Qed.

Lemma request_review_pending_witness :
  ∃ review self',
    request_review "cccc0003" Examples.t1 "dddd0004" Examples.t1
      AgentRole.COPILOT AgentRole.CODEX "review diff" None None
      Examples.fresh_session
    = (Return review, self')
    ∧ get_pending_reviews AgentRole.CODEX self'
      = (Return [review], self')
    ∧ (get_pending_reviews AgentRole.COPILOT self').1 = Return [].
Proof.
  eassert (_state Examples.fresh_session = Some _) as Hs by reflexivity.
  destruct (request_review_pending Examples.fresh_session _ "cccc0003"
              Examples.t1 "dddd0004" Examples.t1 AgentRole.COPILOT
              AgentRole.CODEX "review diff" None None Hs)
    as (self' & s' & Hreq & _ & _ & _ & Hpending & Hothers & _).
  eexists _, self'. split; [exact Hreq|]. split.
  - exact (Hpending [] eq_refl).
  - rewrite (Hothers AgentRole.COPILOT) by discriminate. reflexivity.
Defined.

(** X22. A successful [submit_review] closes the review and
    reports back.  The review that got the verdict leaves the reviewer's
    pending list if it was on it, and nothing else leaves or joins any
    agent's pending list.  A high-priority [REVIEW_RESULT] message from
    the reviewer to the requester, quoting the id, the verdict and the
    feedback, is appended to the messages; it joins the requester's
    inbox unless requester and reviewer are the same agent. *)
Theorem submit_review_reports_back (self : t) (s : ConversationState.t)
    (uuid : string) (utcnow : datetime.t) (review_id : string)
    (agent : AgentRole.t) (verdict feedback : string) (i : nat)
    (r : ReviewRequest.t) :
  _state self = Some s →
  list_find (λ r, ReviewRequest.id r = review_id
                  ∧ ReviewRequest.to_agent r = agent)
    (ConversationState.reviews s) = Some (i, r) →
  let requester := ReviewRequest.from_agent r in
  let msg :=
    Message.mk uuid utcnow agent (Some requester)
      MessageType.REVIEW_RESULT
      (review_result_content review_id verdict feedback) Priority.HIGH
      None false in
  ∃ r' self' s',
    submit_review uuid utcnow review_id agent verdict feedback self
    = (Return (Some r'), self')
    ∧ _state self' = Some s'
    ∧ ConversationState.messages s'
      = ConversationState.messages s ++ [msg]
    ∧ (∀ other pending,
         get_pending_reviews other self = (Return pending, self) →
         ∃ pending',
           get_pending_reviews other self' = (Return pending', self')
           ∧ sublist pending' pending
           ∧ List.length pending
             = (List.length pending'
                + if decide (other = agent ∧ ReviewRequest.verdict r = None)
                  then 1 else 0)%nat
           ∧ r' ∉ pending')
    ∧ (requester ≠ agent →
       ∀ unread_only inbox,
         get_inbox requester unread_only self = (Return inbox, self) →
         get_inbox requester unread_only self'
         = (Return (inbox ++ [msg]), self'))
    ∧ (requester = agent →
       ∀ reader unread_only,
         (get_inbox reader unread_only self').1
         = (get_inbox reader unread_only self).1).
Proof.
  intros Hs Hf requester msg. destruct self as [? f l]. cbn in Hs. subst.
  rewrite (submit_review_ok s f l uuid utcnow review_id agent verdict
             feedback i r Hf).
  set (r' := ReviewRequest.set_feedback _ _).
  set (s1 := ConversationState.set_reviews _ s).
  set (s2 := ConversationState.set_messages _ s1).
  eexists r', _, s2. split_and!; [reflexivity..| | |].
  - intros other pending. rewrite !get_pending_reviews_eq. intros [= <-].
    eexists. split; [reflexivity|].
    change (ConversationState.reviews s2)
      with (<[i := r']> (ConversationState.reviews s)).
    pose proof Hf as (Hi & [_ Hto] & _)%list_find_Some.
    set (p := λ q, bool_decide (ReviewRequest.to_agent q = other)
                   && bool_decide (ReviewRequest.verdict q = None)).
    destruct (filter_update p _ i r r' Hi) as [-> ->].
    assert (p r' = false) as -> by (unfold p; cbn; apply andb_false_r).
    assert (p r = bool_decide (other = agent
                               ∧ ReviewRequest.verdict r = None)) as ->.
    { unfold p. rewrite Hto. apply eq_true_iff_eq.
      rewrite andb_true_iff, !bool_decide_eq_true.
      split; intros [? ?]; split; congruence. }
    cbn [app].
    split_and!.
    + apply sublist_app; [done|]. apply sublist_inserts_l. done.
    + rewrite !length_app. case_bool_decide.
      * rewrite decide_True by done. cbn. lia.
      * rewrite decide_False by done. cbn. lia.
    + intros Hin. apply elem_of_app in Hin as [Hin|Hin];
        apply list_elem_of_In, filter_In in Hin as [_ Hin];
        apply andb_true_iff in Hin as [_ Hin];
        by apply bool_decide_eq_true in Hin.
  - intros Hne unread_only inbox. rewrite !get_inbox_eq. intros [= <-].
    change (ConversationState.messages s2)
      with (ConversationState.messages s ++ [msg]).
    rewrite get_inbox_loop_snoc by done.
    rewrite decide_True; [done|]. split; [by left | cbn; congruence].
  - intros Heq reader unread_only. rewrite !get_inbox_eq. cbn [fst].
    change (ConversationState.messages s2)
      with (ConversationState.messages s ++ [msg]).
    rewrite get_inbox_loop_snoc by done.
    rewrite decide_False; [done|]. cbn.
    intros [[[= <-]|[=]] ?]. congruence.
Qed.

Lemma submit_review_reports_back_witness :
  ∃ r' self' msg,
    submit_review "eeee0005" Examples.t2 "cccc0003" AgentRole.CODEX
      "APPROVED" "ok" Examples.scenario_d
    = (Return (Some r'), self')
    ∧ get_pending_reviews AgentRole.CODEX self' = (Return [], self')
    ∧ get_inbox AgentRole.COPILOT true self' = (Return [msg], self')
    ∧ Message.message_type msg = MessageType.REVIEW_RESULT.
Proof.
  eassert (_state Examples.scenario_d = Some _) as Hs by reflexivity.
  match type of Hs with
  | _ = Some ?s =>
      eassert (list_find (λ r, ReviewRequest.id r = "cccc0003"
                               ∧ ReviewRequest.to_agent r = AgentRole.CODEX)
                 (ConversationState.reviews s) = Some (_, _)) as Hf
        by (vm_compute; reflexivity)
  end.
  destruct (submit_review_reports_back Examples.scenario_d _ "eeee0005"
              Examples.t2 "cccc0003" AgentRole.CODEX "APPROVED" "ok" _ _
              Hs Hf)
    as (r' & self' & s' & Hsubmit & _ & _ & Hpending & Hinbox & _).
  eexists r', self', _. split; [exact Hsubmit|].
  destruct (Hpending AgentRole.CODEX _ eq_refl)
    as (pending' & Hp & _ & Hlen & _).
  split; [|split].
  - rewrite Hp. destruct pending'; [done|].
    rewrite decide_True in Hlen by (split; reflexivity).
    cbn in Hlen. rewrite bool_decide_eq_true_2 in Hlen by done.
    cbn in Hlen. lia.
  - refine (Hinbox _ true [] eq_refl). discriminate.
  - reflexivity.
Defined.

(** ** The shared context *)

Lemma get_context_eq (s : ConversationState.t) (f : option json)
    (l : option string) (key : string) :
  get_context key (mk (Some s) f l)
  = (Return (ConversationState.context s !! key), mk (Some s) f l).
Proof. reflexivity. Qed.

(** X23. [set_context] on an initialised manager always
    succeeds and saves; [get_context] of the same key then returns the
    value just set, whatever was there before, every other key reads as
    it did, and [get_all_context] is the old dict with that one entry
    replaced.  [get_context] reads what [get_all_context] holds under
    the key, so a key that was never set reads as [None] and does not
    raise. *)
Theorem set_then_get_context (self : t) (s : ConversationState.t)
    (key value : string) :
  _state self = Some s →
  ∃ self' s',
    set_context key value self = (Return (), self')
    ∧ _state self' = Some s'
    ∧ state_file self' = Some (ConversationState.model_dump s')
    ∧ conversation_log self' = conversation_log self
    ∧ get_context key self' = (Return (Some value), self')
    ∧ (∀ k, k ≠ key → (get_context k self').1 = (get_context k self).1)
    ∧ (∀ before, get_all_context self = (Return before, self) →
                 get_all_context self'
                 = (Return (<[key := value]> before), self'))
    ∧ (∀ before k, get_all_context self = (Return before, self) →
                   get_context k self = (Return (before !! k), self)).
Proof.
  intros Hs. destruct self as [? f l]. cbn in Hs. subst.
  set (s' := ConversationState.set_context
                (<[key := value]> (ConversationState.context s)) s).
  exists (mk (Some s') (Some (ConversationState.model_dump s')) l), s'.
  split_and!; try reflexivity.
  - rewrite get_context_eq. do 2 f_equal. apply lookup_insert_eq.
  - intros k Hk. rewrite !get_context_eq. cbn [fst]. f_equal.
    by apply lookup_insert_ne.
  - by intros before [= <-].
  - by intros before k [= <-].
Qed.

Lemma set_then_get_context_witness :
  ∃ self',
    set_context "branch" "main" Examples.fresh_session = (Return (), self')
    ∧ get_context "branch" self' = (Return (Some "main"), self')
    ∧ (get_context "base" self').1 = Return None.
Proof.
  eassert (_state Examples.fresh_session = Some _) as Hs by reflexivity.
  destruct (set_then_get_context Examples.fresh_session _ "branch" "main"
              Hs)
    as (self' & s' & Hset & _ & _ & _ & Hget & Hother & _).
  exists self'. split; [exact Hset|]. split; [exact Hget|].
  rewrite Hother by discriminate. reflexivity.
Defined.

(** X24. [append_context] on an initialised manager always
    succeeds and saves, and touches only its key.  When the key is
    missing, or holds the empty string, the key then holds [value] alone;
    otherwise it holds the old text, a newline and [value].  So appending
    to a missing key is the same call as [set_context], and values
    appended one after the other end up on lines of their own. *)
Theorem append_context_joins (self : t) (s : ConversationState.t)
    (key value : string) :
  _state self = Some s →
  ∃ self' s',
    append_context key value self = (Return (), self')
    ∧ _state self' = Some s'
    ∧ state_file self' = Some (ConversationState.model_dump s')
    ∧ conversation_log self' = conversation_log self
    ∧ (∀ k, k ≠ key → (get_context k self').1 = (get_context k self).1)
    ∧ (get_context key self = (Return None, self)
       ∨ get_context key self = (Return (Some ""), self) →
       get_context key self' = (Return (Some value), self'))
    ∧ (get_context key self = (Return None, self) →
       append_context key value self = set_context key value self)
    ∧ (∀ existing,
         get_context key self = (Return (Some existing), self) →
         existing ≠ "" →
         get_context key self'
         = (Return (Some (existing +:+ nl +:+ value)), self')
         ∧ ∀ value2 self'',
             append_context key value2 self' = (Return (), self'') →
             get_context key self''
             = (Return (Some (existing +:+ nl +:+ value +:+ nl +:+ value2)),
                self'')).
Proof.
  intros Hs. destruct self as [? f l]. cbn in Hs. subst.
  set (new := if decide (default "" (ConversationState.context s !! key)
                         = "")
              then value
              else default "" (ConversationState.context s !! key)
                   +:+ nl +:+ value).
  set (s' := ConversationState.set_context
                (<[key := new]> (ConversationState.context s)) s).
  exists (mk (Some s') (Some (ConversationState.model_dump s')) l), s'.
  assert (get_context key
            (mk (Some s') (Some (ConversationState.model_dump s')) l)
          = (Return (Some new),
             mk (Some s') (Some (ConversationState.model_dump s')) l))
    as Hget.
  { rewrite get_context_eq. do 2 f_equal. apply lookup_insert_eq. }
  split_and!; try reflexivity.
  - intros k Hk. rewrite !get_context_eq. cbn [fst]. f_equal.
    by apply lookup_insert_ne.
  - rewrite Hget, get_context_eq. subst new.
    intros [[= ->]|[= ->]]; by rewrite decide_True.
  - rewrite get_context_eq. intros [= Hnone].
    unfold append_context, set_context. rewrite !bind_eq. cbn.
    rewrite Hnone. cbn. by rewrite decide_True.
  - intros existing. rewrite Hget, get_context_eq. intros [= Hold] Hne.
    assert (new = existing +:+ nl +:+ value) as Hnew.
    { subst new. rewrite Hold. cbn. by rewrite decide_False. }
    split; [by rewrite Hnew|].
    intros value2 self''. unfold append_context. rewrite !bind_eq. cbn.
    rewrite lookup_insert_eq. cbn. rewrite Hnew.
    rewrite decide_False.
    + intros [= <-]. rewrite get_context_eq. do 2 f_equal. cbn.
      rewrite lookup_insert_eq. by rewrite <-!append_assoc.
    + destruct existing; [done|]. by rewrite append_cons.
Qed.

Lemma append_context_joins_witness :
  ∃ self' self'',
    append_context "notes" "first" Examples.fresh_session
    = (Return (), self')
    ∧ get_context "notes" self' = (Return (Some "first"), self')
    ∧ append_context "notes" "second" self' = (Return (), self'')
    ∧ get_context "notes" self''
      = (Return (Some ("first" +:+ nl +:+ "second")), self'').
Proof.
  eassert (_state Examples.fresh_session = Some _) as Hs by reflexivity.
  destruct (append_context_joins Examples.fresh_session _ "notes" "first"
              Hs)
    as (self' & s' & Happ & Hs' & _ & _ & _ & Hmissing & _).
  specialize (Hmissing (or_introl eq_refl)).
  destruct (append_context_joins self' s' "notes" "second" Hs')
    as (self'' & s'' & Happ' & _ & _ & _ & _ & _ & _ & Hjoin).
  exists self', self''. split; [exact Happ|]. split; [exact Hmissing|].
  split; [exact Happ'|].
  by destruct (Hjoin "first" Hmissing ltac:(discriminate)) as [-> _].
Defined.

(** ** Votes *)



(** X25. [create_vote] on an initialised manager always
    succeeds, whatever votes exist already and whatever the options are:
    the vote it returns has no entries and is appended to the votes, and a
    broadcast from claude announcing it is appended to the messages.  The
    announcement joins the inbox of every agent but claude.  When no
    earlier vote has the topic, a cast on it by any agent succeeds exactly
    for the listed options, so on an empty option list every cast is
    rejected. *)
Theorem create_vote_announced (self : t) (s : ConversationState.t)
    (uuid : string) (utcnow : datetime.t) (topic : string)
    (options : list string) :
  _state self = Some s →
  let vote := Vote.mk topic options ∅ None None in
  let msg :=
    Message.mk uuid utcnow AgentRole.CLAUDE None MessageType.BROADCAST
      (vote_content topic options) Priority.NORMAL None false in
  ∃ self' s',
    create_vote uuid utcnow topic options self = (Return vote, self')
    ∧ _state self' = Some s'
    ∧ ConversationState.active_votes s'
      = ConversationState.active_votes s ++ [vote]
    ∧ ConversationState.messages s'
      = ConversationState.messages s ++ [msg]
    ∧ (∀ agent unread_only inbox,
         agent ≠ AgentRole.CLAUDE →
         get_inbox agent unread_only self = (Return inbox, self) →
         get_inbox agent unread_only self'
         = (Return (inbox ++ [msg]), self'))
    ∧ (∀ unread_only,
         (get_inbox AgentRole.CLAUDE unread_only self').1
         = (get_inbox AgentRole.CLAUDE unread_only self).1)
    ∧ ((∀ w, w ∈ ConversationState.active_votes s →
             Vote.topic w ≠ topic) →
       ∀ agent choice,
         (choice ∈ options →
          (cast_vote topic agent choice self').1
          = Return (Some (Vote.mk topic options
                            {[AgentRole.value agent := choice]} None None)))
         ∧ (choice ∉ options →
            cast_vote topic agent choice self' = (Return None, self'))).
Proof.
  intros Hs vote msg. destruct self as [? f l]. cbn in Hs. subst.
  set (s1 := ConversationState.set_active_votes
                (ConversationState.active_votes s ++ [vote]) s).
  set (s2 := ConversationState.set_messages
                (ConversationState.messages s1 ++ [msg]) s1).
  exists (mk (Some s2) (Some (ConversationState.model_dump s2))
            (Some (default "" l +:+ message_entry msg "ALL"
                   +:+ nl +:+ nl))), s2.
  split_and!; [reflexivity..| | |].
  - intros agent unread_only inbox Hne. rewrite !get_inbox_eq.
    intros [= <-].
    change (ConversationState.messages s2)
      with (ConversationState.messages s ++ [msg]).
    rewrite get_inbox_loop_snoc by done.
    rewrite decide_True; [done|]. split; [by right | cbn; congruence].
  - intros unread_only. rewrite !get_inbox_eq. cbn [fst].
    change (ConversationState.messages s2)
      with (ConversationState.messages s ++ [msg]).
    rewrite get_inbox_loop_snoc by done.
    rewrite decide_False; [done|]. cbn. by intros [_ ?].
  - intros Hfresh agent choice. split.
    + intros Hin.
      erewrite (cast_vote_at s2 _ _ topic agent choice
                  (ConversationState.active_votes s) vote []);
        [ | reflexivity | reflexivity | exact Hin |].
      * cbn. by rewrite insert_empty.
      * intros w Hw [Ht _]. by apply (Hfresh w).
    + intros Hout. apply cast_vote_none.
      change (ConversationState.active_votes s2)
        with (ConversationState.active_votes s ++ [vote]).
      intros w [Hw|Hw]%elem_of_app [Ht Hc].
      * by apply (Hfresh w).
      * apply list_elem_of_singleton in Hw as ->. by apply Hout.
Qed.

Lemma create_vote_announced_witness :
  ∃ vote self',
    create_vote "abcd0008" Examples.t1 "lang" [] Examples.fresh_session
    = (Return vote, self')
    ∧ cast_vote "lang" AgentRole.GEMINI "go" self' = (Return None, self').
Proof.
  eassert (_state Examples.fresh_session = Some _) as Hs by reflexivity.
  destruct (create_vote_announced Examples.fresh_session _ "abcd0008"
              Examples.t1 "lang" [] Hs)
    as (self' & s' & Hcreate & _ & _ & _ & _ & _ & Hcast).
  eexists _, self'. split; [exact Hcreate|].
  apply Hcast.
  - intros w Hw. cbn in Hw. by apply elem_of_nil in Hw.
  - apply not_elem_of_nil.
Defined.




(** ** Escalation *)

(** X27. [escalate_to_human] on an initialised manager always
    succeeds: it sets the flag and the reason (replacing an earlier
    reason), which [get_status] then reports, and appends an urgent
    [ESCALATION] broadcast from the agent, which joins the inbox of every
    other agent.  [clear_escalation] afterwards resets the flag and the
    reason and nothing else: the broadcast stays in the messages and in
    the inboxes, and the transcript is not touched. *)
Theorem escalate_then_clear (self : t) (s : ConversationState.t)
    (uuid : string) (utcnow : datetime.t) (agent : AgentRole.t)
    (reason : string) :
  _state self = Some s →
  let msg :=
    Message.mk uuid utcnow agent None MessageType.ESCALATION
      (escalation_content reason) Priority.URGENT None false in
  ∃ self1 s1 status1,
    escalate_to_human uuid utcnow agent reason self = (Return (), self1)
    ∧ _state self1 = Some s1
    ∧ s1 = ConversationState.set_messages
             (ConversationState.messages s ++ [msg])
             (ConversationState.set_escalation_reason (Some reason)
                (ConversationState.set_human_intervention_requested true
                   s))
    ∧ get_status self1 = (Return status1, self1)
    ∧ Status.human_intervention_requested status1 = true
    ∧ Status.escalation_reason status1 = Some reason
    ∧ (∀ other unread_only inbox,
         other ≠ agent →
         get_inbox other unread_only self = (Return inbox, self) →
         get_inbox other unread_only self1
         = (Return (inbox ++ [msg]), self1))
    ∧ ∃ self2 s2 status2,
        clear_escalation self1 = (Return (), self2)
        ∧ _state self2 = Some s2
        ∧ s2 = ConversationState.set_messages
                 (ConversationState.messages s ++ [msg])
                 (ConversationState.set_escalation_reason None
                    (ConversationState.set_human_intervention_requested
                       false s))
        ∧ state_file self2 = Some (ConversationState.model_dump s2)
        ∧ conversation_log self2 = conversation_log self1
        ∧ get_status self2 = (Return status2, self2)
        ∧ Status.human_intervention_requested status2 = false
        ∧ Status.escalation_reason status2 = None
        ∧ ∀ other unread_only,
            (get_inbox other unread_only self2).1
            = (get_inbox other unread_only self1).1.
Proof.
  intros Hs msg. destruct self as [? f l]. cbn in Hs. subst.
  set (s1 := ConversationState.set_messages
                (ConversationState.messages s ++ [msg])
                (ConversationState.set_escalation_reason (Some reason)
                   (ConversationState.set_human_intervention_requested
                      true s))).
  set (s2 := ConversationState.set_messages
                (ConversationState.messages s ++ [msg])
                (ConversationState.set_escalation_reason None
                   (ConversationState.set_human_intervention_requested
                      false s))).
  set (log1 := Some (default ""
                       (Some (default "" l +:+ escalation_entry agent reason
                              +:+ nl +:+ nl))
                     +:+ message_entry msg "ALL" +:+ nl +:+ nl)).
  exists (mk (Some s1) (Some (ConversationState.model_dump s1)) log1), s1.
  eexists. split_and!; [reflexivity..| |].
  - intros other unread_only inbox Hne. rewrite !get_inbox_eq.
    intros [= <-].
    change (ConversationState.messages s1)
      with (ConversationState.messages s ++ [msg]).
    rewrite get_inbox_loop_snoc by done.
    rewrite decide_True; [done|]. split; [by right | cbn; congruence].
  - exists (mk (Some s2) (Some (ConversationState.model_dump s2)) log1), s2.
    eexists. split_and!; reflexivity.
Qed.

Lemma escalate_then_clear_witness :
  ∃ self1 self2 status2,
    escalate_to_human "ffff0006" Examples.t3 AgentRole.COPILOT "stuck"
      Examples.fresh_session = (Return (), self1)
    ∧ clear_escalation self1 = (Return (), self2)
    ∧ get_status self2 = (Return status2, self2)
    ∧ Status.human_intervention_requested status2 = false
    ∧ Status.message_count status2 = 1%nat.
Proof.
  eassert (_state Examples.fresh_session = Some _) as Hs by reflexivity.
  destruct (escalate_then_clear Examples.fresh_session _ "ffff0006"
              Examples.t3 AgentRole.COPILOT "stuck" Hs)
    as (self1 & s1 & status1 & Hesc & _ & _ & _ & _ & _ & _
        & self2 & s2 & status2 & Hclear & Hs2 & Heq & _ & _ & Hstatus
        & Hflag & _).
  exists self1, self2, status2.
  split; [exact Hesc|]. split; [exact Hclear|]. split; [exact Hstatus|].
  split; [exact Hflag|].
  rewrite (initialised_eq _ _ Hs2) in Hstatus. injection Hstatus as <-.
  rewrite Heq. reflexivity.
Defined.
